(** * AudienceForcaster: data processor and forecast engine

    A shallow embedding of [src/data_processor.py] (class [DataProcessor]),
    [src/time_series.py] (class [TimeSeriesModels]) and of the forecast
    export of [app.py], with the properties the specification states
    about them.

    Conventions.
    - A Python exception is a value of [exn]; a call that may raise returns
      [except A].  A method that mutates [self] returns the new object
      next to its outcome, so that what was assigned before a [raise] is
      kept, as in Python.
    - A finite number is a rational [Q] and arithmetic on finite numbers is
      exact (no rounding, no overflow).  What an IEEE operation gives
      outside the finite numbers (division by zero, [inf - inf]) is kept:
      see [fval].
    - pandas, numpy, scikit-learn, statsmodels and prophet are libraries.
      What the program relies on of them is either written out from their
      documented behaviour (column selection, sorting, rolling windows,
      the regression metrics) or taken as a parameter (the CSV reader, the
      date parser, the imputer, the three forecasting backends). *)

From Stdlib Require Import String Ascii.
From Stdlib Require Import ZArith QArith Qabs List Bool Lia.
From Stdlib Require Import Sorting.Sorted Permutation.
Import ListNotations.

Local Open Scope string_scope.
Local Open Scope list_scope.
Local Open Scope Z_scope.

(* ================================================================== *)
(** * Exceptions *)

Inductive exn : Type :=
| ValueError (msg : string)
| KeyError (key : string)
| AttributeError (msg : string)
| IndexError (msg : string)
| TypeError (msg : string)
| Exception (msg : string).

Fixpoint has_char (c : ascii) (s : string) : bool :=
  match s with
  | EmptyString => false
  | String a rest => Ascii.eqb a c || has_char c rest
  end.

(** [repr(s)] of a string without backslashes or control characters:
    in single quotes, or in double quotes when it holds a single quote
    and no double one. *)
Definition str_repr (s : string) : string :=
  if has_char "'" s && negb (has_char "034" s)
  then String "034" (s ++ String "034" EmptyString)
  else "'" ++ s ++ "'".

(** [repr] of a list of strings. *)
Definition list_repr (ls : list string) : string :=
  "[" ++ String.concat ", " (map str_repr ls) ++ "]".

(** [str(e)]: the message; a [KeyError] prints the [repr] of its key. *)
Definition exn_str (e : exn) : string :=
  match e with
  | ValueError m | AttributeError m | IndexError m | TypeError m
  | Exception m => m
  | KeyError k => str_repr k
  end.

Inductive except (A : Type) : Type :=
| Ok (a : A)
| Raise (e : exn).
Arguments Ok {A} a.
Arguments Raise {A} e.

Definition bind {A B} (c : except A) (k : A -> except B) : except B :=
  match c with
  | Ok a => k a
  | Raise e => Raise e
  end.

Notation "x <- c ;; k" := (bind c (fun x => k))
  (at level 61, c at next level, right associativity).

Definition is_value_error (e : exn) : bool :=
  match e with ValueError _ => true | _ => false end.

Definition raises {A} (c : except A) : Prop :=
  match c with Ok _ => False | Raise _ => True end.

(* ================================================================== *)
(** * Numbers *)

(** A float: a finite value, an infinity, or not-a-number.  The sign of
    zero is not tracked: a zero divisor is [+0]. *)
Inductive fval : Type :=
| Fin (q : Q)
| PInf
| NInf
| NaN.

Definition Qzerob (q : Q) : bool := Qeq_bool q 0.
Definition Qposb (q : Q) : bool := negb (Qle_bool q 0).

Definition fadd (x y : fval) : fval :=
  match x, y with
  | NaN, _ | _, NaN => NaN
  | Fin a, Fin b => Fin (a + b)
  | PInf, NInf | NInf, PInf => NaN
  | PInf, _ | _, PInf => PInf
  | NInf, _ | _, NInf => NInf
  end.

(** The infinity with the sign of [q]; [0 * inf] is not a number. *)
Definition signed_inf (q : Q) (pos : bool) : fval :=
  if Qzerob q then NaN
  else if Bool.eqb (Qposb q) pos then PInf else NInf.

Definition fmul (x y : fval) : fval :=
  match x, y with
  | NaN, _ | _, NaN => NaN
  | Fin a, Fin b => Fin (a * b)
  | Fin a, PInf | PInf, Fin a => signed_inf a true
  | Fin a, NInf | NInf, Fin a => signed_inf a false
  | PInf, PInf | NInf, NInf => PInf
  | PInf, NInf | NInf, PInf => NInf
  end.

(** numpy's true division: [x / 0] is an infinity for [x <> 0] and
    not-a-number for [x = 0] (the warning it prints is filtered out by
    [warnings.filterwarnings('ignore')]). *)
Definition fdiv (x y : fval) : fval :=
  match x, y with
  | NaN, _ | _, NaN => NaN
  | Fin a, Fin b =>
      if Qzerob b then
        if Qzerob a then NaN else if Qposb a then PInf else NInf
      else Fin (a / b)
  | Fin _, (PInf | NInf) => Fin 0
  | (PInf | NInf), (PInf | NInf) => NaN
  | PInf, Fin b => if Qposb b || Qzerob b then PInf else NInf
  | NInf, Fin b => if Qposb b || Qzerob b then NInf else PInf
  end.

Definition fabs (x : fval) : fval :=
  match x with
  | Fin q => Fin (Qabs q)
  | PInf | NInf => PInf
  | NaN => NaN
  end.

(** Square root of a non-negative rational, truncated to 52 binary digits
    after the point: an approximation from below of what the float
    operation rounds.  The properties use of it only that it is 0 at 0
    and never negative. *)
Definition Qsqrt (q : Q) : Q :=
  Z.sqrt (Qnum q * 2 ^ 104 / Z.pos (Qden q)) # (2 ^ 52).

Definition fsqrt (x : fval) : fval :=
  match x with
  | Fin q => if Qle_bool 0 q then Fin (Qsqrt q) else NaN
  | PInf => PInf
  | NInf | NaN => NaN
  end.

Definition is_nan (x : fval) : bool :=
  match x with NaN => true | _ => false end.

Definition is_inf (x : fval) : bool :=
  match x with PInf | NInf => true | _ => false end.

(** [x] is the finite number [q]. *)
Definition is_fin (q : Q) (x : fval) : bool :=
  match x with Fin a => Qeq_bool a q | _ => false end.

Definition Qsquare (q : Q) : Q := (q * q)%Q.

Definition Qsum (l : list Q) : Q := fold_left Qplus l 0%Q.
Definition fsum (l : list fval) : fval := fold_left fadd l (Fin 0).

Definition Qlen {A} (l : list A) : Q := inject_Z (Z.of_nat (length l)).

(** [np.mean] of a float array: the sum over the length; of an empty
    array it is [0 / 0]. *)
Definition np_mean (l : list fval) : fval := fdiv (fsum l) (Fin (Qlen l)).

(** [Series.mean()], which [np.mean] calls when it is given a pandas
    Series: values that are not a number are skipped ([skipna=True]),
    infinities are not; with nothing left it is [0 / 0]. *)
Definition series_mean (l : list fval) : fval :=
  np_mean (filter (fun x => negb (is_nan x)) l).

(** Mean of an array of finite numbers known to be non-empty. *)
Definition Qmean (l : list Q) : Q := (Qsum l / Qlen l)%Q.

(* ================================================================== *)
(** * Regression metrics ([TimeSeriesModels.calculate_metrics]) *)

Module Metrics.

(** The input validation shared by scikit-learn's regression metrics:
    both arrays have the same number of samples, and at least one.  The
    arrays here hold finite numbers; an array with a missing or infinite
    entry is refused before, see [as_finite]. *)
Definition check_reg_targets (y_true y_pred : list Q) : except unit :=
  if negb (Nat.eqb (length y_true) (length y_pred)) then
    Raise (ValueError "Found input variables with inconsistent numbers of samples")
  else if Nat.eqb (length y_true) 0 then
    Raise (ValueError "Found array with 0 sample(s) while a minimum of 1 is required")
  else Ok tt.

Definition residuals (y_true y_pred : list Q) : list Q :=
  map (fun p => (fst p - snd p)%Q) (combine y_true y_pred).

Definition mean_squared_error (y_true y_pred : list Q) : except Q :=
  _ <- check_reg_targets y_true y_pred ;;
  Ok (Qmean (map Qsquare (residuals y_true y_pred))).

Definition mean_absolute_error (y_true y_pred : list Q) : except Q :=
  _ <- check_reg_targets y_true y_pred ;;
  Ok (Qmean (map Qabs (residuals y_pred y_true))).

(** [r2_score]: not defined (NaN) on fewer than two samples; on a
    constant [y_true] the score is 1 for a perfect prediction and 0
    otherwise. *)
Definition r2_score (y_true y_pred : list Q) : except fval :=
  _ <- check_reg_targets y_true y_pred ;;
  if Nat.ltb (length y_true) 2 then Ok NaN
  else
    let numerator := Qsum (map Qsquare (residuals y_true y_pred)) in
    let m := Qmean y_true in
    let denominator := Qsum (map (fun y => Qsquare (y - m)) y_true) in
    if negb (Qzerob denominator) then Ok (Fin (1 - numerator / denominator))
    else if negb (Qzerob numerator) then Ok (Fin 0)
    else Ok (Fin 1).

(** The dictionary [calculate_metrics] returns, one field per key. *)
Record metrics : Type := mk_metrics {
  RMSE : fval;
  MAE : fval;
  MAPE : fval;
  R2 : fval
}.

(** [(actual - predicted) / actual], elementwise on numpy arrays. *)
Definition relative_errors (actual predicted : list Q) : list fval :=
  map (fun p => fdiv (Fin (fst p - snd p)) (Fin (fst p))) (combine actual predicted).

(** What the two arguments are: numpy arrays, or array and pandas
    Series (the dashboard passes [series.values] and
    [model.fittedvalues], an array and a Series).  With a Series among
    them [(actual - predicted) / actual] is a Series, and [np.mean] of
    it is [Series.mean()]. *)
Inductive operands : Type :=
| Arrays
| WithSeries.

Definition mean_of (k : operands) (l : list fval) : fval :=
  match k with
  | Arrays => np_mean l
  | WithSeries => series_mean l
  end.

Definition calculate_metrics_of (k : operands) (actual predicted : list Q)
  : except metrics :=
  mse <- mean_squared_error actual predicted ;;
  let rmse := fsqrt (Fin mse) in
  mae <- mean_absolute_error actual predicted ;;
  let mape := fmul (mean_of k (map fabs (relative_errors actual predicted))) (Fin 100) in
  r2 <- r2_score actual predicted ;;
  Ok {| RMSE := rmse; MAE := Fin mae; MAPE := mape; R2 := r2 |}.

(** [calculate_metrics] on two numpy arrays. *)
Definition calculate_metrics (actual predicted : list Q) : except metrics :=
  calculate_metrics_of Arrays actual predicted.

End Metrics.


(* ================================================================== *)
(** * Data frames *)

(** A cell of a frame: text, a finite number, a timestamp (nanoseconds
    since the epoch, as pandas stores it), or one of the two missing
    values, [NaN] of a numeric or text column and [NaT] of a datetime
    column. *)
Inductive cell : Type :=
| CStr (s : string)
| CNum (q : Q)
| CNaN
| CTime (t : Z)
| CNaT.

Definition column : Type := list cell.

Definition ns_per_hour : Z := 3600 * 10 ^ 9.
Definition ns_per_day : Z := 24 * ns_per_hour.

(** A frame: the row labels and the labelled columns, in order.  Labels
    may repeat (after a rename); rows are addressed by position. *)
Record DataFrame : Type := mk_df {
  index : column;
  columns : list (string * column)
}.

Definition nrows (df : DataFrame) : nat := length (index df).
Definition labels (df : DataFrame) : list string := map fst (columns df).

(** [name in df.columns] *)
Definition has_column (df : DataFrame) (name : string) : bool :=
  existsb (String.eqb name) (labels df).

(** [df[name]].  A label carried by several columns selects a sub-frame
    instead of a series; every place where this program selects one
    label needs a series and raises [ValueError] on a sub-frame
    ([pd.to_datetime], [groupby], assignment to one column), which is
    what is recorded here. *)
Definition getitem (df : DataFrame) (name : string) : except column :=
  match filter (fun c => String.eqb (fst c) name) (columns df) with
  | [] => Raise (KeyError name)
  | [c] => Ok (snd c)
  | _ => Raise (ValueError ("label is not unique: " ++ name))
  end.

(** [df[name] = series], for a series with the frame's own row labels:
    every column called [name] is replaced, and a new column is added at
    the end when there is none. *)
Definition setitem (df : DataFrame) (name : string) (c : column) : DataFrame :=
  if has_column df name then
    mk_df (index df)
          (map (fun lc => if String.eqb (fst lc) name then (fst lc, c) else lc)
               (columns df))
  else mk_df (index df) (columns df ++ [(name, c)]).

(** [df.rename(columns=mapping)] *)
Definition rename_label (mapping : list (string * string)) (l : string) : string :=
  match find (fun m => String.eqb (fst m) l) mapping with
  | Some m => snd m
  | None => l
  end.

Definition rename (mapping : list (string * string)) (df : DataFrame) : DataFrame :=
  mk_df (index df)
        (map (fun lc => (rename_label mapping (fst lc), snd lc)) (columns df)).

(** Rows by position: [df.iloc[rows]]. *)
Definition take (rows : list nat) (c : column) : column :=
  map (fun i => nth i c CNaN) rows.

Definition take_rows (rows : list nat) (df : DataFrame) : DataFrame :=
  mk_df (take rows (index df))
        (map (fun lc => (fst lc, take rows (snd lc))) (columns df)).

(** [series.tail(n)]: the last [n] rows, all of them when there are
    fewer. *)
Definition lastn {A} (n : nat) (l : list A) : list A :=
  skipn (length l - n) l.

(** [pd.date_range(start, periods=n)]: one timestamp a day. *)
Definition date_range (start : Z) (periods : nat) : list Z :=
  map (fun i => start + Z.of_nat i * ns_per_day) (seq 0 periods).

(** The order [sort_values] uses, ascending with missing values last.
    A column holds cells of one kind beside missing ones; the order
    between kinds only makes the comparison total. *)
Definition cell_leb (a b : cell) : bool :=
  match a, b with
  | _, (CNaN | CNaT) => true
  | (CNaN | CNaT), _ => false
  | CNum p, CNum q => Qle_bool p q
  | CStr s, CStr t => String.leb s t
  | CTime s, CTime t => Z.leb s t
  | CNum _, _ => true
  | _, CNum _ => false
  | CStr _, CTime _ => true
  | CTime _, CStr _ => false
  end.

(** Insertion of row [i] into rows already ordered by their keys, after
    the rows whose key is not greater. *)
Fixpoint insert_row (keys : column) (i : nat) (rows : list nat) : list nat :=
  match rows with
  | [] => [i]
  | j :: rest =>
      if cell_leb (nth j keys CNaN) (nth i keys CNaN)
      then j :: insert_row keys i rest
      else i :: rows
  end.

(** The positions of the rows in ascending order of their keys.  pandas
    does not promise an order between rows of equal key; this one keeps
    them as they were. *)
Definition argsort (keys : column) : list nat :=
  fold_left (fun rows i => insert_row keys i rows) (seq 0 (length keys)) [].

(** [df.sort_values(name)] *)
Definition sort_values (df : DataFrame) (name : string) : except DataFrame :=
  keys <- getitem df name ;;
  Ok (take_rows (argsort keys) df).

(** [df[mask]] *)
Fixpoint mask_rows (mask : list bool) (i : nat) : list nat :=
  match mask with
  | [] => []
  | b :: rest => if b then i :: mask_rows rest (S i) else mask_rows rest (S i)
  end.

Definition filter_rows (mask : list bool) (df : DataFrame) : DataFrame :=
  take_rows (mask_rows mask 0) df.

(** [df[[l1, ..., ln]]]: for each label in turn, every column that
    carries it; [KeyError] when some label is carried by no column. *)
Fixpoint positions_of (name : string) (ls : list string) (i : nat) : list nat :=
  match ls with
  | [] => []
  | l :: rest =>
      if String.eqb l name then i :: positions_of name rest (S i)
      else positions_of name rest (S i)
  end.

Fixpoint locate (df : DataFrame) (keys : list string) : option (list nat) :=
  match keys with
  | [] => Some []
  | k :: rest =>
      match positions_of k (labels df) 0 with
      | [] => None
      | ps => match locate df rest with
              | Some qs => Some (ps ++ qs)
              | None => None
              end
      end
  end.

(** The first occurrence of each label. *)
Fixpoint unique (ls : list string) : list string :=
  match ls with
  | [] => []
  | l :: rest => l :: filter (fun x => negb (String.eqb x l)) (unique rest)
  end.

(** The labels asked for that no column carries. *)
Definition not_found (df : DataFrame) (keys : list string) : list string :=
  unique (filter (fun k => negb (has_column df k)) keys).

(** The key of the [KeyError] is a message: it lists the labels that
    are absent, or all the labels asked for when every one is absent
    (pandas prints that list as an [Index], here on one line). *)
Definition positions (df : DataFrame) (keys : list string) : except (list nat) :=
  match locate df keys with
  | Some ps => Ok ps
  | None =>
      if forallb (fun k => negb (has_column df k)) keys then
        Raise (KeyError ("None of [Index(" ++ list_repr keys
                         ++ ", dtype='object')] are in the [columns]"))
      else Raise (KeyError (list_repr (not_found df keys) ++ " not in index"))
  end.

Definition column_at (df : DataFrame) (p : nat) : string * column :=
  nth p (columns df) (EmptyString, []).

Definition getitems (df : DataFrame) (keys : list string) : except DataFrame :=
  ps <- positions df keys ;;
  Ok (mk_df (index df) (map (column_at df) ps)).

(** Replacement of the values of the column at one position. *)
Fixpoint set_column_at (p : nat) (c : column) (cols : list (string * column))
  {struct cols} : list (string * column) :=
  match cols, p with
  | [], _ => []
  | lc :: rest, O => (fst lc, c) :: rest
  | lc :: rest, S p' => lc :: set_column_at p' c rest
  end.

(** [df[[l1, ..., ln]] = array], for a two-dimensional array given by its
    columns: the array needs one column per selected column and one row
    per row of the frame. *)
Definition setitems (df : DataFrame) (keys : list string) (arr : list column)
  : except DataFrame :=
  ps <- positions df keys ;;
  if negb (Nat.eqb (length arr) (length ps)) then
    Raise (ValueError "Columns must be same length as key")
  else if negb (forallb (fun c => Nat.eqb (length c) (nrows df)) arr) then
    Raise (ValueError "Length of values does not match length of index")
  else
    Ok (mk_df (index df)
              (fold_left (fun cols pc => set_column_at (fst pc) (snd pc) cols)
                         (combine ps arr) (columns df))).

(** The array [series.values] as scikit-learn accepts it: finite
    numbers only. *)
Fixpoint as_finite (c : column) : except (list Q) :=
  match c with
  | [] => Ok []
  | CNum q :: rest => qs <- as_finite rest ;; Ok (q :: qs)
  | (CNaN | CNaT) :: _ => Raise (ValueError "Input contains NaN.")
  | _ => Raise (ValueError "could not convert string to float")
  end.

(** [df.set_index(name)]: the column becomes the row labels. *)
Definition set_index (df : DataFrame) (name : string) : except DataFrame :=
  c <- getitem df name ;;
  Ok (mk_df c (filter (fun lc => negb (String.eqb (fst lc) name)) (columns df))).

(* ================================================================== *)
(** * Calendar fields of a timestamp *)

(** Days since 1970-01-01 (the calendar date of a timestamp). *)
Definition date_of (t : Z) : Z := t / ns_per_day.

Definition hour_of (t : Z) : Z := (t / ns_per_hour) mod 24.

(** Monday is 0; 1970-01-01 was a Thursday. *)
Definition dayofweek_of (t : Z) : Z := (date_of t + 3) mod 7.

(** Month of the proleptic Gregorian calendar, from the day number. *)
Definition month_of (t : Z) : Z :=
  let z := date_of t + 719468 in
  let era := z / 146097 in
  let doe := z - era * 146097 in
  let yoe := (doe - doe / 1460 + doe / 36524 - doe / 146096) / 365 in
  let doy := doe - (365 * yoe + yoe / 4 - yoe / 100) in
  let mp := (5 * doy + 2) / 153 in
  if mp <? 10 then mp + 3 else mp - 9.

(** [series.dt.field]; the field of [NaT] is missing. *)
Definition dt_field (f : Z -> Z) (c : column) : column :=
  map (fun x => match x with CTime t => CNum (inject_Z (f t)) | _ => CNaN end) c.

(** [series.isin(values).astype(int)] *)
Definition isin_int (values : list Q) (c : column) : column :=
  map (fun x => match x with
                | CNum q => if existsb (Qeq_bool q) values then CNum 1 else CNum 0
                | _ => CNum 0
                end) c.

(** [series.between(lo, hi).astype(int)], both ends included. *)
Definition between_int (lo hi : Q) (c : column) : column :=
  map (fun x => match x with
                | CNum q => if Qle_bool lo q && Qle_bool q hi then CNum 1 else CNum 0
                | _ => CNum 0
                end) c.

(* ================================================================== *)
(** * The data processor ([DataProcessor]) *)

Module DataProcessor.

(** What the processor uses of its libraries: the CSV reader, the parser
    behind [pd.to_datetime] for a value that is not missing, and
    [KNNImputer(n_neighbors=5).fit_transform] on a numeric block given
    and returned by columns. *)
Record Env : Type := mk_env {
  file : Type;
  read_csv : file -> except DataFrame;
  parse_datetime : cell -> option Z;
  fit_transform : list column -> except (list (list Q))
}.

Definition column_mapping : list (string * string) :=
  [("Date", "timestamp"); ("AudienceCount", "audience_count"); ("Platform", "platform")].

Definition required_columns : list string := ["Date"; "AudienceCount"; "Platform"].

Definition missing_columns_message : string :=
  "Missing required columns. Required: ['Date', 'AudienceCount', 'Platform']".

(** The body of the [try] block of [load_data]. *)
Definition load_data_body (env : Env) (uploaded_file : file env) : except DataFrame :=
  df <- read_csv env uploaded_file ;;
  if negb (forallb (has_column df) required_columns) then
    Raise (ValueError missing_columns_message)
  else Ok (rename column_mapping df).

(** [load_data]: whatever the body raises is raised again as a
    [ValueError]. *)
Definition load_data (env : Env) (uploaded_file : file env) : except DataFrame :=
  match load_data_body env uploaded_file with
  | Ok df => Ok df
  | Raise e => Raise (ValueError ("Error loading data: " ++ exn_str e))
  end.

(** [pd.to_datetime(series)] *)
Fixpoint to_datetime (env : Env) (c : column) : except column :=
  match c with
  | [] => Ok []
  | x :: rest =>
      t <- match x with
           | CNaN | CNaT => Ok CNaT
           | CTime t => Ok (CTime t)
           | _ => match parse_datetime env x with
                  | Some t => Ok (CTime t)
                  | None => Raise (ValueError "Unknown datetime string format")
                  end
           end ;;
      ts <- to_datetime env rest ;;
      Ok (t :: ts)
  end.

Definition numeric_columns : list string :=
  ["audience_count"; "EngagementRate"; "ConversionRate"; "ForecastError"].

Definition preprocess_data (env : Env) (df : DataFrame) : except DataFrame :=
  (* Convert timestamp to datetime *)
  raw <- getitem df "timestamp" ;;
  ts <- to_datetime env raw ;;
  let df := setitem df "timestamp" ts in
  (* Sort by timestamp *)
  df <- sort_values df "timestamp" ;;
  (* Handle missing values *)
  block <- getitems df numeric_columns ;;
  arr <- fit_transform env (map snd (columns block)) ;;
  df <- setitems df numeric_columns (map (map CNum) arr) ;;
  (* Add time-based features *)
  ts <- getitem df "timestamp" ;;
  let df := setitem df "hour" (dt_field hour_of ts) in
  ts <- getitem df "timestamp" ;;
  let df := setitem df "day_of_week" (dt_field dayofweek_of ts) in
  ts <- getitem df "timestamp" ;;
  let df := setitem df "month" (dt_field month_of ts) in
  dow <- getitem df "day_of_week" ;;
  let df := setitem df "is_weekend" (isin_int [5#1; 6#1]%Q dow) in
  hour <- getitem df "hour" ;;
  let df := setitem df "is_prime_time" (between_int (19#1) (22#1) hour) in
  Ok df.

(** ** Rolling statistics per group *)

Definition window : nat := 7.
Definition min_periods : nat := 1.

(** Degrees of freedom taken off by [std], pandas' default. *)
Definition ddof : nat := 1.

(** Two rows belong to one group when they carry the same label; a row
    whose label is missing belongs to none. *)
Definition same_label (a b : cell) : bool :=
  match a, b with
  | CStr s, CStr t => String.eqb s t
  | CNum p, CNum q => Qeq_bool p q
  | CTime s, CTime t => Z.eqb s t
  | _, _ => false
  end.

(** A numeric series: a number or a missing value in each row.  A
    rolling window refuses any other column. *)
Fixpoint as_numbers (c : column) : except (list (option Q)) :=
  match c with
  | [] => Ok []
  | x :: rest =>
      v <- match x with
           | CNum q => Ok (Some q)
           | CNaN => Ok None
           | _ => Raise (Exception "DataError: No numeric types to aggregate")
           end ;;
      vs <- as_numbers rest ;;
      Ok (v :: vs)
  end.

(** The values of the group of row [i], from its first row to row [i]. *)
Definition group_upto (keys : column) (vals : list (option Q)) (i : nat)
  : list (option Q) :=
  map snd (filter (fun kv => same_label (fst kv) (nth i keys CNaN))
                  (firstn (S i) (combine keys vals))).

Definition observations (w : list (option Q)) : list Q :=
  flat_map (fun o => match o with Some q => [q] | None => [] end) w.

(** [rolling(7, min_periods=1).mean()] at one row, from its window. *)
Definition rolling_mean (w : list (option Q)) : cell :=
  let obs := observations w in
  if Nat.leb min_periods (length obs) then CNum (Qmean obs) else CNaN.

Definition sample_variance (obs : list Q) : Q :=
  (Qsum (map (fun x => Qsquare (x - Qmean obs)) obs)
   / (Qlen obs - inject_Z (Z.of_nat ddof)))%Q.

(** [rolling(7, min_periods=1).std()] at one row: the window needs
    [min_periods] observations and more than [ddof] of them. *)
Definition rolling_std (w : list (option Q)) : cell :=
  let obs := observations w in
  if Nat.leb min_periods (length obs) && Nat.ltb ddof (length obs)
  then CNum (Qsqrt (sample_variance obs)) else CNaN.

(** [df.groupby(key)[value].transform(lambda x: x.rolling(7, ...).stat())]:
    each row gets the statistic of the last [window] rows of its group,
    itself included. *)
Definition group_rolling (stat : list (option Q) -> cell)
           (keys : column) (vals : list (option Q)) : column :=
  map (fun i => match nth i keys CNaN with
                | CNaN | CNaT => CNaN
                | _ => stat (lastn window (group_upto keys vals i))
                end)
      (seq 0 (length vals)).

(** The dtype of a column of numbers as [read_csv] infers it: [int64]
    when every value is a whole number and none is missing, [float64]
    otherwise. *)
Definition is_whole (q : Q) : bool :=
  Z.eqb (Z.modulo (Qnum q) (Z.pos (Qden q))) 0.

Definition int_column (c : column) : bool :=
  forallb (fun x => match x with CNum q => is_whole q | _ => false end) c.

(** Python's [s * n]: [n] copies of [s], none for [n <= 0]. *)
Definition repeat_string (s : string) (n : Z) : string :=
  String.concat EmptyString (repeat s (Z.to_nat n)).

(** Product of two cells.  Between numbers it is theirs, missing when
    one of them is.  A text cell makes the column an object column,
    multiplied cell by cell as Python does: text times an integer (a
    number of an [int64] column, [ints]) is the text repeated, text
    times a float or another text is a [TypeError]. *)
Definition mul_cell (ints : bool) (x y : cell) : except cell :=
  match x, y with
  | CNum a, CNum b => Ok (CNum (a * b))
  | CNum _, CNaN | CNaN, CNum _ | CNaN, CNaN => Ok CNaN
  | CStr s, CNum n | CNum n, CStr s =>
      if ints then Ok (CStr (repeat_string s (Qnum n / Z.pos (Qden n))))
      else Raise (TypeError "can't multiply sequence by non-int of type 'float'")
  | _, _ => Raise (TypeError "unsupported operand type(s) for *")
  end.

Fixpoint mul_cells (ints : bool) (a b : column) : except column :=
  match a, b with
  | x :: a', y :: b' =>
      z <- mul_cell ints x y ;;
      zs <- mul_cells ints a' b' ;;
      Ok (z :: zs)
  | _, _ => Ok []
  end.

(** Product of two series, row by row. *)
Definition mul_columns (a b : column) : except column :=
  mul_cells (int_column a || int_column b) a b.

(** [pd.Categorical(series).codes]: the rank of each value among the
    distinct values in ascending order, and -1 for a missing value. *)
Fixpoint insert_category (c : cell) (cats : list cell) : list cell :=
  match cats with
  | [] => [c]
  | d :: rest =>
      if same_label c d then cats
      else if cell_leb c d then c :: cats
      else d :: insert_category c rest
  end.

Definition is_missing (c : cell) : bool :=
  match c with CNaN | CNaT => true | _ => false end.

Definition categories (c : column) : list cell :=
  fold_left (fun cats x => if is_missing x then cats else insert_category x cats) c [].

Fixpoint code_in (cats : list cell) (c : cell) (i : Z) : Z :=
  match cats with
  | [] => -1
  | d :: rest => if same_label c d then i else code_in rest c (i + 1)
  end.

Definition categorical_codes (c : column) : column :=
  map (fun x => CNum (inject_Z (code_in (categories c) x 0))) c.

Definition engineer_features (df : DataFrame) : except DataFrame :=
  (* Rolling statistics *)
  keys <- getitem df "platform" ;;
  raw <- getitem df "audience_count" ;;
  vals <- as_numbers raw ;;
  let df := setitem df "audience_7day_mean" (group_rolling rolling_mean keys vals) in
  keys <- getitem df "platform" ;;
  raw <- getitem df "audience_count" ;;
  vals <- as_numbers raw ;;
  let df := setitem df "audience_7day_std" (group_rolling rolling_std keys vals) in
  (* Add engagement features *)
  er <- getitem df "EngagementRate" ;;
  cr <- getitem df "ConversionRate" ;;
  score <- mul_columns er cr ;;
  let df := setitem df "engagement_score" score in
  (* Platform encoding *)
  plat <- getitem df "platform" ;;
  let df := setitem df "platform_encoded" (categorical_codes plat) in
  Ok df.

Definition modeling_columns : list string :=
  ["timestamp"; "audience_count"; "is_weekend"; "is_prime_time";
   "audience_7day_mean"; "audience_7day_std"; "engagement_score"].

(** [target_platform] is used when it is given and not empty. *)
Definition prepare_for_modeling (df : DataFrame) (target_platform : option string)
  : except DataFrame :=
  df <- match target_platform with
        | None | Some EmptyString => Ok df
        | Some p =>
            plat <- getitem df "platform" ;;
            Ok (filter_rows (map (fun c => same_label c (CStr p)) plat) df)
        end ;;
  modeling_df <- getitems df modeling_columns ;;
  set_index modeling_df "timestamp".

End DataProcessor.

(* ================================================================== *)
(** * Methods of an object with mutable fields *)

(** A method takes the object and gives its outcome and the object as
    the call leaves it, also when it raises. *)
Definition method (S A : Type) : Type := S -> except A * S.

Definition mret {S A} (a : A) : method S A := fun s => (Ok a, s).

Definition mraise {S A} (e : exn) : method S A := fun s => (Raise e, s).

Definition mbind {S A B} (c : method S A) (k : A -> method S B) : method S B :=
  fun s => match c s with
           | (Ok a, s') => k a s'
           | (Raise e, s') => (Raise e, s')
           end.

(** A computation that does not touch the object. *)
Definition lift {S A} (c : except A) : method S A := fun s => (c, s).

(** [self.field = value] *)
Definition assign {S} (f : S -> S) : method S unit := fun s => (Ok tt, f s).

Notation "x <~ c ;; k" := (mbind c (fun x => k))
  (at level 61, c at next level, right associativity).

(* ================================================================== *)
(** * The forecast engine ([TimeSeriesModels]) *)

Module Engine.

(** What the engine uses of statsmodels and prophet.  [ARIMA] stands for
    [ARIMA(endog, order=(2,1,2))] and [SARIMAX] for
    [SARIMAX(endog, order=(1,1,1), seasonal_order=(1,1,1,24))]: both build
    a model that [fit] turns into results.  Fit results predict one
    value for each step after the end of the sample, whatever the number
    of steps asked for, and [forecast(steps)] may raise (no step asked
    for, row labels the library cannot extend).  A fitted Prophet
    remembers the dates it was fitted on and predicts one value per date
    it is asked. *)
Record Backends : Type := mk_backends {
  sm_model : Type;
  sm_results : Type;
  ARIMA : column -> except sm_model;
  SARIMAX : column -> except sm_model;
  sm_fit : sm_model -> except sm_results;
  sm_forecast_error : sm_results -> nat -> option exn;
  sm_predict : sm_results -> nat -> cell;
  sm_fittedvalues : sm_results -> list Q;
  prophet_state : Type;
  prophet_fit : column -> column -> except prophet_state;
  history_dates : prophet_state -> list Z;
  prophet_yhat : prophet_state -> list Z -> column
}.

Section WithBackends.

Variable B : Backends.

(** The objects [self.model] can hold. *)
Inductive model_obj : Type :=
| SMModel (m : sm_model B)
| SMResults (r : sm_results B)
| ProphetNew
| ProphetFitted (p : prophet_state B).

Record TimeSeriesModels : Type := mk_engine {
  model : option model_obj;
  model_type : option string
}.

(** [__init__] *)
Definition init : TimeSeriesModels := mk_engine None None.

Definition set_model (m : model_obj) (self : TimeSeriesModels) : TimeSeriesModels :=
  mk_engine (Some m) (model_type self).

Definition set_model_type (t : string) (self : TimeSeriesModels) : TimeSeriesModels :=
  mk_engine (model self) (Some t).

Definition _train_arima (df : DataFrame) : method TimeSeriesModels model_obj :=
  endog <~ lift (getitem df "audience_count") ;;
  m <~ lift (ARIMA B endog) ;;
  _ <~ assign (set_model (SMModel m)) ;;
  r <~ lift (sm_fit B m) ;;
  _ <~ assign (set_model (SMResults r)) ;;
  mret (SMResults r).

Definition _train_sarima (df : DataFrame) : method TimeSeriesModels model_obj :=
  endog <~ lift (getitem df "audience_count") ;;
  m <~ lift (SARIMAX B endog) ;;
  _ <~ assign (set_model (SMModel m)) ;;
  r <~ lift (sm_fit B m) ;;
  _ <~ assign (set_model (SMResults r)) ;;
  mret (SMResults r).

(** [self.model.fit(prophet_df)] fits the object [self.model] already
    holds. *)
Definition _train_prophet (df : DataFrame) : method TimeSeriesModels model_obj :=
  y <~ lift (getitem df "audience_count") ;;
  let ds := index df in
  _ <~ assign (set_model ProphetNew) ;;
  p <~ lift (prophet_fit B ds y) ;;
  _ <~ assign (set_model (ProphetFitted p)) ;;
  mret (ProphetFitted p).

Definition train_model (df : DataFrame) (model_type : string)
  : method TimeSeriesModels model_obj :=
  _ <~ assign (set_model_type model_type) ;;
  if String.eqb model_type "ARIMA" then _train_arima df
  else if String.eqb model_type "SARIMA" then _train_sarima df
  else if String.eqb model_type "Prophet" then _train_prophet df
  else mraise (ValueError ("Unsupported model type: " ++ model_type)).

(** The out-of-sample predictions of the steps 1 to [steps]. *)
Definition sm_forecast (r : sm_results B) (steps : nat) : column :=
  map (sm_predict B r) (seq 1 steps).

(** [m.forecast(steps=periods)]: only fit results have the method, and
    it raises what the library raises for these results and steps. *)
Definition call_forecast (m : model_obj) (periods : nat) : except column :=
  match m with
  | SMResults r =>
      match sm_forecast_error B r periods with
      | Some e => Raise e
      | None => Ok (sm_forecast r periods)
      end
  | SMModel _ | ProphetNew | ProphetFitted _ =>
      Raise (AttributeError "object has no attribute 'forecast'")
  end.

(** The object as a Prophet that was fitted, which is what
    [make_future_dataframe] asks for. *)
Definition fitted_prophet (m : model_obj) : except (prophet_state B) :=
  match m with
  | ProphetFitted p => Ok p
  | ProphetNew => Raise (Exception "Model has not been fit.")
  | SMModel _ | SMResults _ =>
      Raise (AttributeError "object has no attribute 'make_future_dataframe'")
  end.

Definition max_date (ds : list Z) : option Z :=
  match ds with
  | [] => None
  | d :: rest => Some (fold_left Z.max rest d)
  end.

(** Prophet's [make_future_dataframe(periods)]: the dates of the fit
    followed by the next [periods] days after the last of them. *)
Definition make_future_dataframe (p : prophet_state B) (periods : nat)
  : except (list Z) :=
  match max_date (history_dates B p) with
  | None => Raise (ValueError "Neither start nor end can be NaT")
  | Some last_date =>
      let dates := date_range last_date (S periods) in
      let dates := filter (fun d => last_date <? d) dates in
      let dates := firstn periods dates in
      Ok (history_dates B p ++ dates)
  end.

(** [get_forecast] leaves the engine as it is.  Its value is a series,
    or [None] when no branch returns. *)
Definition get_forecast (self : TimeSeriesModels) (periods : nat)
  : except (option column) :=
  match model self with
  | None => Raise (ValueError "Model not trained")
  | Some m =>
      if match model_type self with
         | Some t => String.eqb t "ARIMA" || String.eqb t "SARIMA"
         | None => false
         end
      then
        forecast <- call_forecast m periods ;;
        Ok (Some forecast)
      else if match model_type self with
              | Some t => String.eqb t "Prophet"
              | None => false
              end
      then
        p <- fitted_prophet m ;;
        future <- make_future_dataframe p periods ;;
        let forecast := prophet_yhat B p future in
        Ok (Some (lastn periods forecast))
      else Ok None
  end.

(** [m.fittedvalues]: an attribute of fit results only. *)
Definition fittedvalues (m : model_obj) : except (list Q) :=
  match m with
  | SMResults r => Ok (sm_fittedvalues B r)
  | SMModel _ | ProphetNew | ProphetFitted _ =>
      Raise (AttributeError "object has no attribute 'fittedvalues'")
  end.

End WithBackends.

Arguments SMModel {B} m.
Arguments SMResults {B} r.
Arguments ProphetNew {B}.
Arguments ProphetFitted {B} p.
Arguments model {B} t.
Arguments model_type {B} t.

End Engine.

(* ================================================================== *)
(** * The forecast export of the dashboard ([app.py]) *)

Module App.

Import Engine.

(** [index[-1] + timedelta(days=1)] *)
Definition next_day (idx : column) : except cell :=
  match lastn 1 idx with
  | [] => Raise (IndexError "index -1 is out of bounds for axis 0 with size 0")
  | CTime t :: _ => Ok (CTime (t + ns_per_day))
  | CNaT :: _ => Ok CNaT
  | _ => Raise (TypeError "unsupported operand type(s) for +")
  end.

(** The frame built for the download: [periods] days from the day after
    the last row of the modeling frame, next to the forecast.  A series
    gives the frame its rows and has to be as long as the dates; the
    value [None] fills the column. *)
Definition forecast_df (modeling_df : DataFrame) (forecast_periods : nat)
           (forecast : option column) : except DataFrame :=
  start <- next_day (index modeling_df) ;;
  match start with
  | CTime t =>
      let timestamps := map CTime (date_range t forecast_periods) in
      let rows := map (fun i => CNum (inject_Z (Z.of_nat i))) (seq 0 forecast_periods) in
      match forecast with
      | Some values =>
          if Nat.eqb (length values) forecast_periods then
            Ok (mk_df rows [("timestamp", timestamps); ("forecast", values)])
          else Raise (ValueError "array length does not match index length")
      | None =>
          Ok (mk_df rows [("timestamp", timestamps);
                          ("forecast", repeat CNaN forecast_periods)])
      end
  | _ => Raise (ValueError "Neither start nor end can be NaT")
  end.

(** What pressing "Generate Forecast" computes, the charts left out:
    the metrics of the fit, of the array [audience_count.values] against
    the Series [model.fittedvalues], and the frame offered for
    download. *)
Definition generate_forecast (B : Backends) (modeling_df : DataFrame)
           (model_type : string) (forecast_periods : nat)
  : method (TimeSeriesModels B) (Metrics.metrics * DataFrame) :=
  model <~ train_model B modeling_df model_type ;;
  forecast <~ (fun self => (get_forecast B self forecast_periods, self)) ;;
  actual <~ lift (getitem modeling_df "audience_count") ;;
  fitted <~ lift (fittedvalues B model) ;;
  actual <~ lift (as_finite actual) ;;
  metrics <~ lift (Metrics.calculate_metrics_of Metrics.WithSeries actual fitted) ;;
  out <~ lift (forecast_df modeling_df forecast_periods forecast) ;;
  mret (metrics, out).

End App.

(* ================================================================== *)
(** * Stand-ins for the libraries

    Small concrete libraries, to run the definitions above on examples.
    They keep what the real ones document: the imputer returns a block
    of the same shape and leaves a complete block as it is; fitting needs
    at least two rows ([Prophet.fit] raises "Dataframe has less than 2
    non-NaN rows." otherwise); a forecast of no step raises; a
    prediction has one value per date. *)

Module Demo.

Definition day (n : Z) : Z := n * ns_per_day.

(** A file is a parsed table, or nothing a table can be read from. *)
Definition read_csv (f : option DataFrame) : except DataFrame :=
  match f with
  | Some df => Ok df
  | None => Raise (Exception "No columns to parse from file")
  end.

(** The dates this parser knows. *)
Definition parse_datetime (c : cell) : option Z :=
  match c with
  | CStr "2024-01-01" => Some (day 19723)
  | CStr "2024-01-02" => Some (day 19724)
  | CStr "2024-01-03" => Some (day 19725)
  | CStr "2024-01-04" => Some (day 19726)
  | _ => None
  end.

(** The imputer, on blocks of numbers: a missing value becomes 0. *)
Definition fit_transform (block : list column) : except (list (list Q)) :=
  Ok (map (map (fun c => match c with CNum q => q | _ => 0%Q end)) block).

Definition env : DataProcessor.Env :=
  DataProcessor.mk_env (option DataFrame) read_csv parse_datetime fit_transform.

Definition range_index (n : nat) : column :=
  map (fun i => CNum (inject_Z (Z.of_nat i))) (seq 0 n).

(** An upload: three days of one platform, not in order. *)
Definition upload : DataFrame :=
  mk_df (range_index 3)
    [("Date", [CStr "2024-01-03"; CStr "2024-01-01"; CStr "2024-01-02"]);
     ("AudienceCount", [CNum (130 # 1); CNum (120 # 1); CNum (95 # 1)]);
     ("Platform", [CStr "Web"; CStr "Web"; CStr "Web"]);
     ("EngagementRate", [CNum (5 # 1); CNum (4 # 1); CNum (6 # 1)]);
     ("ConversionRate", [CNum (2 # 1); CNum (1 # 1); CNum (3 # 1)]);
     ("ForecastError", [CNum (1 # 1); CNum (2 # 1); CNum (1 # 1)])].

(** An upload without the platform column. *)
Definition upload_no_platform : DataFrame :=
  mk_df (range_index 1)
    [("Date", [CStr "2024-01-01"]); ("AudienceCount", [CNum (120 # 1)])].

(** A cleaned table of one platform with a constant audience. *)
Definition constant_table : DataFrame :=
  mk_df (range_index 3)
    [("timestamp", [CTime (day 19723); CTime (day 19724); CTime (day 19725)]);
     ("platform", [CStr "Web"; CStr "Web"; CStr "Web"]);
     ("audience_count", [CNum (50 # 1); CNum (50 # 1); CNum (50 # 1)]);
     ("EngagementRate", [CNum (5 # 1); CNum (4 # 1); CNum (6 # 1)]);
     ("ConversionRate", [CNum (2 # 1); CNum (1 # 1); CNum (3 # 1)])].

(** Two platforms, one row apart. *)
Definition two_platforms : DataFrame :=
  mk_df (range_index 4)
    [("platform", [CStr "Web"; CStr "App"; CStr "Web"; CStr "Web"]);
     ("audience_count", [CNum (0 # 1); CNum (7 # 1); CNum (3 # 1); CNum (6 # 1)]);
     ("EngagementRate", [CNum (5 # 1); CNaN; CNum (6 # 1); CNum (1 # 2)]);
     ("ConversionRate", [CNum (2 # 1); CNum (1 # 1); CNum (3 # 1); CNum (4 # 1)])].

Definition last_value (values : list Q) : cell := CNum (last values 0%Q).

Definition build (endog : column) : except (list Q) := as_finite endog.

Definition fit (m : list Q) : except (list Q) :=
  if Nat.ltb (length m) 2 then Raise (ValueError "too few observations") else Ok m.

Fixpoint times (c : column) : list Z :=
  match c with
  | [] => []
  | CTime t :: rest => t :: times rest
  | _ :: rest => times rest
  end.

Definition prophet_fit (ds y : column) : except (list Z * list Q) :=
  values <- as_finite y ;;
  if Nat.ltb (length values) 2
  then Raise (ValueError "Dataframe has less than 2 non-NaN rows.")
  else Ok (times ds, values).

(** Forecasts that repeat the last value seen. *)
Definition backends : Engine.Backends :=
  Engine.mk_backends
    (list Q) (list Q) build build fit
    (fun _ n => if Nat.eqb n 0
                then Some (ValueError "Prediction must have `end` after `start`.")
                else None)
    (fun r _ => last_value r)
    (fun r => r)
    (list Z * list Q) prophet_fit fst
    (fun p future => map (fun _ => last_value (snd p)) future).

(** A modeling frame of three days, and one of a single day. *)
Definition modeling_df : DataFrame :=
  mk_df [CTime (day 19723); CTime (day 19724); CTime (day 19725)]
        [("audience_count", [CNum (120 # 1); CNum (95 # 1); CNum (130 # 1)])].

Definition one_day_df : DataFrame :=
  mk_df [CTime (day 19723)] [("audience_count", [CNum (120 # 1)])].

(** A frame without the audience column. *)
Definition no_audience_df : DataFrame :=
  mk_df [CTime (day 19723); CTime (day 19724)]
        [("is_weekend", [CNum (0 # 1); CNum (0 # 1)])].

End Demo.

(** An engine after a successful training for ARIMA. *)
Definition retrained : Engine.TimeSeriesModels Demo.backends :=
  snd (Engine.train_model Demo.backends Demo.modeling_df "ARIMA"
                          (Engine.init Demo.backends)).

(** The upload, loaded and cleaned. *)
Definition demo_cleaned : DataFrame :=
  match (df <- DataProcessor.load_data Demo.env (Some Demo.upload) ;;
         DataProcessor.preprocess_data Demo.env df) with
  | Ok df => df
  | Raise _ => mk_df [] []
  end.

(** The constant table with its features. *)
Definition demo_featured : DataFrame :=
  match DataProcessor.engineer_features Demo.constant_table with
  | Ok df => df
  | Raise _ => mk_df [] []
  end.

(** The export of a three-day forecast after [Demo.modeling_df]. *)
Definition demo_export : DataFrame :=
  mk_df (Demo.range_index 3)
    [("timestamp", [CTime (Demo.day 19726); CTime (Demo.day 19727); CTime (Demo.day 19728)]);
     ("forecast", [CNum (130 # 1); CNum (130 # 1); CNum (130 # 1)])].

(* ================================================================== *)
(** * Vocabulary of the properties *)

(** A float that is not finite. *)
Definition not_finite (x : fval) : bool := is_inf x || is_nan x.

(** The scores of a perfect fit. *)
Definition perfect_scores (m : Metrics.metrics) : bool :=
  is_fin 0 (Metrics.RMSE m) && is_fin 0 (Metrics.MAE m)
  && is_fin 0 (Metrics.MAPE m) && is_fin 1 (Metrics.R2 m).

(** The model types [train_model] knows. *)
Definition supported (model_type : string) : Prop :=
  In model_type ["ARIMA"; "SARIMA"; "Prophet"].

(** A fitted object of the kind a model type asks for. *)
Definition trained_as (B : Engine.Backends) (t : string) (m : Engine.model_obj B)
  : Prop :=
  match m with
  | Engine.SMResults _ => t = "ARIMA" \/ t = "SARIMA"
  | Engine.ProphetFitted _ => t = "Prophet"
  | Engine.SMModel _ | Engine.ProphetNew => False
  end.

(** A fitted object the libraries can forecast from: fit results whose
    [forecast] raises for no positive number of steps; a fitted Prophet
    that has dates and predicts one value for each date it is given. *)
Definition valid_handle (B : Engine.Backends) (m : Engine.model_obj B) : Prop :=
  match m with
  | Engine.SMResults r =>
      forall n, (0 < n)%nat -> Engine.sm_forecast_error B r n = None
  | Engine.ProphetFitted p =>
      Engine.history_dates B p <> []
      /\ forall future, length (Engine.prophet_yhat B p future) = length future
  | Engine.SMModel _ | Engine.ProphetNew => False
  end.

(** The columns that carry a label. *)
Definition named (name : string) (cols : list (string * column)) : list column :=
  map snd (filter (fun c => String.eqb (fst c) name) cols).

(** The key of row [i]. *)
Definition key (keys : column) (i : nat) : cell := nth i keys CNaN.

(** Row [i] may stand before row [j]. *)
Definition before (keys : column) (i j : nat) : Prop :=
  cell_leb (key keys i) (key keys j) = true.

Definition is_datetime (c : cell) : bool :=
  match c with CTime _ | CNaT => true | _ => false end.

(** The order of a datetime column: ascending, [NaT] last. *)
Definition ts_le (a b : cell) : Prop :=
  match a, b with
  | CTime s, CTime t => s <= t
  | (CTime _ | CNaT), CNaT => True
  | _, _ => False
  end.

(** The canonical name of a column. *)
Definition canonical (l : string) : string :=
  if String.eqb l "Date" then "timestamp"
  else if String.eqb l "AudienceCount" then "audience_count"
  else if String.eqb l "Platform" then "platform"
  else l.

(** Some required column is not in the table. *)
Definition missing_required (df : DataFrame) : Prop :=
  exists c, In c DataProcessor.required_columns /\ ~ In c (labels df).

(** Two cells hold the same value (numbers up to the fraction that
    writes them). *)
Definition cell_eq (a b : cell) : Prop :=
  match a, b with
  | CNum x, CNum y => x == y
  | _, _ => a = b
  end.

(** A float that is not negative: a finite number from 0 up, [+inf], or
    not-a-number. *)
Definition not_negative (x : fval) : Prop :=
  match x with
  | Fin q => (0 <= q)%Q
  | PInf | NaN => True
  | NInf => False
  end.

(** A number or [+inf]. *)
Definition number_or_pinf (x : fval) : Prop :=
  match x with
  | Fin _ | PInf => True
  | NInf | NaN => False
  end.

(** A score that is not above 1: a number up to 1, [-inf], or not
    defined. *)
Definition at_most_one (x : fval) : Prop :=
  match x with
  | Fin q => (q <= 1)%Q
  | NInf | NaN => True
  | PInf => False
  end.

(** The prime-time flag of a timestamp cell: 1 for an hour from 19 to 22,
    0 otherwise and for a missing date. *)
Definition prime_time_flag (c : cell) : cell :=
  match c with
  | CTime t => if (19 <=? hour_of t) && (hour_of t <=? 22) then CNum 1 else CNum 0
  | _ => CNum 0
  end.

(** The weekend flag: 1 for a Saturday (5) or a Sunday (6). *)
Definition weekend_flag (c : cell) : cell :=
  match c with
  | CTime t =>
      if (dayofweek_of t =? 5) || (dayofweek_of t =? 6) then CNum 1 else CNum 0
  | _ => CNum 0
  end.

(** The columns [preprocess_data] assigns. *)
Definition preprocessed_labels : list string :=
  "timestamp" :: DataProcessor.numeric_columns
  ++ ["hour"; "day_of_week"; "month"; "is_weekend"; "is_prime_time"].

(** The columns [engineer_features] assigns. *)
Definition feature_labels : list string :=
  ["audience_7day_mean"; "audience_7day_std"; "engagement_score"; "platform_encoded"].

(** The product of two numeric cells; missing when one of them is. *)
Definition product (x y : cell) : cell :=
  match x, y with
  | CNum a, CNum b => CNum (a * b)
  | _, _ => CNaN
  end.

(** One platform with a varying audience. *)
Definition varying_table : DataFrame :=
  mk_df (Demo.range_index 3)
    [("platform", repeat (CStr "Web") 3);
     ("audience_count", map CNum [0 # 1; 3 # 1; 6 # 1]%Q);
     ("EngagementRate", [CNum (5 # 1); CNum (4 # 1); CNum (6 # 1)]);
     ("ConversionRate", [CNum (2 # 1); CNum (1 # 1); CNum (3 # 1)])].

(** The column a label selects when one column carries it. *)
Definition column_of (df : DataFrame) (name : string) : column :=
  hd [] (named name (columns df)).

(** The rows of a platform. *)
Definition on_platform (p : string) (plat : column) (i : nat) : Prop :=
  (i < length plat)%nat /\ nth i plat CNaN = CStr p.

(** A table with the columns [prepare_for_modeling] reads. *)
Definition featured_table : DataFrame :=
  mk_df (Demo.range_index 3)
    [("platform", [CStr "Web"; CStr "App"; CStr "Web"]);
     ("timestamp", [CTime (Demo.day 19723); CTime (Demo.day 19724); CTime (Demo.day 19725)]);
     ("audience_count", [CNum (120 # 1); CNum (95 # 1); CNum (130 # 1)]);
     ("EngagementRate", [CNum (5 # 1); CNum (4 # 1); CNum (6 # 1)]);
     ("is_weekend", [CNum (0 # 1); CNum (0 # 1); CNum (0 # 1)]);
     ("is_prime_time", [CNum (0 # 1); CNum (1 # 1); CNum (0 # 1)]);
     ("audience_7day_mean", [CNum (120 # 1); CNum (95 # 1); CNum (125 # 1)]);
     ("audience_7day_std", [CNaN; CNaN; CNum (7 # 1)]);
     ("engagement_score", [CNum (10 # 1); CNum (4 # 1); CNum (18 # 1)])].

(** The object [train_model] returns for a model type and a frame: the
    results of fitting the model the type names, built on the audience
    count (and, for Prophet, the row labels as dates). *)
Definition fit_of (B : Engine.Backends) (df : DataFrame) (t : string)
           (m : Engine.model_obj B) : Prop :=
  exists endog,
    getitem df "audience_count" = Ok endog
    /\ ((t = "ARIMA"
         /\ exists m0 r, Engine.ARIMA B endog = Ok m0
                         /\ Engine.sm_fit B m0 = Ok r /\ m = Engine.SMResults r)
        \/ (t = "SARIMA"
            /\ exists m0 r, Engine.SARIMAX B endog = Ok m0
                            /\ Engine.sm_fit B m0 = Ok r /\ m = Engine.SMResults r)
        \/ (t = "Prophet"
            /\ exists p, Engine.prophet_fit B (index df) endog = Ok p
                         /\ m = Engine.ProphetFitted p)).

(** A cell of a numeric column. *)
Definition number_or_missing (c : cell) : Prop :=
  match c with
  | CNum _ | CNaN => True
  | _ => False
  end.

(* ================================================================== *)
(** * Properties *)

(** ** Numbers and dates *)

(** 2024-02-29 21:30 is 19782 days, 21 hours and 30 minutes after the
    epoch: a Thursday of February. *)
Example calendar_fields :
  let t := 19782 * ns_per_day + 21 * ns_per_hour + 1800 * 10 ^ 9 in
  (hour_of t, dayofweek_of t, month_of t) = (21, 3, 2).
Proof. reflexivity. Qed.

Lemma Qzerob_iff (q : Q) : Qzerob q = true <-> q == 0.
Proof. apply Qeq_bool_iff. Qed.

Lemma Qzerob_false (q : Q) : ~ q == 0 -> Qzerob q = false.
Proof.
  intros H. destruct (Qzerob q) eqn:E; [ | reflexivity ].
  apply Qzerob_iff in E. contradiction.
Qed.

Lemma is_fin_iff (q : Q) (x : fval) :
  is_fin q x = true <-> exists a, x = Fin a /\ a == q.
Proof.
  split.
  - destruct x as [a | | | ]; simpl; intros H; try discriminate.
    exists a. split; [ reflexivity | now apply Qeq_bool_iff ].
  - intros [a [-> Ha]]. simpl. now apply Qeq_bool_iff.
Qed.

Lemma Qsqrt_zero (q : Q) : q == 0 -> Qsqrt q == 0.
Proof.
  intros H. unfold Qsqrt.
  assert (Hn : Qnum q = 0).
  { unfold Qeq in H. simpl in H. lia. }
  rewrite Hn. reflexivity.
Qed.

Lemma fold_Qplus_zeros (l : list Q) (acc : Q) :
  Forall (fun x => x == 0) l -> fold_left Qplus l acc == acc.
Proof.
  revert acc. induction l as [ | x l IH ]; intros acc H; simpl.
  - reflexivity.
  - inversion H as [ | ? ? Hx Hl ]; subst.
    rewrite (IH _ Hl). rewrite Hx. ring.
Qed.

Lemma Qsum_zeros (l : list Q) : Forall (fun x => x == 0) l -> Qsum l == 0.
Proof. apply fold_Qplus_zeros. Qed.

Lemma Qlen_nonzero {A} (l : list A) : l <> [] -> ~ Qlen l == 0.
Proof.
  intros Hl H. destruct l as [ | a l ]; [ congruence | ].
  unfold Qlen, Qeq in H. simpl in H. lia.
Qed.

Lemma Qmean_zeros (l : list Q) : Forall (fun x => x == 0) l -> Qmean l == 0.
Proof.
  intros H. unfold Qmean. rewrite (Qsum_zeros l H).
  unfold Qdiv. ring.
Qed.

Lemma fadd_not_finite_l (x y : fval) :
  not_finite x = true -> not_finite (fadd x y) = true.
Proof. destruct x, y; simpl; intros H; try discriminate; reflexivity. Qed.

Lemma fadd_not_finite_r (x y : fval) :
  not_finite y = true -> not_finite (fadd x y) = true.
Proof. destruct x, y; simpl; intros H; try discriminate; reflexivity. Qed.

Lemma fold_fadd_not_finite_acc (l : list fval) (acc : fval) :
  not_finite acc = true -> not_finite (fold_left fadd l acc) = true.
Proof.
  revert acc. induction l as [ | x l IH ]; intros acc H; simpl.
  - exact H.
  - apply IH. now apply fadd_not_finite_l.
Qed.

Lemma fsum_not_finite (l : list fval) :
  Exists (fun x => not_finite x = true) l -> not_finite (fsum l) = true.
Proof.
  unfold fsum. generalize (Fin 0) as acc.
  induction l as [ | x l IH ]; intros acc H; simpl.
  - inversion H.
  - inversion H as [ ? ? Hx | ? ? Hl ]; subst.
    + apply fold_fadd_not_finite_acc. now apply fadd_not_finite_r.
    + now apply IH.
Qed.

Lemma fdiv_zero_not_finite (a b : Q) :
  b == 0 -> not_finite (fdiv (Fin a) (Fin b)) = true.
Proof.
  intros Hb. simpl. apply Qzerob_iff in Hb. rewrite Hb.
  destruct (Qzerob a); [ reflexivity | ].
  destruct (Qposb a); reflexivity.
Qed.

Lemma fabs_not_finite (x : fval) :
  not_finite x = true -> not_finite (fabs x) = true.
Proof. destruct x; simpl; intros H; try discriminate; reflexivity. Qed.

Lemma np_mean_not_finite (l : list fval) :
  Exists (fun x => not_finite x = true) l -> not_finite (np_mean l) = true.
Proof.
  intros H. apply fsum_not_finite in H. unfold np_mean.
  destruct (fsum l); simpl in *; try discriminate; try reflexivity.
  - destruct (Qposb (Qlen l) || Qzerob (Qlen l)); reflexivity.
  - destruct (Qposb (Qlen l) || Qzerob (Qlen l)); reflexivity.
Qed.

Lemma fmul_100_not_finite (x : fval) :
  not_finite x = true -> not_finite (fmul x (Fin 100)) = true.
Proof. destruct x; simpl; intros H; try discriminate; reflexivity. Qed.

(** ** Regression metrics *)

Lemma check_reg_targets_ok (y_true y_pred : list Q) :
  length y_true = length y_pred -> y_true <> [] ->
  Metrics.check_reg_targets y_true y_pred = Ok tt.
Proof.
  intros Hlen Hne. unfold Metrics.check_reg_targets.
  rewrite Hlen, Nat.eqb_refl. simpl.
  destruct y_pred as [ | y l ]; [ | reflexivity ].
  destruct y_true; [ congruence | discriminate ].
Qed.

Lemma check_reg_targets_inv (y_true y_pred : list Q) :
  Metrics.check_reg_targets y_true y_pred = Ok tt ->
  length y_true = length y_pred /\ y_true <> [].
Proof.
  unfold Metrics.check_reg_targets. intros H.
  destruct (Nat.eqb (length y_true) (length y_pred)) eqn:E; simpl in H;
    [ | discriminate ].
  apply Nat.eqb_eq in E. split; [ exact E | ].
  intros ->. simpl in H. discriminate.
Qed.

Lemma check_reg_targets_cases (y_true y_pred : list Q) :
  Metrics.check_reg_targets y_true y_pred = Ok tt
  \/ exists e, Metrics.check_reg_targets y_true y_pred = Raise e.
Proof.
  unfold Metrics.check_reg_targets.
  destruct (negb _); [ right; eexists; reflexivity | ].
  destruct (Nat.eqb _ 0); [ right; eexists; reflexivity | left; reflexivity ].
Qed.

(** When the validation passes, the call returns the four metrics as the
    source computes them. *)
Lemma calculate_metrics_of_ok (k : Metrics.operands) (actual predicted : list Q) :
  Metrics.check_reg_targets actual predicted = Ok tt ->
  exists m, Metrics.calculate_metrics_of k actual predicted = Ok m
    /\ Metrics.RMSE m
       = fsqrt (Fin (Qmean (map Qsquare (Metrics.residuals actual predicted))))
    /\ Metrics.MAE m = Fin (Qmean (map Qabs (Metrics.residuals predicted actual)))
    /\ Metrics.MAPE m
       = fmul (Metrics.mean_of k (map fabs (Metrics.relative_errors actual predicted)))
              (Fin 100)
    /\ Metrics.r2_score actual predicted = Ok (Metrics.R2 m).
Proof.
  intros Hc.
  unfold Metrics.calculate_metrics_of, Metrics.mean_squared_error,
    Metrics.mean_absolute_error.
  rewrite Hc. simpl.
  destruct (Metrics.r2_score actual predicted) as [r | e] eqn:Er.
  - simpl. eexists. repeat split; reflexivity.
  - exfalso. unfold Metrics.r2_score in Er. rewrite Hc in Er. simpl in Er.
    destruct (Nat.ltb _ 2); [ discriminate | ].
    destruct (negb _); [ discriminate | ].
    destruct (negb _); discriminate.
Qed.

Lemma calculate_metrics_of_raise (k : Metrics.operands) (actual predicted : list Q)
      (e : exn) :
  Metrics.check_reg_targets actual predicted = Raise e ->
  Metrics.calculate_metrics_of k actual predicted = Raise e.
Proof.
  intros Hc. unfold Metrics.calculate_metrics_of, Metrics.mean_squared_error.
  rewrite Hc. reflexivity.
Qed.

Lemma calculate_metrics_ok (actual predicted : list Q) :
  Metrics.check_reg_targets actual predicted = Ok tt ->
  exists m, Metrics.calculate_metrics actual predicted = Ok m
    /\ Metrics.RMSE m
       = fsqrt (Fin (Qmean (map Qsquare (Metrics.residuals actual predicted))))
    /\ Metrics.MAE m = Fin (Qmean (map Qabs (Metrics.residuals predicted actual)))
    /\ Metrics.MAPE m
       = fmul (np_mean (map fabs (Metrics.relative_errors actual predicted))) (Fin 100)
    /\ Metrics.r2_score actual predicted = Ok (Metrics.R2 m).
Proof. exact (calculate_metrics_of_ok Metrics.Arrays actual predicted). Qed.

Lemma calculate_metrics_raise (actual predicted : list Q) (e : exn) :
  Metrics.check_reg_targets actual predicted = Raise e ->
  Metrics.calculate_metrics actual predicted = Raise e.
Proof. exact (calculate_metrics_of_raise Metrics.Arrays actual predicted e). Qed.

Lemma relative_errors_zero_actual (actual predicted : list Q) :
  length actual = length predicted ->
  Exists (fun a => a == 0) actual ->
  Exists (fun x => not_finite x = true)
         (map fabs (Metrics.relative_errors actual predicted)).
Proof.
  revert predicted.
  induction actual as [ | a actual IH ]; intros predicted Hlen H.
  - inversion H.
  - destruct predicted as [ | p predicted ]; [ discriminate | ].
    simpl in Hlen. injection Hlen as Hlen.
    unfold Metrics.relative_errors. simpl map.
    inversion H as [ ? ? Ha | ? ? Hrest ]; subst.
    + apply Exists_cons_hd. apply fabs_not_finite.
      now apply fdiv_zero_not_finite.
    + apply Exists_cons_tl. now apply IH.
Qed.

Lemma fold_fadd_pinf_acc (l : list fval) :
  Forall number_or_pinf l -> fold_left fadd l PInf = PInf.
Proof.
  induction l as [ | x l IH ]; intros H; simpl; [ reflexivity | ].
  inversion H as [ | ? ? Hx Hl ]; subst.
  destruct x; simpl in Hx; try contradiction; simpl; now apply IH.
Qed.

Lemma fold_fadd_pinf (l : list fval) (acc : Q) :
  Forall number_or_pinf l -> In PInf l -> fold_left fadd l (Fin acc) = PInf.
Proof.
  revert acc. induction l as [ | x l IH ]; intros acc H Hin; [ contradiction | ].
  inversion H as [ | ? ? Hx Hl ]; subst. simpl.
  destruct x as [ q | | | ]; simpl in Hx; try contradiction.
  - destruct Hin as [Hq | Hin]; [ discriminate | ]. now apply IH.
  - now apply fold_fadd_pinf_acc.
Qed.

Lemma np_mean_pinf (l : list fval) :
  Forall number_or_pinf l -> In PInf l -> np_mean l = PInf.
Proof.
  intros H Hin. unfold np_mean, fsum. rewrite (fold_fadd_pinf l 0 H Hin).
  destruct l as [ | x l ]; [ contradiction | ]. reflexivity.
Qed.

Lemma relative_error_kinds (a p : Q) :
  fabs (fdiv (Fin (a - p)) (Fin a)) <> NInf
  /\ (a == 0 -> ~ p == 0 -> fabs (fdiv (Fin (a - p)) (Fin a)) = PInf)
  /\ (a == 0 -> p == 0 -> fabs (fdiv (Fin (a - p)) (Fin a)) = NaN).
Proof.
  unfold fdiv, Qzerob.
  destruct (Qeq_bool a 0) eqn:Ea.
  - apply Qeq_bool_iff in Ea.
    destruct (Qeq_bool (a - p) 0) eqn:Eap.
    + apply Qeq_bool_iff in Eap. split; [ discriminate | ].
      split; [ | reflexivity ].
      intros _ Hp. exfalso. apply Hp. rewrite Ea in Eap.
      setoid_replace p with (- (0 - p))%Q by ring. rewrite Eap. reflexivity.
    + assert (Hn : ~ (a - p) == 0).
      { intros H. apply Qeq_bool_iff in H. congruence. }
      split; [ destruct (Qposb (a - p)); discriminate | ].
      split; [ destruct (Qposb (a - p)); reflexivity | ].
      intros _ Hp. exfalso. apply Hn. rewrite Ea, Hp. reflexivity.
  - assert (Hn : ~ a == 0).
    { intros H. apply Qeq_bool_iff in H. congruence. }
    split; [ discriminate | split; intros H; contradiction ].
Qed.

(** The mean [Series.mean()] takes of the relative errors: [+inf] when a
    zero actual value meets a prediction that is not zero, not a number
    when every row is [0 / 0]. *)
Lemma series_mean_relative_errors (actual predicted : list Q) :
  let errors := map (fun ap => fabs (fdiv (Fin (fst ap - snd ap)) (Fin (fst ap))))
                    (combine actual predicted) in
  (Exists (fun ap => fst ap == 0 /\ ~ snd ap == 0) (combine actual predicted) ->
   series_mean errors = PInf)
  /\ (Forall (fun ap => fst ap == 0 /\ snd ap == 0) (combine actual predicted) ->
      series_mean errors = NaN).
Proof.
  cbv zeta. unfold series_mean. split.
  - intros H. apply np_mean_pinf.
    + apply Forall_forall. intros x Hx. apply filter_In in Hx.
      destruct Hx as [Hx Hnan]. apply in_map_iff in Hx.
      destruct Hx as [[a p] [<- _]]. cbn [fst snd] in *.
      destruct (relative_error_kinds a p) as [Hni _].
      destruct (fabs (fdiv (Fin (a - p)) (Fin a))); simpl in *;
        try exact I; try discriminate. congruence.
    + apply Exists_exists in H. destruct H as [[a p] [Hin [Ha Hp]]].
      cbn [fst snd] in Ha, Hp. apply filter_In. split; [ | reflexivity ].
      apply in_map_iff. exists (a, p). split; [ | exact Hin ].
      cbn [fst snd]. now apply relative_error_kinds.
  - intros H.
    assert (E : filter (fun x => negb (is_nan x))
                  (map (fun ap => fabs (fdiv (Fin (fst ap - snd ap)) (Fin (fst ap))))
                       (combine actual predicted)) = []).
    { induction (combine actual predicted) as [ | [a p] l IH ]; [ reflexivity | ].
      inversion H as [ | ? ? [Ha Hp] Hl ]; subst. cbn [fst snd] in Ha, Hp.
      cbn [map filter fst snd].
      destruct (relative_error_kinds a p) as [_ [_ Hnan]].
      rewrite (Hnan Ha Hp). cbn [is_nan negb]. now apply IH. }
    rewrite E. reflexivity.
Qed.

(** C6. MAPE is one hundred times the mean of [|(actual - predicted) /
    actual|] taken element by element, with nothing done about a zero
    divisor.  On two numpy arrays with a zero actual value the call
    raises or the MAPE it returns is an infinity or not-a-number.  With
    a pandas Series among the arguments the mean skips the rows that
    are [0 / 0]: the MAPE is then [+inf] when a zero actual value meets
    a prediction that is not zero, and not-a-number when every row is
    [0 / 0]. *)
Theorem mape_divides_by_actual (k : Metrics.operands) (actual predicted : list Q) :
  Exists (fun a => a == 0) actual ->
  match Metrics.calculate_metrics_of k actual predicted with
  | Raise _ => True
  | Ok m =>
      Metrics.MAPE m
      = fmul (Metrics.mean_of k
                (map (fun ap => fabs (fdiv (Fin (fst ap - snd ap)) (Fin (fst ap))))
                     (combine actual predicted)))
             (Fin 100)
      /\ match k with
         | Metrics.Arrays => is_inf (Metrics.MAPE m) || is_nan (Metrics.MAPE m) = true
         | Metrics.WithSeries =>
             (Exists (fun ap => fst ap == 0 /\ ~ snd ap == 0)
                     (combine actual predicted) -> Metrics.MAPE m = PInf)
             /\ (Forall (fun ap => fst ap == 0 /\ snd ap == 0)
                        (combine actual predicted) -> Metrics.MAPE m = NaN)
         end
  end.
Proof.
  intros Hz.
  destruct (check_reg_targets_cases actual predicted) as [Hc | [e Hc]].
  - destruct (calculate_metrics_of_ok k _ _ Hc) as [m [Hm [_ [_ [Hmape _]]]]].
    rewrite Hm. apply check_reg_targets_inv in Hc. destruct Hc as [Hlen _].
    unfold Metrics.relative_errors in Hmape. rewrite map_map in Hmape.
    split; [ exact Hmape | ].
    destruct k.
    + rewrite Hmape. cbn [Metrics.mean_of].
      apply fmul_100_not_finite, np_mean_not_finite.
      pose proof (relative_errors_zero_actual actual predicted Hlen Hz) as He.
      unfold Metrics.relative_errors in He. now rewrite map_map in He.
    + rewrite Hmape. cbn [Metrics.mean_of].
      destruct (series_mean_relative_errors actual predicted) as [Hinf Hnan].
      split; intros H.
      * now rewrite (Hinf H).
      * now rewrite (Hnan H).
  - rewrite (calculate_metrics_of_raise k _ _ _ Hc). exact I.
Qed.

Lemma mape_divides_by_actual_witness :
  Exists (fun a => a == 0) [5 # 1; 0 # 1; 3 # 1]%Q
  /\ (exists m, Metrics.calculate_metrics_of Metrics.Arrays
                  [5 # 1; 0 # 1; 3 # 1]%Q [4 # 1; 2 # 1; 3 # 1]%Q = Ok m
                /\ is_inf (Metrics.MAPE m) || is_nan (Metrics.MAPE m) = true)
  /\ (exists m, Metrics.calculate_metrics_of Metrics.WithSeries
                  [5 # 1; 0 # 1; 3 # 1]%Q [4 # 1; 2 # 1; 3 # 1]%Q = Ok m
                /\ Metrics.MAPE m = PInf).
Proof.
  assert (Hz : Exists (fun a => a == 0) [5 # 1; 0 # 1; 3 # 1]%Q).
  { apply Exists_cons_tl, Exists_cons_hd. reflexivity. }
  split; [ exact Hz | split ].
  - pose proof (mape_divides_by_actual Metrics.Arrays
                  [5 # 1; 0 # 1; 3 # 1]%Q [4 # 1; 2 # 1; 3 # 1]%Q Hz) as H.
    destruct (Metrics.calculate_metrics_of Metrics.Arrays
                [5 # 1; 0 # 1; 3 # 1]%Q [4 # 1; 2 # 1; 3 # 1]%Q) as [m | e] eqn:E;
      [ | vm_compute in E; discriminate E ].
    exists m. split; [ reflexivity | apply H ].
  - pose proof (mape_divides_by_actual Metrics.WithSeries
                  [5 # 1; 0 # 1; 3 # 1]%Q [4 # 1; 2 # 1; 3 # 1]%Q Hz) as H.
    destruct (Metrics.calculate_metrics_of Metrics.WithSeries
                [5 # 1; 0 # 1; 3 # 1]%Q [4 # 1; 2 # 1; 3 # 1]%Q) as [m | e] eqn:E;
      [ | vm_compute in E; discriminate E ].
    exists m. split; [ reflexivity | ].
    destruct H as [_ [Hinf _]]. apply Hinf.
    apply Exists_cons_tl, Exists_cons_hd. cbn [fst snd].
    split; [ reflexivity | discriminate ].
Defined.

(** The zero actual value goes unseen when the prediction there is zero
    too and the fitted values come as a Series: the MAPE is an ordinary
    number. *)
Lemma zero_actual_finite_mape :
  Exists (fun a => a == 0) [0 # 1; 120 # 1; 95 # 1]%Q
  /\ exists m,
       Metrics.calculate_metrics_of Metrics.WithSeries
         [0 # 1; 120 # 1; 95 # 1]%Q [0 # 1; 118 # 1; 97 # 1]%Q = Ok m
       /\ is_inf (Metrics.MAPE m) || is_nan (Metrics.MAPE m) = false.
Proof.
  split; [ apply Exists_cons_hd; reflexivity | ].
  eexists. split; [ vm_compute; reflexivity | reflexivity ].
Qed.

Example mape_infinite :
  exists m, Metrics.calculate_metrics [5 # 1; 0 # 1; 3 # 1]%Q [4 # 1; 2 # 1; 3 # 1]%Q = Ok m
            /\ Metrics.MAPE m = PInf.
Proof. eexists. split; reflexivity. Qed.

Lemma residuals_same (a : list Q) :
  Forall (fun x => x == 0) (Metrics.residuals a a).
Proof.
  unfold Metrics.residuals.
  induction a as [ | x a IH ]; simpl; constructor; [ ring | exact IH ].
Qed.

Lemma Forall_zero_map (f : Q -> Q) (l : list Q) :
  (forall x, x == 0 -> f x == 0) ->
  Forall (fun x => x == 0) l -> Forall (fun x => x == 0) (map f l).
Proof.
  intros Hf H. induction H as [ | x l Hx Hl IH ]; simpl; constructor; auto.
Qed.

Lemma Qsquare_zero (x : Q) : x == 0 -> Qsquare x == 0.
Proof. intros H. unfold Qsquare. rewrite H. ring. Qed.

Lemma Qabs_zero (x : Q) : x == 0 -> Qabs x == 0.
Proof. intros H. rewrite H. reflexivity. Qed.

Lemma fsqrt_zero (q : Q) : q == 0 -> is_fin 0 (fsqrt (Fin q)) = true.
Proof.
  intros H. simpl.
  assert (Hle : Qle_bool 0 q = true).
  { apply Qle_bool_iff. rewrite H. apply Qle_refl. }
  rewrite Hle. simpl. apply Qeq_bool_iff. now apply Qsqrt_zero.
Qed.

Lemma fold_fadd_Fin (qs : list Q) (acc : Q) :
  fold_left fadd (map Fin qs) (Fin acc) = Fin (fold_left Qplus qs acc).
Proof.
  revert acc. induction qs as [ | q qs IH ]; intros acc; simpl.
  - reflexivity.
  - apply IH.
Qed.

(** With no zero among the actual values, the relative errors of a
    perfect prediction are finite and all zero. *)
Lemma relative_errors_same (a : list Q) :
  Forall (fun x => ~ x == 0) a ->
  exists qs, map fabs (Metrics.relative_errors a a) = map Fin qs
             /\ length qs = length a
             /\ Forall (fun x => x == 0) qs.
Proof.
  unfold Metrics.relative_errors.
  induction 1 as [ | x a Hx Ha [qs [Hqs [Hlen Hz]]] ].
  - exists []. repeat split. constructor.
  - exists (Qabs ((x - x) / x) :: qs).
    cbn [combine map fst snd length]. rewrite Hqs, Hlen.
    unfold fdiv at 1. rewrite (Qzerob_false x Hx).
    repeat split.
    constructor; [ | exact Hz ].
    apply Qabs_zero. unfold Qdiv. ring.
Qed.

Lemma r2_score_same (a : list Q) :
  (2 <= length a)%nat ->
  exists r, Metrics.r2_score a a = Ok r /\ is_fin 1 r = true.
Proof.
  intros Hlen. unfold Metrics.r2_score.
  rewrite check_reg_targets_ok;
    [ | reflexivity | intros ->; simpl in Hlen; lia ].
  simpl.
  destruct (Nat.ltb (length a) 2) eqn:E;
    [ apply Nat.ltb_lt in E; lia | ].
  pose proof (Qsum_zeros _ (Forall_zero_map Qsquare _ Qsquare_zero (residuals_same a)))
    as Hnum.
  destruct (negb (Qzerob (Qsum (map (fun y => Qsquare (y - Qmean a)) a)))).
  - eexists. split; [ reflexivity | ].
    simpl. apply Qeq_bool_iff. rewrite Hnum. unfold Qdiv. ring.
  - apply Qzerob_iff in Hnum. rewrite Hnum. simpl.
    eexists. split; reflexivity.
Qed.

(** C2, as amended.  On identical arrays of at least two samples in
    which no actual value is zero, the call returns RMSE = 0, MAE = 0,
    MAPE = 0 and R2 = 1. *)
Theorem metrics_of_identical_arrays (a : list Q) :
  (2 <= length a)%nat ->
  Forall (fun x => ~ x == 0) a ->
  exists m, Metrics.calculate_metrics a a = Ok m /\ perfect_scores m = true.
Proof.
  intros Hlen Hnz.
  assert (Hne : a <> []) by (intros ->; simpl in Hlen; lia).
  destruct (calculate_metrics_ok a a (check_reg_targets_ok a a eq_refl Hne))
    as [m [Hm [Hrmse [Hmae [Hmape Hr2]]]]].
  exists m. split; [ exact Hm | ].
  unfold perfect_scores. rewrite Hrmse, Hmae, Hmape.
  destruct (r2_score_same a Hlen) as [r [Hr Hone]].
  rewrite Hr in Hr2. injection Hr2 as <-. rewrite Hone.
  pose proof (residuals_same a) as Hres.
  rewrite (fsqrt_zero _ (Qmean_zeros _ (Forall_zero_map Qsquare _ Qsquare_zero Hres))).
  assert (Hmae0 : is_fin 0 (Fin (Qmean (map Qabs (Metrics.residuals a a)))) = true).
  { simpl. apply Qeq_bool_iff.
    apply Qmean_zeros, (Forall_zero_map Qabs _ Qabs_zero Hres). }
  rewrite Hmae0.
  destruct (relative_errors_same a Hnz) as [qs [Hqs [Hqlen Hqz]]].
  unfold np_mean, fsum. rewrite Hqs, fold_fadd_Fin.
  assert (Hn : Qzerob (Qlen (map Fin qs)) = false).
  { apply Qzerob_false, Qlen_nonzero. destruct qs; [ | discriminate ].
    simpl in Hqlen. destruct a; [ congruence | discriminate ]. }
  simpl fdiv. rewrite Hn. simpl.
  repeat rewrite andb_true_r. apply Qeq_bool_iff.
  rewrite (fold_Qplus_zeros qs 0 Hqz). unfold Qdiv. ring.
Qed.

Lemma metrics_of_identical_arrays_witness :
  (2 <= length [120 # 1; 95 # 1; 130 # 1]%Q)%nat
  /\ Forall (fun x => ~ x == 0) [120 # 1; 95 # 1; 130 # 1]%Q
  /\ exists m, Metrics.calculate_metrics [120 # 1; 95 # 1; 130 # 1]%Q [120 # 1; 95 # 1; 130 # 1]%Q = Ok m
            /\ perfect_scores m = true.
Proof.
  assert (Hlen : (2 <= length [120 # 1; 95 # 1; 130 # 1]%Q)%nat) by (simpl; lia).
  assert (Hnz : Forall (fun x => ~ x == 0) [120 # 1; 95 # 1; 130 # 1]%Q)
    by (repeat constructor; intros H; discriminate H).
  split; [ exact Hlen | split; [ exact Hnz | ] ].
  exact (metrics_of_identical_arrays [120 # 1; 95 # 1; 130 # 1]%Q Hlen Hnz).
Defined.

(** C2, as stated, fails on identical arrays that hold a zero: the
    relative error of that row is [0 / 0]. *)
Lemma identical_arrays_with_zero :
  (exists m, Metrics.calculate_metrics [0 # 1; 1 # 1]%Q [0 # 1; 1 # 1]%Q = Ok m
             /\ Metrics.MAPE m = NaN)
  /\ ~ (exists m, Metrics.calculate_metrics [0 # 1; 1 # 1]%Q [0 # 1; 1 # 1]%Q = Ok m
                  /\ perfect_scores m = true).
Proof.
  split.
  - eexists. split; reflexivity.
  - intros [m [Hm Hp]]. vm_compute in Hm. injection Hm as <-.
    vm_compute in Hp. discriminate.
Qed.

(** A single sample has no R2, and no sample at all is refused. *)
Example identical_arrays_short :
  (exists m, Metrics.calculate_metrics [4 # 1]%Q [4 # 1]%Q = Ok m /\ Metrics.R2 m = NaN)
  /\ raises (Metrics.calculate_metrics [] []).
Proof. split; [ eexists; split; reflexivity | exact I ]. Qed.

(** ** The forecast engine *)

Section EngineFacts.

Import Engine.

Variable B : Backends.

Lemma unsupported_eqb (t : string) :
  ~ supported t ->
  String.eqb t "ARIMA" = false /\ String.eqb t "SARIMA" = false
  /\ String.eqb t "Prophet" = false.
Proof.
  intros H. repeat split; apply String.eqb_neq; intros ->; apply H;
    unfold supported; simpl; auto.
Qed.

(** [train_model] with a type it does not know: the type is recorded,
    the held model is not touched, and the call raises. *)
Lemma train_model_unsupported (df : DataFrame) (t : string) (self : TimeSeriesModels B) :
  ~ supported t ->
  train_model B df t self
  = (Raise (ValueError ("Unsupported model type: " ++ t)), set_model_type B t self).
Proof.
  intros H. destruct (unsupported_eqb t H) as [Ha [Hs Hp]].
  unfold train_model, mbind, assign. rewrite Ha, Hs, Hp. reflexivity.
Qed.

Lemma train_statsmodels_ok (build : column -> except (sm_model B))
      (df : DataFrame) (self self' : TimeSeriesModels B) (m : model_obj B) :
  (endog <~ lift (getitem df "audience_count") ;;
   m <~ lift (build endog) ;;
   _ <~ assign (set_model B (SMModel m)) ;;
   r <~ lift (sm_fit B m) ;;
   _ <~ assign (set_model B (SMResults r)) ;;
   mret (SMResults r)) self = (Ok m, self') ->
  exists r, m = SMResults r /\ self' = mk_engine B (Some m) (model_type self).
Proof.
  unfold mbind, lift, assign, mret.
  destruct (getitem df "audience_count") as [endog | e]; [ | discriminate ].
  destruct (build endog) as [m0 | e]; [ | discriminate ].
  destruct (sm_fit B m0) as [r | e]; [ | discriminate ].
  intros H. injection H as <- <-. exists r. split; reflexivity.
Qed.

Lemma train_model_ok (df : DataFrame) (t : string)
      (self self' : TimeSeriesModels B) (m : model_obj B) :
  train_model B df t self = (Ok m, self') ->
  model self' = Some m /\ model_type self' = Some t /\ trained_as B t m.
Proof.
  unfold train_model. unfold mbind at 1. unfold assign at 1.
  destruct (String.eqb t "ARIMA") eqn:Ea.
  { intros H. apply train_statsmodels_ok in H. destruct H as [r [-> ->]].
    apply String.eqb_eq in Ea. simpl. auto. }
  destruct (String.eqb t "SARIMA") eqn:Es.
  { intros H. apply train_statsmodels_ok in H. destruct H as [r [-> ->]].
    apply String.eqb_eq in Es. simpl. auto. }
  destruct (String.eqb t "Prophet") eqn:Ep; [ | discriminate ].
  apply String.eqb_eq in Ep.
  unfold _train_prophet, mbind, lift, assign, mret.
  destruct (getitem df "audience_count") as [y | e]; [ | discriminate ].
  destruct (prophet_fit B (index df) y) as [p | e]; [ | discriminate ].
  intros H. injection H as <- <-. simpl. auto.
Qed.

Lemma lastn_length {A} (n : nat) (l : list A) :
  (n <= length l)%nat -> length (lastn n l) = n.
Proof. intros H. unfold lastn. rewrite length_skipn. lia. Qed.

(** The days after [last_date] among [periods + 1] days from it. *)
Lemma days_after (last_date : Z) (periods : nat) :
  filter (fun d => last_date <? d) (date_range last_date (S periods))
  = map (fun i => last_date + Z.of_nat i * ns_per_day) (seq 1 periods).
Proof.
  assert (Hf : forall k i, (1 <= i)%nat ->
             filter (fun d => last_date <? d)
                    (map (fun j => last_date + Z.of_nat j * ns_per_day) (seq i k))
             = map (fun j => last_date + Z.of_nat j * ns_per_day) (seq i k)).
  { induction k as [ | k IH ]; intros i Hi; simpl; [ reflexivity | ].
    assert (Hlt : (last_date <? last_date + Z.of_nat i * ns_per_day) = true).
    { apply Z.ltb_lt. unfold ns_per_day, ns_per_hour. lia. }
    rewrite Hlt. f_equal. apply IH. lia. }
  unfold date_range. change (seq 0 (S periods)) with (0%nat :: seq 1 periods).
  cbn [map filter].
  assert (H0 : (last_date <? last_date + Z.of_nat 0 * ns_per_day) = false).
  { apply Z.ltb_ge. simpl. lia. }
  rewrite H0. apply Hf. lia.
Qed.

Lemma make_future_dataframe_length (p : prophet_state B) (n : nat) :
  history_dates B p <> [] ->
  exists future, make_future_dataframe B p n = Ok future
                 /\ (n <= length future)%nat.
Proof.
  intros Hne. unfold make_future_dataframe.
  destruct (history_dates B p) as [ | d ds ] eqn:Eh; [ congruence | ].
  simpl max_date. cbv zeta. eexists. split; [ reflexivity | ].
  rewrite days_after, length_app, length_firstn, length_map, length_seq.
  lia.
Qed.

Lemma sm_forecast_length (r : sm_results B) (n : nat) :
  length (sm_forecast B r n) = n.
Proof. unfold sm_forecast. now rewrite length_map, length_seq. Qed.

Lemma get_forecast_length (self : TimeSeriesModels B) (t : string)
      (m : model_obj B) (n : nat) :
  (0 < n)%nat ->
  model_type self = Some t -> model self = Some m ->
  trained_as B t m -> valid_handle B m ->
  exists s, get_forecast B self n = Ok (Some s) /\ length s = n.
Proof.
  intros Hpos Ht Hm Hk Hv. unfold get_forecast. rewrite Hm, Ht.
  destruct m as [ m0 | r | | p ]; simpl in Hk, Hv; try contradiction.
  - assert (E : String.eqb t "ARIMA" || String.eqb t "SARIMA" = true).
    { destruct Hk as [-> | ->]; reflexivity. }
    rewrite E. cbn [call_forecast]. rewrite (Hv n Hpos). cbn [bind].
    eexists. split; [ reflexivity | apply sm_forecast_length ].
  - subst t. simpl. destruct Hv as [Hne Hlen].
    destruct (make_future_dataframe_length p n Hne) as [future [Hf Hn]].
    rewrite Hf. simpl. eexists. split; [ reflexivity | ].
    apply lastn_length. now rewrite Hlen.
Qed.

End EngineFacts.

Lemma positive_periods (N : nat) : In N [1; 7; 30; 90]%nat -> (0 < N)%nat.
Proof. simpl. intros [<- | [<- | [<- | [<- | []]]]]; lia. Qed.

(** C3. On an engine that holds a fitted object of a supported type
    from which the libraries can forecast, [get_forecast] returns a
    series of exactly [N] values, for [N] among 1, 7, 30 and 90, in
    order: for ARIMA and SARIMA the predictions of the steps 1 to [N]
    after the sample, for Prophet the last [N] predictions over the
    dates of the future frame. *)
Theorem forecast_has_N_values (B : Engine.Backends)
        (self : Engine.TimeSeriesModels B) (t : string)
        (m : Engine.model_obj B) (N : nat) :
  supported t -> In N [1; 7; 30; 90]%nat ->
  Engine.model_type self = Some t -> Engine.model self = Some m ->
  trained_as B t m -> valid_handle B m ->
  exists s,
    Engine.get_forecast B self N = Ok (Some s)
    /\ length s = N
    /\ match m with
       | Engine.SMResults r => s = map (Engine.sm_predict B r) (seq 1 N)
       | Engine.ProphetFitted p =>
           exists future,
             Engine.make_future_dataframe B p N = Ok future
             /\ s = lastn N (Engine.prophet_yhat B p future)
       | Engine.SMModel _ | Engine.ProphetNew => False
       end.
Proof.
  intros _ HN Ht Hm Hk Hv. apply positive_periods in HN.
  destruct (get_forecast_length B self t m N HN Ht Hm Hk Hv) as [s [Hs Hlen]].
  exists s. split; [ exact Hs | split; [ exact Hlen | ] ].
  unfold Engine.get_forecast in Hs. rewrite Hm, Ht in Hs.
  destruct m as [ m0 | r | | p ]; simpl in Hk, Hv; try contradiction.
  - assert (E : String.eqb t "ARIMA" || String.eqb t "SARIMA" = true).
    { destruct Hk as [-> | ->]; reflexivity. }
    rewrite E in Hs. cbn [Engine.call_forecast] in Hs.
    rewrite (Hv N HN) in Hs. cbn [bind] in Hs. now injection Hs as <-.
  - subst t. simpl in Hs. destruct Hv as [Hne _].
    destruct (make_future_dataframe_length B p N Hne) as [future [Hf _]].
    rewrite Hf in Hs. simpl in Hs. injection Hs as <-.
    exists future. split; [ exact Hf | reflexivity ].
Qed.

Lemma demo_valid_statsmodels (r : list Q) :
  valid_handle Demo.backends (@Engine.SMResults Demo.backends r).
Proof. intros [ | n ] Hn; [ lia | reflexivity ]. Qed.

Lemma demo_valid_prophet (ds : list Z) (y : list Q) :
  ds <> [] ->
  valid_handle Demo.backends (@Engine.ProphetFitted Demo.backends (ds, y)).
Proof. intros H. split; [ exact H | intros future; apply length_map ]. Qed.

Lemma forecast_has_N_values_witness :
  (let self := snd (Engine.train_model Demo.backends Demo.modeling_df "ARIMA"
                                       (Engine.init Demo.backends)) in
   exists s, Engine.get_forecast Demo.backends self 7 = Ok (Some s)
             /\ length s = 7%nat /\ s = repeat (CNum (130 # 1)) 7)
  /\ (let self := snd (Engine.train_model Demo.backends Demo.modeling_df "Prophet"
                                          (Engine.init Demo.backends)) in
      exists s, Engine.get_forecast Demo.backends self 30 = Ok (Some s)
                /\ length s = 30%nat).
Proof.
  split.
  - destruct (forecast_has_N_values Demo.backends
                (snd (Engine.train_model Demo.backends Demo.modeling_df "ARIMA"
                                         (Engine.init Demo.backends)))
                "ARIMA"
                (@Engine.SMResults Demo.backends [120 # 1; 95 # 1; 130 # 1]%Q) 7)
      as [s [Hs [Hlen Hval]]].
    + unfold supported. simpl. auto.
    + simpl. auto.
    + reflexivity.
    + reflexivity.
    + left. reflexivity.
    + apply demo_valid_statsmodels.
    + exists s. split; [ exact Hs | split; [ exact Hlen | ] ].
      rewrite Hval. reflexivity.
  - destruct (forecast_has_N_values Demo.backends
                (snd (Engine.train_model Demo.backends Demo.modeling_df "Prophet"
                                         (Engine.init Demo.backends)))
                "Prophet"
                (@Engine.ProphetFitted Demo.backends
                   (Demo.times (index Demo.modeling_df), [120 # 1; 95 # 1; 130 # 1]%Q))
                30)
      as [s [Hs [Hlen _]]].
    + unfold supported. simpl. auto.
    + simpl. auto.
    + reflexivity.
    + reflexivity.
    + reflexivity.
    + apply demo_valid_prophet. discriminate.
    + exists s. split; [ exact Hs | exact Hlen ].
Defined.

(** Whatever the fit results, [get_forecast] raises what the library
    raises or returns the predictions of the steps 1 to [N]. *)
Lemma get_forecast_statsmodels (B : Engine.Backends)
      (self : Engine.TimeSeriesModels B) (t : string) (r : Engine.sm_results B)
      (N : nat) :
  t = "ARIMA" \/ t = "SARIMA" ->
  Engine.model_type self = Some t ->
  Engine.model self = Some (Engine.SMResults r) ->
  match Engine.sm_forecast_error B r N with
  | Some e => Engine.get_forecast B self N = Raise e
  | None => Engine.get_forecast B self N = Ok (Some (Engine.sm_forecast B r N))
  end.
Proof.
  intros Hk Ht Hm. unfold Engine.get_forecast. rewrite Hm, Ht.
  assert (E : String.eqb t "ARIMA" || String.eqb t "SARIMA" = true).
  { destruct Hk as [-> | ->]; reflexivity. }
  rewrite E. cbn [Engine.call_forecast].
  destruct (Engine.sm_forecast_error B r N); reflexivity.
Qed.

Example forecast_of_no_step :
  Engine.get_forecast Demo.backends retrained 0
  = Raise (ValueError "Prediction must have `end` after `start`.").
Proof. reflexivity. Qed.

(** The same for the two statsmodels types, after a call of
    [train_model] that returned. *)
Example forecast_after_train_arima :
  forall t, t = "ARIMA" \/ t = "SARIMA" ->
  let self := snd (Engine.train_model Demo.backends Demo.modeling_df t
                                      (Engine.init Demo.backends)) in
  Engine.get_forecast Demo.backends self 7 = Ok (Some (repeat (CNum (130 # 1)) 7)).
Proof. intros t [-> | ->]; reflexivity. Qed.

(** In particular after any call of [train_model] that returned. *)
Lemma forecast_after_train (B : Engine.Backends) (df : DataFrame) (t : string)
      (self0 self : Engine.TimeSeriesModels B) (m : Engine.model_obj B) (N : nat) :
  Engine.train_model B df t self0 = (Ok m, self) ->
  valid_handle B m -> (0 < N)%nat ->
  exists s, Engine.get_forecast B self N = Ok (Some s) /\ length s = N.
Proof.
  intros Ht Hv HN. apply train_model_ok in Ht. destruct Ht as [Hm [Hty Hk]].
  exact (get_forecast_length B self t m N HN Hty Hm Hk Hv).
Qed.

(** A later call of [train_model] that raises before it builds its
    object leaves the old handle under the new type: here the results
    of an ARIMA fit under the type Prophet, which [get_forecast] cannot
    use. *)
Example forecast_with_stale_handle :
  let out := Engine.train_model Demo.backends Demo.no_audience_df "Prophet" retrained in
  fst out = Raise (KeyError "audience_count")
  /\ Engine.model (snd out) = Engine.model retrained
  /\ Engine.model_type (snd out) = Some "Prophet"
  /\ Engine.get_forecast Demo.backends (snd out) 7
     = Raise (AttributeError "object has no attribute 'make_future_dataframe'").
Proof. repeat split. Qed.

(** A new engine refuses to forecast: the held model is [None]. *)
Lemma forecast_before_train (B : Engine.Backends) (periods : nat) :
  Engine.get_forecast B (Engine.init B) periods = Raise (ValueError "Model not trained").
Proof. reflexivity. Qed.

Lemma forecast_without_model (B : Engine.Backends)
      (self : Engine.TimeSeriesModels B) (periods : nat) :
  Engine.model self = None ->
  Engine.get_forecast B self periods = Raise (ValueError "Model not trained").
Proof. intros H. unfold Engine.get_forecast. now rewrite H. Qed.

(** A fit that raises leaves the object built for it in [self.model]:
    [_train_prophet] and [_train_arima] assign it before they fit. *)
Lemma failed_prophet_fit (B : Engine.Backends) (df : DataFrame) (y : column)
      (e : exn) (self : Engine.TimeSeriesModels B) (periods : nat) :
  getitem df "audience_count" = Ok y ->
  Engine.prophet_fit B (index df) y = Raise e ->
  let out := Engine.train_model B df "Prophet" self in
  fst out = Raise e
  /\ snd out = Engine.mk_engine B (Some Engine.ProphetNew) (Some "Prophet")
  /\ Engine.get_forecast B (snd out) periods = Raise (Exception "Model has not been fit.").
Proof.
  intros Hy Hfit. unfold Engine.train_model, Engine._train_prophet.
  unfold mbind, lift, assign, mret. simpl.
  rewrite Hy, Hfit. simpl. repeat split.
Qed.

Lemma failed_arima_fit (B : Engine.Backends) (df : DataFrame) (endog : column)
      (m : Engine.sm_model B) (e : exn) (self : Engine.TimeSeriesModels B)
      (periods : nat) :
  getitem df "audience_count" = Ok endog ->
  Engine.ARIMA B endog = Ok m ->
  Engine.sm_fit B m = Raise e ->
  let out := Engine.train_model B df "ARIMA" self in
  fst out = Raise e
  /\ snd out = Engine.mk_engine B (Some (Engine.SMModel m)) (Some "ARIMA")
  /\ Engine.get_forecast B (snd out) periods
     = Raise (AttributeError "object has no attribute 'forecast'").
Proof.
  intros Hy Hm Hfit. unfold Engine.train_model, Engine._train_arima.
  unfold mbind, lift, assign, mret. simpl.
  rewrite Hy, Hm, Hfit. simpl. repeat split.
Qed.

(** What a call of [train_model] that raises leaves in [self.model]:
    the model held before, or the unfitted object of the fit that
    raised. *)
Lemma failed_train_model_state (B : Engine.Backends) (df : DataFrame) (t : string)
      (self self' : Engine.TimeSeriesModels B) (e : exn) :
  Engine.train_model B df t self = (Raise e, self') ->
  Engine.model self' = Engine.model self
  \/ (exists m, Engine.model self' = Some (Engine.SMModel m))
  \/ Engine.model self' = Some Engine.ProphetNew.
Proof.
  unfold Engine.train_model, Engine._train_arima, Engine._train_sarima,
    Engine._train_prophet, mbind, lift, assign, mret, mraise.
  destruct (getitem df "audience_count") as [endog | e0].
  - destruct (String.eqb t "ARIMA").
    { destruct (Engine.ARIMA B endog) as [m | e1];
        [ destruct (Engine.sm_fit B m) as [r | e2] | ]; intros H;
        try discriminate; injection H as _ <-; simpl; eauto. }
    destruct (String.eqb t "SARIMA").
    { destruct (Engine.SARIMAX B endog) as [m | e1];
        [ destruct (Engine.sm_fit B m) as [r | e2] | ]; intros H;
        try discriminate; injection H as _ <-; simpl; eauto. }
    destruct (String.eqb t "Prophet").
    { destruct (Engine.prophet_fit B (index df) endog) as [p | e1]; intros H;
        try discriminate; injection H as _ <-; simpl; eauto. }
    intros H. injection H as _ <-. simpl. auto.
  - destruct (String.eqb t "ARIMA"); [ intros H; injection H as _ <-; simpl; auto | ].
    destruct (String.eqb t "SARIMA"); [ intros H; injection H as _ <-; simpl; auto | ].
    destruct (String.eqb t "Prophet"); intros H; injection H as _ <-; simpl; auto.
Qed.

(** C4, where the code departs from it.  On a new engine, a call of
    [train_model] for Prophet on a frame of one row raises in the fit;
    no call of [train_model] has succeeded, and yet [get_forecast] does
    not raise "Model not trained": the engine holds the unfitted
    object, and the error is the library's. *)
Theorem forecast_after_failed_fit :
  let out := Engine.train_model Demo.backends Demo.one_day_df "Prophet"
                                (Engine.init Demo.backends) in
  fst out = Raise (ValueError "Dataframe has less than 2 non-NaN rows.")
  /\ Engine.get_forecast Demo.backends (snd out) 30
     = Raise (Exception "Model has not been fit.")
  /\ Engine.get_forecast Demo.backends (snd out) 30
     <> Raise (ValueError "Model not trained").
Proof. repeat split. discriminate. Qed.

(** C5. For every frame and every engine, [train_model] with a type
    other than ARIMA, SARIMA and Prophet raises
    [ValueError("Unsupported model type: ...")]. *)
Theorem train_unsupported_model (B : Engine.Backends) (df : DataFrame)
        (t : string) (self : Engine.TimeSeriesModels B) :
  ~ supported t ->
  fst (Engine.train_model B df t self)
  = Raise (ValueError ("Unsupported model type: " ++ t)).
Proof. intros H. now rewrite (train_model_unsupported B df t self H). Qed.

Lemma LSTM_unsupported : ~ supported "LSTM".
Proof.
  unfold supported. simpl. intros [H | [H | [H | []]]]; discriminate H.
Qed.

Lemma train_unsupported_model_witness :
  ~ supported "LSTM"
  /\ fst (Engine.train_model Demo.backends Demo.modeling_df "LSTM" (Engine.init Demo.backends))
  = Raise (ValueError "Unsupported model type: LSTM").
Proof.
  split; [ exact LSTM_unsupported | ].
  exact (train_unsupported_model Demo.backends Demo.modeling_df "LSTM"
           (Engine.init Demo.backends) LSTM_unsupported).
Defined.

(** C10. On an engine that holds a model, [train_model] with an
    unsupported type records the type, keeps the held model and raises;
    [get_forecast] on the engine so left returns [None], whatever the
    number of periods: it neither raises nor gives a series. *)
Theorem unsupported_retrain_forecasts_none (B : Engine.Backends) (df : DataFrame)
        (t : string) (self : Engine.TimeSeriesModels B) (m : Engine.model_obj B) :
  Engine.model self = Some m -> ~ supported t ->
  let out := Engine.train_model B df t self in
  fst out = Raise (ValueError ("Unsupported model type: " ++ t))
  /\ Engine.model_type (snd out) = Some t
  /\ Engine.model (snd out) = Some m
  /\ forall periods, Engine.get_forecast B (snd out) periods = Ok None.
Proof.
  intros Hm Hu. cbv zeta. rewrite (train_model_unsupported B df t self Hu).
  simpl. repeat split; [ exact Hm | ].
  intros periods. unfold Engine.get_forecast. simpl. rewrite Hm.
  destruct (unsupported_eqb t Hu) as [Ha [Hs Hp]].
  rewrite Ha, Hs, Hp. reflexivity.
Qed.

Lemma unsupported_retrain_forecasts_none_witness :
  Engine.model retrained
  = Some (@Engine.SMResults Demo.backends [120 # 1; 95 # 1; 130 # 1]%Q)
  /\ ~ supported "LSTM"
  /\ let out := Engine.train_model Demo.backends Demo.modeling_df "LSTM" retrained in
     fst out = Raise (ValueError "Unsupported model type: LSTM")
     /\ Engine.model_type (snd out) = Some "LSTM"
     /\ Engine.model (snd out)
        = Some (@Engine.SMResults Demo.backends [120 # 1; 95 # 1; 130 # 1]%Q)
     /\ forall periods, Engine.get_forecast Demo.backends (snd out) periods = Ok None.
Proof.
  split; [ reflexivity | split; [ exact LSTM_unsupported | ] ].
  exact (unsupported_retrain_forecasts_none Demo.backends Demo.modeling_df "LSTM"
           retrained (@Engine.SMResults Demo.backends [120 # 1; 95 # 1; 130 # 1]%Q)
           eq_refl LSTM_unsupported).
Defined.

(** ** Data frames *)

Lemma bind_ok {A C} (c : except A) (k : A -> except C) (r : C) :
  bind c k = Ok r -> exists a, c = Ok a /\ k a = Ok r.
Proof. destruct c as [a | e]; simpl; intros H; [ eauto | discriminate ]. Qed.

(** Splits a hypothesis [x <- c ;; k = Ok r] into its two steps. *)
Ltac bind_inv H x Hx :=
  apply bind_ok in H; destruct H as [x [Hx H]].

Lemma getitem_named (df : DataFrame) (name : string) :
  getitem df name
  = match named name (columns df) with
    | [] => Raise (KeyError name)
    | [c] => Ok c
    | _ => Raise (ValueError ("label is not unique: " ++ name))
    end.
Proof.
  unfold getitem, named.
  destruct (filter _ (columns df)) as [ | c [ | c' l ] ]; reflexivity.
Qed.

Lemma getitem_ok_named (df : DataFrame) (name : string) (c : column) :
  getitem df name = Ok c <-> named name (columns df) = [c].
Proof.
  rewrite getitem_named.
  destruct (named name (columns df)) as [ | c0 [ | c1 l ] ]; split; intros H;
    try discriminate; congruence.
Qed.

Lemma has_column_In (df : DataFrame) (name : string) :
  has_column df name = true <-> In name (labels df).
Proof.
  unfold has_column. rewrite existsb_exists. split.
  - intros [l [Hl He]]. apply String.eqb_eq in He. now subst.
  - intros H. exists name. split; [ exact H | apply String.eqb_refl ].
Qed.

Lemma named_nil (name : string) (cols : list (string * column)) :
  named name cols = [] <-> ~ In name (map fst cols).
Proof.
  unfold named. induction cols as [ | [l c] cols IH ]; simpl.
  - tauto.
  - destruct (String.eqb l name) eqn:E; simpl.
    + apply String.eqb_eq in E. split; [ discriminate | intros H; tauto ].
    + apply String.eqb_neq in E. rewrite IH. tauto.
Qed.

Lemma named_replace (name k : string) (c : column) (cols : list (string * column)) :
  named name (map (fun lc => if String.eqb (fst lc) k then (fst lc, c) else lc) cols)
  = if String.eqb k name then map (fun _ => c) (named name cols) else named name cols.
Proof.
  unfold named. induction cols as [ | [l x] cols IH ]; simpl.
  - now destruct (String.eqb k name).
  - destruct (String.eqb l k) eqn:Ek; simpl.
    + apply String.eqb_eq in Ek. subst l.
      destruct (String.eqb k name) eqn:En; simpl; now rewrite IH.
    + destruct (String.eqb l name) eqn:En; simpl; rewrite IH;
        destruct (String.eqb k name) eqn:Ekn; try reflexivity.
      apply String.eqb_eq in En, Ekn. subst. rewrite String.eqb_refl in Ek.
      discriminate.
Qed.

Lemma named_app (name : string) (a b : list (string * column)) :
  named name (a ++ b) = named name a ++ named name b.
Proof. unfold named. now rewrite filter_app, map_app. Qed.

(** Assigning a column leaves the columns of other labels alone. *)
Lemma named_setitem_other (df : DataFrame) (k name : string) (c : column) :
  k <> name -> named name (columns (setitem df k c)) = named name (columns df).
Proof.
  intros Hne. apply String.eqb_neq in Hne. unfold setitem.
  destruct (has_column df k); simpl.
  - now rewrite named_replace, Hne.
  - rewrite named_app. unfold named at 2. simpl. rewrite Hne. simpl.
    apply app_nil_r.
Qed.

Lemma getitem_setitem_other (df : DataFrame) (k name : string) (c : column) :
  k <> name -> getitem (setitem df k c) name = getitem df name.
Proof.
  intros Hne. now rewrite !getitem_named, named_setitem_other.
Qed.

(** Assigning to a label that one column carries, or none, makes it the
    column read back. *)
Lemma getitem_setitem_same (df : DataFrame) (k : string) (c : column) :
  (length (named k (columns df)) <= 1)%nat ->
  getitem (setitem df k c) k = Ok c.
Proof.
  intros Hlen. apply getitem_ok_named. unfold setitem.
  destruct (has_column df k) eqn:Eh; simpl.
  - rewrite named_replace, String.eqb_refl.
    destruct (named k (columns df)) as [ | c0 [ | c1 l ] ] eqn:En.
    + apply named_nil in En. apply has_column_In in Eh. contradiction.
    + reflexivity.
    + simpl in Hlen. lia.
  - rewrite named_app.
    assert (En : named k (columns df) = []).
    { apply named_nil. intros HIn. apply has_column_In in HIn. congruence. }
    rewrite En. unfold named. simpl. now rewrite String.eqb_refl.
Qed.

Lemma named_take_rows (rows : list nat) (df : DataFrame) (name : string) :
  named name (columns (take_rows rows df))
  = map (take rows) (named name (columns df)).
Proof.
  unfold take_rows, named. simpl.
  induction (columns df) as [ | [l c] cols IH ]; simpl; [ reflexivity | ].
  destruct (String.eqb l name); simpl; now rewrite IH.
Qed.

Lemma getitem_take_rows (rows : list nat) (df : DataFrame) (name : string) (c : column) :
  getitem df name = Ok c -> getitem (take_rows rows df) name = Ok (take rows c).
Proof.
  rewrite !getitem_ok_named, named_take_rows. now intros ->.
Qed.

Lemma positions_of_label (k : string) (ls : list string) (i p : nat) :
  In p (positions_of k ls i) ->
  (i <= p)%nat /\ nth_error ls (p - i) = Some k.
Proof.
  revert i. induction ls as [ | l ls IH ]; intros i H; simpl in H.
  - contradiction.
  - destruct (String.eqb l k) eqn:E.
    + destruct H as [<- | H].
      * apply String.eqb_eq in E. subst l.
        rewrite Nat.sub_diag. split; [ lia | reflexivity ].
      * apply IH in H. destruct H as [Hle Hn]. split; [ lia | ].
        replace (p - i)%nat with (S (p - S i)) by lia. exact Hn.
    + apply IH in H. destruct H as [Hle Hn]. split; [ lia | ].
      replace (p - i)%nat with (S (p - S i)) by lia. exact Hn.
Qed.

Lemma positions_located (df : DataFrame) (keys : list string) (ps : list nat) :
  positions df keys = Ok ps <-> locate df keys = Some ps.
Proof.
  unfold positions. destruct (locate df keys) as [qs | ].
  - split; intros H; injection H as <-; reflexivity.
  - destruct (forallb _ keys); split; discriminate.
Qed.

(** Every selected position carries one of the labels asked for. *)
Lemma positions_labels (df : DataFrame) (keys : list string) (ps : list nat) :
  positions df keys = Ok ps ->
  Forall (fun p => exists k, In k keys /\ nth_error (labels df) p = Some k) ps.
Proof.
  intros H. apply positions_located in H.
  revert ps H. induction keys as [ | k keys IH ]; intros ps H; simpl in H.
  - injection H as <-. constructor.
  - destruct (positions_of k (labels df) 0) as [ | p0 ps0 ] eqn:Ep;
      [ discriminate | ].
    destruct (locate df keys) as [qs | ] eqn:Hqs; [ | discriminate ].
    injection H as <-.
    change (p0 :: ps0 ++ qs) with ((p0 :: ps0) ++ qs).
    apply Forall_app. split.
    + apply Forall_forall. intros p Hp. exists k. split; [ now left | ].
      rewrite <- Ep in Hp. apply positions_of_label in Hp.
      destruct Hp as [_ Hn]. now rewrite Nat.sub_0_r in Hn.
    + specialize (IH qs eq_refl). eapply Forall_impl; [ | exact IH ].
      intros p [k' [Hk' Hn]]. exists k'. split; [ now right | exact Hn ].
Qed.

Lemma set_column_at_labels (p : nat) (c : column) (cols : list (string * column)) :
  map fst (set_column_at p c cols) = map fst cols.
Proof.
  revert p. induction cols as [ | lc cols IH ]; intros p; simpl.
  - reflexivity.
  - destruct p; simpl; [ reflexivity | now rewrite IH ].
Qed.

Lemma named_set_column_at (name : string) (p : nat) (c : column)
      (cols : list (string * column)) :
  nth_error (map fst cols) p <> Some name ->
  named name (set_column_at p c cols) = named name cols.
Proof.
  unfold named. revert p. induction cols as [ | [l x] cols IH ]; intros p H; simpl.
  - reflexivity.
  - destruct p as [ | p ]; simpl in *.
    + destruct (String.eqb l name) eqn:E; [ | reflexivity ].
      apply String.eqb_eq in E. congruence.
    + destruct (String.eqb l name); simpl; now rewrite (IH p H).
Qed.

Lemma named_set_columns (name : string) (pcs : list (nat * column))
      (cols : list (string * column)) :
  Forall (fun pc => nth_error (map fst cols) (fst pc) <> Some name) pcs ->
  named name (fold_left (fun cols pc => set_column_at (fst pc) (snd pc) cols) pcs cols)
  = named name cols.
Proof.
  revert cols. induction pcs as [ | [p c] pcs IH ]; intros cols H; simpl.
  - reflexivity.
  - inversion H as [ | ? ? Hp Hrest ]; subst. simpl in Hp.
    rewrite IH.
    + now apply named_set_column_at.
    + eapply Forall_impl; [ | exact Hrest ].
      intros pc Hpc. now rewrite set_column_at_labels.
Qed.

(** Assigning a block leaves the columns of other labels alone. *)
Lemma getitem_setitems_other (df out : DataFrame) (keys : list string)
      (arr : list column) (name : string) :
  ~ In name keys ->
  setitems df keys arr = Ok out ->
  getitem out name = getitem df name /\ index out = index df.
Proof.
  intros Hnot H. unfold setitems in H.
  bind_inv H ps Hps.
  destruct (negb (Nat.eqb (length arr) (length ps))); [ discriminate | ].
  destruct (negb (forallb (fun c => Nat.eqb (length c) (nrows df)) arr));
    [ discriminate | ].
  injection H as <-. split; [ | reflexivity ].
  rewrite !getitem_named. simpl. rewrite named_set_columns; [ reflexivity | ].
  apply positions_labels in Hps.
  apply Forall_forall. intros [p c] Hin. simpl.
  apply in_combine_l in Hin.
  rewrite Forall_forall in Hps. destruct (Hps p Hin) as [k [Hk Hn]].
  unfold labels in Hn. rewrite Hn. intros Heq. injection Heq as ->.
  contradiction.
Qed.

(** ** Sorting *)

Lemma Qle_bool_total (p q : Q) : Qle_bool p q = true \/ Qle_bool q p = true.
Proof.
  destruct (Qlt_le_dec p q) as [H | H].
  - left. apply Qle_bool_iff. now apply Qlt_le_weak.
  - right. now apply Qle_bool_iff.
Qed.

Lemma cell_leb_total (a b : cell) : cell_leb a b = true \/ cell_leb b a = true.
Proof.
  destruct a as [s | p | | s | ], b as [t | q | | t | ]; simpl; auto.
  - apply String.leb_total.
  - apply Qle_bool_total.
  - destruct (Z.leb_spec s t); [ now left | right ].
    apply Z.leb_le. lia.
Qed.

Section ArgSort.

Variable keys : column.

Lemma insert_row_hd (i j : nat) (rows : list nat) :
  before keys j i -> HdRel (before keys) j rows -> HdRel (before keys) j (insert_row keys i rows).
Proof.
  intros Hji Hhd. destruct rows as [ | k rest ]; simpl.
  - constructor. exact Hji.
  - inversion Hhd; subst. fold (key keys k). fold (key keys i).
    destruct (cell_leb (key keys k) (key keys i)); constructor; assumption.
Qed.

Lemma insert_row_sorted (i : nat) (rows : list nat) :
  Sorted (before keys) rows -> Sorted (before keys) (insert_row keys i rows).
Proof.
  induction 1 as [ | j rest Hs IH Hhd ]; simpl.
  - repeat constructor.
  - fold (key keys j). fold (key keys i).
    destruct (cell_leb (key keys j) (key keys i)) eqn:E.
    + constructor; [ exact IH | ]. now apply insert_row_hd.
    + constructor; [ now constructor | ].
      constructor. destruct (cell_leb_total (key keys i) (key keys j)) as [H | H];
        [ exact H | congruence ].
Qed.

Lemma insert_row_perm (i : nat) (rows : list nat) :
  Permutation (insert_row keys i rows) (i :: rows).
Proof.
  induction rows as [ | j rest IH ]; simpl.
  - reflexivity.
  - destruct (cell_leb _ _).
    + rewrite IH. apply perm_swap.
    + reflexivity.
Qed.

Lemma insert_rows_sorted (l acc : list nat) :
  Sorted (before keys) acc ->
  Sorted (before keys) (fold_left (fun rows i => insert_row keys i rows) l acc).
Proof.
  revert acc. induction l as [ | i l IH ]; intros acc H; simpl.
  - exact H.
  - apply IH. now apply insert_row_sorted.
Qed.

Lemma insert_rows_perm (l acc : list nat) :
  Permutation (fold_left (fun rows i => insert_row keys i rows) l acc) (l ++ acc).
Proof.
  revert acc. induction l as [ | i l IH ]; intros acc; simpl.
  - reflexivity.
  - rewrite IH. rewrite insert_row_perm. symmetry. apply Permutation_middle.
Qed.

(** [argsort] lists every row once, in ascending order of the keys. *)
Lemma argsort_sorted : Sorted (before keys) (argsort keys).
Proof. apply insert_rows_sorted. constructor. Qed.

Lemma argsort_perm : Permutation (argsort keys) (seq 0 (length keys)).
Proof.
  unfold argsort. rewrite insert_rows_perm. now rewrite app_nil_r.
Qed.

Lemma argsort_in_range (i : nat) : In i (argsort keys) -> In (key keys i) keys.
Proof.
  intros H. apply (Permutation_in _ argsort_perm) in H.
  apply in_seq in H. apply nth_In. lia.
Qed.

End ArgSort.

Lemma cell_leb_ts_le (a b : cell) :
  is_datetime a = true -> is_datetime b = true ->
  cell_leb a b = true -> ts_le a b.
Proof.
  destruct a, b; simpl; intros Ha Hb H; try discriminate; auto.
  now apply Z.leb_le.
Qed.

Lemma sorted_keys (keys : column) (rows : list nat) :
  Forall (fun i => is_datetime (key keys i) = true) rows ->
  Sorted (before keys) rows ->
  Sorted ts_le (take rows keys).
Proof.
  intros Hdt Hs. induction Hs as [ | i rest Hs IH Hhd ]; simpl.
  - constructor.
  - inversion Hdt as [ | ? ? Hi Hrest ]; subst.
    constructor; [ now apply IH | ].
    destruct Hhd as [ | j rest' Hij ]; simpl; constructor.
    inversion Hrest; subst. now apply cell_leb_ts_le.
Qed.

(** Reordering a datetime column by [argsort] sorts it. *)
Lemma take_argsort_sorted (keys : column) :
  Forall (fun c => is_datetime c = true) keys ->
  Sorted ts_le (take (argsort keys) keys).
Proof.
  intros Hdt. apply sorted_keys; [ | apply argsort_sorted ].
  apply Forall_forall. intros i Hi. apply argsort_in_range in Hi.
  rewrite Forall_forall in Hdt. now apply Hdt.
Qed.

(** ** Loading *)

Lemma rename_label_canonical (l : string) :
  rename_label DataProcessor.column_mapping l = canonical l.
Proof.
  unfold rename_label, canonical, DataProcessor.column_mapping.
  cbn [find fst snd].
  rewrite (String.eqb_sym "Date" l), (String.eqb_sym "AudienceCount" l),
    (String.eqb_sym "Platform" l).
  destruct (String.eqb l "Date"); [ reflexivity | ].
  destruct (String.eqb l "AudienceCount"); [ reflexivity | ].
  destruct (String.eqb l "Platform"); reflexivity.
Qed.

Lemma rename_canonical (df : DataFrame) :
  index (rename DataProcessor.column_mapping df) = index df
  /\ labels (rename DataProcessor.column_mapping df) = map canonical (labels df)
  /\ map snd (columns (rename DataProcessor.column_mapping df)) = map snd (columns df).
Proof.
  unfold rename, labels. simpl. rewrite !map_map. simpl.
  repeat split. apply map_ext. intros lc. apply rename_label_canonical.
Qed.

Lemma missing_required_iff (df : DataFrame) :
  missing_required df
  <-> forallb (has_column df) DataProcessor.required_columns = false.
Proof.
  unfold missing_required. split.
  - intros [c [Hc Hn]].
    destruct (forallb (has_column df) DataProcessor.required_columns) eqn:E;
      [ | reflexivity ].
    rewrite forallb_forall in E. specialize (E c Hc).
    apply has_column_In in E. contradiction.
  - intros H. unfold DataProcessor.required_columns in *. simpl in H.
    destruct (has_column df "Date") eqn:E1.
    2:{ exists "Date". split; [ simpl; auto | ].
        intros HIn. apply has_column_In in HIn. congruence. }
    destruct (has_column df "AudienceCount") eqn:E2.
    2:{ exists "AudienceCount". split; [ simpl; auto | ].
        intros HIn. apply has_column_In in HIn. congruence. }
    destruct (has_column df "Platform") eqn:E3; [ discriminate | ].
    exists "Platform". split; [ simpl; auto | ].
    intros HIn. apply has_column_In in HIn. congruence.
Qed.

(** Every error of [load_data] is a [ValueError]; a file that cannot be
    read is reported in the same way as a missing column. *)
Lemma load_data_errors (env : DataProcessor.Env) (f : DataProcessor.file env) (e : exn) :
  DataProcessor.load_data env f = Raise e -> is_value_error e = true.
Proof.
  unfold DataProcessor.load_data.
  destruct (DataProcessor.load_data_body env f); intros H; [ discriminate | ].
  injection H as <-. reflexivity.
Qed.

Lemma load_data_unreadable (env : DataProcessor.Env) (f : DataProcessor.file env) (e : exn) :
  DataProcessor.read_csv env f = Raise e ->
  DataProcessor.load_data env f = Raise (ValueError ("Error loading data: " ++ exn_str e)).
Proof.
  intros H. unfold DataProcessor.load_data, DataProcessor.load_data_body. now rewrite H.
Qed.

(** C7. For a file read as the table [raw]: [load_data] raises exactly
    when one of Date, AudienceCount and Platform is not a column of
    [raw], and what it raises is the [ValueError] for missing columns;
    otherwise it returns [raw] with each label replaced by its canonical
    name, the rows, the cells and the order of the columns unchanged. *)
Theorem load_data_schema (env : DataProcessor.Env) (f : DataProcessor.file env)
        (raw : DataFrame) :
  DataProcessor.read_csv env f = Ok raw ->
  (raises (DataProcessor.load_data env f) <-> missing_required raw)
  /\ (missing_required raw ->
      DataProcessor.load_data env f
      = Raise (ValueError ("Error loading data: " ++ DataProcessor.missing_columns_message)))
  /\ (~ missing_required raw ->
      exists out, DataProcessor.load_data env f = Ok out
        /\ index out = index raw
        /\ labels out = map canonical (labels raw)
        /\ map snd (columns out) = map snd (columns raw)).
Proof.
  intros Hread.
  unfold DataProcessor.load_data, DataProcessor.load_data_body. rewrite Hread.
  cbn [bind].
  pose proof (missing_required_iff raw) as Hiff.
  destruct (forallb (has_column raw) DataProcessor.required_columns) eqn:E;
    cbn [negb raises].
  - assert (Hnot : ~ missing_required raw).
    { intros H. apply Hiff in H. discriminate. }
    split; [ | split ].
    + split; [ intros Hr; destruct Hr | intros H; contradiction ].
    + intros H. contradiction.
    + intros _. eexists. split; [ reflexivity | apply rename_canonical ].
  - assert (Hmiss : missing_required raw) by now apply Hiff.
    split; [ | split ].
    + split; [ intros _; exact Hmiss | intros _; exact I ].
    + intros _. reflexivity.
    + intros H. contradiction.
Qed.

Lemma load_data_schema_witness :
  DataProcessor.read_csv Demo.env (Some Demo.upload) = Ok Demo.upload
  /\ (raises (DataProcessor.load_data Demo.env (Some Demo.upload))
      <-> missing_required Demo.upload)
  /\ (missing_required Demo.upload ->
      DataProcessor.load_data Demo.env (Some Demo.upload)
      = Raise (ValueError ("Error loading data: " ++ DataProcessor.missing_columns_message)))
  /\ (~ missing_required Demo.upload ->
      exists out, DataProcessor.load_data Demo.env (Some Demo.upload) = Ok out
        /\ index out = index Demo.upload
        /\ labels out = map canonical (labels Demo.upload)
        /\ map snd (columns out) = map snd (columns Demo.upload)).
Proof.
  split; [ reflexivity | ].
  exact (load_data_schema Demo.env (Some Demo.upload) Demo.upload eq_refl).
Defined.

Example load_data_renames :
  exists out, DataProcessor.load_data Demo.env (Some Demo.upload) = Ok out
    /\ labels out = ["timestamp"; "audience_count"; "platform";
                     "EngagementRate"; "ConversionRate"; "ForecastError"].
Proof. eexists. split; reflexivity. Qed.

Example load_data_missing_platform :
  DataProcessor.load_data Demo.env (Some Demo.upload_no_platform)
  = Raise (ValueError
      "Error loading data: Missing required columns. Required: ['Date', 'AudienceCount', 'Platform']").
Proof. reflexivity. Qed.

(** ** Preprocessing *)

Lemma to_datetime_kinds (env : DataProcessor.Env) (raw ts : column) :
  DataProcessor.to_datetime env raw = Ok ts ->
  Forall (fun c => is_datetime c = true) ts.
Proof.
  revert ts. induction raw as [ | x raw IH ]; intros ts H; simpl in H.
  - injection H as <-. constructor.
  - bind_inv H t Ht. bind_inv H rest Hrest. injection H as <-.
    constructor; [ | now apply IH ].
    destruct x; try (injection Ht as <-; reflexivity);
      destruct (DataProcessor.parse_datetime env _); try discriminate;
      injection Ht as <-; reflexivity.
Qed.

(** The timestamp column of the cleaned table is the parsed column of
    the input, reordered by [argsort]. *)
Lemma preprocess_timestamps (env : DataProcessor.Env) (df out : DataFrame) :
  DataProcessor.preprocess_data env df = Ok out ->
  exists raw ts,
    getitem df "timestamp" = Ok raw
    /\ DataProcessor.to_datetime env raw = Ok ts
    /\ getitem out "timestamp" = Ok (take (argsort ts) ts).
Proof.
  intros H. unfold DataProcessor.preprocess_data in H.
  bind_inv H raw Hraw. bind_inv H ts Hts. cbv zeta in H.
  bind_inv H sorted Hsorted.
  unfold sort_values in Hsorted. bind_inv Hsorted keys Hkeys.
  injection Hsorted as <-.
  assert (Hone : getitem (setitem df "timestamp" ts) "timestamp" = Ok ts).
  { apply getitem_setitem_same. apply getitem_ok_named in Hraw.
    rewrite Hraw. simpl. lia. }
  rewrite Hone in Hkeys. injection Hkeys as <-.
  pose proof (getitem_take_rows (argsort ts) _ _ _ Hone) as Hts2.
  bind_inv H block Hblock. bind_inv H arr Harr. bind_inv H imputed Himp.
  apply (getitem_setitems_other _ _ _ _ "timestamp") in Himp.
  2:{ unfold DataProcessor.numeric_columns. simpl.
      intros [E | [E | [E | [E | []]]]]; discriminate E. }
  destruct Himp as [Himp _]. rewrite Hts2 in Himp.
  bind_inv H ts1 Hts1. bind_inv H ts2' Hts2'. bind_inv H ts3 Hts3.
  bind_inv H dow Hdow. bind_inv H hour Hhour. injection H as <-.
  exists raw, ts. split; [ exact Hraw | split; [ exact Hts | ] ].
  rewrite !getitem_setitem_other by discriminate. exact Himp.
Qed.

(** C8. When [load_data] and then [preprocess_data] return, the
    timestamp column of the result is in ascending order, rows without
    a date ([NaT]) last. *)
Theorem load_preprocess_sorted (env : DataProcessor.Env) (f : DataProcessor.file env)
        (loaded cleaned : DataFrame) :
  DataProcessor.load_data env f = Ok loaded ->
  DataProcessor.preprocess_data env loaded = Ok cleaned ->
  exists ts, getitem cleaned "timestamp" = Ok ts /\ Sorted ts_le ts.
Proof.
  intros _ H. apply preprocess_timestamps in H.
  destruct H as [raw [ts [_ [Hts Hout]]]].
  exists (take (argsort ts) ts). split; [ exact Hout | ].
  apply take_argsort_sorted. eapply to_datetime_kinds. exact Hts.
Qed.

Lemma load_preprocess_sorted_witness :
  DataProcessor.load_data Demo.env (Some Demo.upload)
  = Ok (rename DataProcessor.column_mapping Demo.upload)
  /\ DataProcessor.preprocess_data Demo.env (rename DataProcessor.column_mapping Demo.upload)
     = Ok demo_cleaned
  /\ exists ts, getitem demo_cleaned "timestamp" = Ok ts /\ Sorted ts_le ts.
Proof.
  assert (H1 : DataProcessor.load_data Demo.env (Some Demo.upload)
               = Ok (rename DataProcessor.column_mapping Demo.upload)) by reflexivity.
  assert (H2 : DataProcessor.preprocess_data Demo.env
                 (rename DataProcessor.column_mapping Demo.upload) = Ok demo_cleaned)
    by (vm_compute; reflexivity).
  split; [ exact H1 | split; [ exact H2 | ] ].
  exact (load_preprocess_sorted Demo.env (Some Demo.upload) _ _ H1 H2).
Defined.

Example preprocess_sorts :
  getitem demo_cleaned "timestamp"
  = Ok [CTime (Demo.day 19723); CTime (Demo.day 19724); CTime (Demo.day 19725)]
  /\ getitem demo_cleaned "audience_count"
     = Ok [CNum (120 # 1); CNum (95 # 1); CNum (130 # 1)].
Proof. split; vm_compute; reflexivity. Qed.

(** ** Rolling statistics *)

Lemma firstn_repeat_le {A} (x : A) (k n : nat) :
  (k <= n)%nat -> firstn k (repeat x n) = repeat x k.
Proof.
  revert n. induction k as [ | k IH ]; intros n H; [ reflexivity | ].
  destruct n as [ | n ]; [ lia | ]. simpl. f_equal. apply IH. lia.
Qed.

Lemma skipn_repeat_sub {A} (x : A) (k n : nat) :
  skipn k (repeat x n) = repeat x (n - k).
Proof.
  revert n. induction k as [ | k IH ]; intros n; simpl.
  - now rewrite Nat.sub_0_r.
  - destruct n as [ | n ]; simpl; [ reflexivity | apply IH ].
Qed.

Lemma combine_repeat {A C} (a : A) (b : C) (n : nat) :
  combine (repeat a n) (repeat b n) = repeat (a, b) n.
Proof. induction n as [ | n IH ]; simpl; [ reflexivity | now rewrite IH ]. Qed.

Lemma filter_repeat {A} (f : A -> bool) (x : A) (n : nat) :
  f x = true -> filter f (repeat x n) = repeat x n.
Proof.
  intros H. induction n as [ | n IH ]; simpl; [ reflexivity | ].
  now rewrite H, IH.
Qed.

Lemma lastn_repeat {A} (x : A) (w k : nat) :
  lastn w (repeat x k) = repeat x (Nat.min w k).
Proof.
  unfold lastn. rewrite repeat_length, skipn_repeat_sub. f_equal.
  destruct (Nat.min_spec w k) as [[Hlt ->] | [Hle ->]]; lia.
Qed.

Lemma nth_map_seq {A} (f : nat -> A) (n i : nat) (d : A) :
  (i < n)%nat -> nth i (map f (seq 0 n)) d = f i.
Proof.
  intros H. rewrite (nth_indep _ d (f 0%nat)) by now rewrite length_map, length_seq.
  rewrite map_nth. now rewrite seq_nth.
Qed.

Section ConstantSeries.

Variables (p : string) (v : Q).

Lemma as_numbers_constant (n : nat) :
  DataProcessor.as_numbers (repeat (CNum v) n) = Ok (repeat (Some v) n).
Proof. induction n as [ | n IH ]; simpl; [ reflexivity | now rewrite IH ]. Qed.

(** In a table of one platform the group of a row is every row up to
    it, and its window the last seven of them. *)
Lemma window_constant (n i : nat) :
  (i < n)%nat ->
  lastn DataProcessor.window
        (DataProcessor.group_upto (repeat (CStr p) n) (repeat (Some v) n) i)
  = repeat (Some v) (Nat.min 7 (S i)).
Proof.
  intros H. unfold DataProcessor.group_upto.
  rewrite combine_repeat, firstn_repeat_le by lia.
  rewrite nth_repeat_lt by exact H.
  rewrite filter_repeat by (simpl; apply String.eqb_refl).
  rewrite map_repeat. simpl snd. apply lastn_repeat.
Qed.

Lemma observations_constant (k : nat) :
  DataProcessor.observations (repeat (Some v) k) = repeat v k.
Proof. induction k as [ | k IH ]; simpl; [ reflexivity | now rewrite IH ]. Qed.

Lemma fold_Qplus_constant (k : nat) (acc : Q) :
  fold_left Qplus (repeat v k) acc == acc + inject_Z (Z.of_nat k) * v.
Proof.
  revert acc. induction k as [ | k IH ]; intros acc.
  - simpl. ring.
  - cbn [repeat fold_left]. rewrite IH.
    rewrite Nat2Z.inj_succ. unfold Z.succ. rewrite inject_Z_plus. ring.
Qed.

Lemma Qmean_constant (k : nat) : (1 <= k)%nat -> Qmean (repeat v k) == v.
Proof.
  intros H. unfold Qmean, Qsum, Qlen.
  rewrite fold_Qplus_constant, repeat_length.
  field. intros Hz. unfold Qeq in Hz. simpl in Hz. lia.
Qed.

Lemma sample_variance_constant (k : nat) :
  (1 <= k)%nat -> DataProcessor.sample_variance (repeat v k) == 0.
Proof.
  intros H. unfold DataProcessor.sample_variance.
  assert (Hs : Qsum (map (fun x => Qsquare (x - Qmean (repeat v k))) (repeat v k)) == 0).
  { apply Qsum_zeros. rewrite map_repeat. apply Forall_forall.
    intros x Hx. apply repeat_spec in Hx. subst x.
    apply Qsquare_zero. rewrite (Qmean_constant k H). ring. }
  rewrite Hs. unfold Qdiv. ring.
Qed.

(** The two statistics of a window of [k] equal observations. *)
Lemma rolling_mean_constant (k : nat) :
  (1 <= k)%nat ->
  exists q, DataProcessor.rolling_mean (repeat (Some v) k) = CNum q /\ q == v.
Proof.
  intros H. unfold DataProcessor.rolling_mean.
  rewrite observations_constant, repeat_length.
  assert (E : Nat.leb DataProcessor.min_periods k = true) by now apply Nat.leb_le.
  rewrite E. eexists. split; [ reflexivity | now apply Qmean_constant ].
Qed.

Lemma rolling_std_constant (k : nat) :
  (2 <= k)%nat ->
  exists q, DataProcessor.rolling_std (repeat (Some v) k) = CNum q /\ q == 0.
Proof.
  intros H. unfold DataProcessor.rolling_std.
  rewrite observations_constant, repeat_length.
  assert (E1 : Nat.leb DataProcessor.min_periods k = true)
    by (apply Nat.leb_le; unfold DataProcessor.min_periods; lia).
  assert (E2 : Nat.ltb DataProcessor.ddof k = true)
    by (apply Nat.ltb_lt; unfold DataProcessor.ddof; lia).
  rewrite E1, E2. eexists. split; [ reflexivity | ].
  apply Qsqrt_zero, sample_variance_constant. lia.
Qed.

(** One observation has no sample standard deviation. *)
Lemma rolling_std_single (x : Q) : DataProcessor.rolling_std [Some x] = CNaN.
Proof. reflexivity. Qed.

Lemma group_rolling_constant (stat : list (option Q) -> cell) (n i : nat) :
  (i < n)%nat ->
  nth i (DataProcessor.group_rolling stat (repeat (CStr p) n) (repeat (Some v) n)) CNaN
  = stat (repeat (Some v) (Nat.min 7 (S i))).
Proof.
  intros H. unfold DataProcessor.group_rolling.
  rewrite repeat_length, nth_map_seq by exact H.
  rewrite nth_repeat_lt by exact H.
  now rewrite window_constant.
Qed.

Lemma group_rolling_length (stat : list (option Q) -> cell) (keys : column)
      (vals : list (option Q)) :
  length (DataProcessor.group_rolling stat keys vals) = length vals.
Proof. unfold DataProcessor.group_rolling. now rewrite length_map, length_seq. Qed.

End ConstantSeries.

Lemma NoDup_named (name : string) (cols : list (string * column)) :
  NoDup (map fst cols) -> (length (named name cols) <= 1)%nat.
Proof.
  unfold named. induction cols as [ | [l c] cols IH ]; simpl; intros H.
  - lia.
  - inversion H as [ | ? ? Hnot Hrest ]; subst.
    destruct (String.eqb l name) eqn:E; simpl; [ | now apply IH ].
    apply String.eqb_eq in E. subst l.
    apply named_nil in Hnot. unfold named in Hnot. rewrite Hnot. simpl. lia.
Qed.

(** The two rolling columns [engineer_features] leaves in its result. *)
Lemma engineer_features_rolling (df out : DataFrame) (keys raw : column) :
  NoDup (labels df) ->
  getitem df "platform" = Ok keys ->
  getitem df "audience_count" = Ok raw ->
  DataProcessor.engineer_features df = Ok out ->
  exists vals,
    DataProcessor.as_numbers raw = Ok vals
    /\ getitem out "audience_7day_mean"
       = Ok (DataProcessor.group_rolling DataProcessor.rolling_mean keys vals)
    /\ getitem out "audience_7day_std"
       = Ok (DataProcessor.group_rolling DataProcessor.rolling_std keys vals).
Proof.
  intros Hnd Hkeys Hraw H. unfold DataProcessor.engineer_features in H.
  rewrite Hkeys, Hraw in H. cbn [bind] in H.
  bind_inv H vals Hvals. cbv zeta in H.
  rewrite !getitem_setitem_other in H by discriminate.
  rewrite Hkeys, Hraw in H. cbn [bind] in H. rewrite Hvals in H. cbn [bind] in H.
  bind_inv H er Her. bind_inv H cr Hcr. bind_inv H score Hscore.
  bind_inv H plat Hplat. injection H as <-.
  exists vals. split; [ exact Hvals | split ].
  - rewrite !getitem_setitem_other by discriminate.
    apply getitem_setitem_same. now apply NoDup_named.
  - rewrite !getitem_setitem_other by discriminate.
    apply getitem_setitem_same.
    rewrite named_setitem_other by discriminate. now apply NoDup_named.
Qed.

(** C1, as amended.  In a table of one platform whose audience count is
    the constant [v], the rolling mean is [v] in every row, the first
    rows included, and the rolling standard deviation is 0 in every row
    but the first, where it is missing. *)
Theorem rolling_of_constant_series (df out : DataFrame) (p : string) (v : Q)
        (n : nat) :
  NoDup (labels df) ->
  getitem df "platform" = Ok (repeat (CStr p) n) ->
  getitem df "audience_count" = Ok (repeat (CNum v) n) ->
  DataProcessor.engineer_features df = Ok out ->
  exists m s,
    getitem out "audience_7day_mean" = Ok m
    /\ getitem out "audience_7day_std" = Ok s
    /\ length m = n /\ length s = n
    /\ (forall i, (i < n)%nat -> cell_eq (nth i m CNaN) (CNum v))
    /\ (forall i, (1 <= i < n)%nat -> cell_eq (nth i s CNaN) (CNum 0))
    /\ ((0 < n)%nat -> nth 0 s (CNum 0) = CNaN).
Proof.
  intros Hnd Hkeys Hraw H.
  destruct (engineer_features_rolling df out _ _ Hnd Hkeys Hraw H)
    as [vals [Hvals [Hm Hs]]].
  rewrite as_numbers_constant in Hvals. injection Hvals as <-.
  eexists. eexists. split; [ exact Hm | split; [ exact Hs | ] ].
  rewrite !group_rolling_length, repeat_length.
  split; [ reflexivity | split; [ reflexivity | ] ].
  split; [ | split ].
  - intros i Hi. rewrite group_rolling_constant by exact Hi.
    destruct (rolling_mean_constant v (Nat.min 7 (S i))) as [q [-> Hq]].
    + destruct (Nat.min_spec 7 (S i)) as [[_ ->] | [_ ->]]; lia.
    + exact Hq.
  - intros i Hi. rewrite group_rolling_constant by lia.
    destruct (rolling_std_constant v (Nat.min 7 (S i))) as [q [-> Hq]].
    + destruct (Nat.min_spec 7 (S i)) as [[_ ->] | [_ ->]]; lia.
    + exact Hq.
  - intros Hn. rewrite (nth_indep _ (CNum 0) CNaN)
      by now rewrite group_rolling_length, repeat_length.
    rewrite group_rolling_constant by exact Hn. reflexivity.
Qed.

Lemma constant_table_featured :
  DataProcessor.engineer_features Demo.constant_table = Ok demo_featured.
Proof. vm_compute. reflexivity. Qed.

Lemma rolling_of_constant_series_witness :
  NoDup (labels Demo.constant_table)
  /\ exists m s,
    getitem demo_featured "audience_7day_mean" = Ok m
    /\ getitem demo_featured "audience_7day_std" = Ok s
    /\ length m = 3%nat /\ length s = 3%nat
    /\ (forall i, (i < 3)%nat -> cell_eq (nth i m CNaN) (CNum (50 # 1)))
    /\ (forall i, (1 <= i < 3)%nat -> cell_eq (nth i s CNaN) (CNum 0))
    /\ ((0 < 3)%nat -> nth 0 s (CNum 0) = CNaN).
Proof.
  assert (Hnd : NoDup (labels Demo.constant_table)).
  { repeat constructor; simpl; intros H;
      repeat (destruct H as [H | H]; [ discriminate H | ]); exact H. }
  split; [ exact Hnd | ].
  exact (rolling_of_constant_series Demo.constant_table demo_featured "Web" (50 # 1) 3
           Hnd eq_refl eq_refl constant_table_featured).
Defined.

(** C1, as stated, fails in the first row: three days of one platform
    with a constant audience of 50 get the standard deviations
    [NaN, 0, 0]. *)
Lemma constant_series_first_std :
  exists out s,
    DataProcessor.engineer_features Demo.constant_table = Ok out
    /\ getitem out "audience_7day_std" = Ok s
    /\ nth 0 s (CNum 0) = CNaN
    /\ ~ (forall i, (i < nrows out)%nat -> cell_eq (nth i s CNaN) (CNum 0)).
Proof.
  exists demo_featured. eexists.
  split; [ exact constant_table_featured | ].
  split; [ vm_compute; reflexivity | ]. split; [ reflexivity | ].
  intros H. specialize (H 0%nat (Nat.lt_0_succ 2)). simpl in H. discriminate H.
Qed.

(** Each platform has its own windows: the second row of "Web" is the
    third of the table. *)
Example rolling_by_platform :
  exists out m s,
    DataProcessor.engineer_features Demo.two_platforms = Ok out
    /\ getitem out "audience_7day_mean" = Ok m
    /\ getitem out "audience_7day_std" = Ok s
    /\ Forall2 cell_eq m [CNum (0 # 1); CNum (7 # 1); CNum (3 # 2); CNum (3 # 1)]
    /\ nth 0 s (CNum 0) = CNaN /\ nth 1 s (CNum 0) = CNaN
    /\ cell_eq (nth 3 s CNaN) (CNum (3 # 1)).
Proof.
  eexists. eexists. eexists.
  split; [ vm_compute; reflexivity | ].
  split; [ vm_compute; reflexivity | ].
  split; [ vm_compute; reflexivity | ].
  split; [ repeat constructor | ].
  repeat split.
Qed.

(** A window holds seven rows: the eighth row no longer sees the first. *)
Example rolling_window_of_seven :
  let keys := repeat (CStr "Web") 8 in
  let vals := Some (7 # 1) :: repeat (Some (0 # 1)) 7 in
  Forall2 cell_eq
    (DataProcessor.group_rolling DataProcessor.rolling_mean keys vals)
    [CNum (7 # 1); CNum (7 # 2); CNum (7 # 3); CNum (7 # 4); CNum (7 # 5);
     CNum (7 # 6); CNum (1 # 1); CNum (0 # 1)].
Proof. vm_compute. repeat constructor. Qed.

(** ** The forecast export *)

Lemma date_of_add_days (t k : Z) : date_of (t + k * ns_per_day) = date_of t + k.
Proof.
  unfold date_of. apply Z.div_add. unfold ns_per_day, ns_per_hour. lia.
Qed.

(** Row [i] of a daily range is [i] days after its start, on the
    calendar as well. *)
Lemma date_range_nth (start : Z) (n i : nat) :
  (i < n)%nat ->
  nth i (date_range start n) 0 = start + Z.of_nat i * ns_per_day
  /\ date_of (nth i (date_range start n) 0) = date_of start + Z.of_nat i.
Proof.
  intros H. unfold date_range. rewrite nth_map_seq by exact H.
  split; [ reflexivity | apply date_of_add_days ].
Qed.

Lemma next_day_inv (idx : column) (t : Z) :
  App.next_day idx = Ok (CTime t) ->
  exists t0, lastn 1 idx = [CTime t0] /\ t = t0 + ns_per_day.
Proof.
  unfold App.next_day.
  destruct (lastn 1 idx) as [ | c rest ] eqn:E; [ discriminate | ].
  assert (Hlen : (length (lastn 1 idx) <= 1)%nat).
  { unfold lastn. rewrite length_skipn. lia. }
  rewrite E in Hlen. destruct rest; [ | simpl in Hlen; lia ].
  destruct c; intros H; try discriminate.
  injection H as <-. eexists. split; reflexivity.
Qed.

(** C9. The frame offered for download, built from a forecast for a
    horizon of [N] days: it has exactly [N] rows; its timestamps are one
    day apart and start one day after the last timestamp [t] of the
    modeling frame, so that row [i] falls on the calendar day [i + 1]
    days after that of [t]; and its forecast column is the forecast, in
    order. *)
Theorem forecast_export_rows (modeling_df : DataFrame) (N : nat)
        (values : column) (out : DataFrame) :
  App.forecast_df modeling_df N (Some values) = Ok out ->
  exists t,
    lastn 1 (index modeling_df) = [CTime t]
    /\ nrows out = N /\ length values = N
    /\ getitem out "timestamp" = Ok (map CTime (date_range (t + ns_per_day) N))
    /\ getitem out "forecast" = Ok values
    /\ forall i, (i < N)%nat ->
         nth i (date_range (t + ns_per_day) N) 0 = t + (Z.of_nat i + 1) * ns_per_day
         /\ date_of (nth i (date_range (t + ns_per_day) N) 0)
            = date_of t + 1 + Z.of_nat i.
Proof.
  intros H. unfold App.forecast_df in H. bind_inv H start Hstart.
  destruct start as [ | | | t1 | ]; try discriminate.
  apply next_day_inv in Hstart. destruct Hstart as [t [Hlast ->]].
  destruct (Nat.eqb (length values) N) eqn:E; [ | discriminate ].
  apply Nat.eqb_eq in E. injection H as <-.
  exists t. split; [ exact Hlast | ].
  split; [ unfold nrows; simpl; now rewrite length_map, length_seq | ].
  split; [ exact E | ].
  split; [ reflexivity | split; [ reflexivity | ] ].
  intros i Hi. destruct (date_range_nth (t + ns_per_day) N i Hi) as [Hn Hd].
  split.
  - rewrite Hn. lia.
  - rewrite Hd. pose proof (date_of_add_days t 1) as H1.
    rewrite Z.mul_1_l in H1. rewrite H1. reflexivity.
Qed.

(** The frame is built whenever the modeling frame ends on a timestamp
    and the forecast has as many values as the horizon has days. *)
Lemma forecast_df_built (modeling_df : DataFrame) (N : nat) (values : column) (t : Z) :
  lastn 1 (index modeling_df) = [CTime t] -> length values = N ->
  exists out, App.forecast_df modeling_df N (Some values) = Ok out.
Proof.
  intros Hlast Hlen. unfold App.forecast_df, App.next_day.
  rewrite Hlast. cbn [bind]. rewrite Hlen, Nat.eqb_refl. eexists. reflexivity.
Qed.

Lemma forecast_export_rows_witness :
  App.forecast_df Demo.modeling_df 3 (Some (repeat (CNum (130 # 1)) 3)) = Ok demo_export
  /\ exists t,
    lastn 1 (index Demo.modeling_df) = [CTime t]
    /\ nrows demo_export = 3%nat /\ length (repeat (CNum (130 # 1)) 3) = 3%nat
    /\ getitem demo_export "timestamp" = Ok (map CTime (date_range (t + ns_per_day) 3))
    /\ getitem demo_export "forecast" = Ok (repeat (CNum (130 # 1)) 3)
    /\ forall i, (i < 3)%nat ->
         nth i (date_range (t + ns_per_day) 3) 0 = t + (Z.of_nat i + 1) * ns_per_day
         /\ date_of (nth i (date_range (t + ns_per_day) 3) 0)
            = date_of t + 1 + Z.of_nat i.
Proof.
  assert (H : App.forecast_df Demo.modeling_df 3 (Some (repeat (CNum (130 # 1)) 3))
              = Ok demo_export) by (vm_compute; reflexivity).
  split; [ exact H | ].
  exact (forecast_export_rows Demo.modeling_df 3 _ demo_export H).
Defined.

(** What the button hands out when it succeeds: the export above, for
    the forecast of the engine it has just trained.  A Prophet model has
    no [fittedvalues], so that for Prophet the handler raises before it
    builds any export. *)
Theorem generate_forecast_export (B : Engine.Backends) (modeling_df : DataFrame)
        (t : string) (N : nat) (self self' : Engine.TimeSeriesModels B)
        (scores : Metrics.metrics) (out : DataFrame) :
  App.generate_forecast B modeling_df t N self = (Ok (scores, out), self') ->
  exists values,
    Engine.get_forecast B self' N = Ok (Some values)
    /\ App.forecast_df modeling_df N (Some values) = Ok out.
Proof.
  unfold App.generate_forecast. unfold mbind at 1.
  destruct (Engine.train_model B modeling_df t self) as [[m | e] self1] eqn:Et;
    [ | discriminate ].
  apply train_model_ok in Et. destruct Et as [Hm [Ht Hk]].
  unfold mbind at 1.
  destruct (Engine.get_forecast B self1 N) as [fc | e] eqn:Ef; [ | discriminate ].
  unfold mbind, lift, mret.
  destruct (getitem modeling_df "audience_count") as [actual | e]; [ | discriminate ].
  destruct (Engine.fittedvalues B m) as [fitted | e] eqn:Efit; [ | discriminate ].
  destruct (as_finite actual) as [a | e]; [ | discriminate ].
  destruct (Metrics.calculate_metrics_of Metrics.WithSeries a fitted) as [sc | e];
    [ | discriminate ].
  destruct (App.forecast_df modeling_df N fc) as [o | e] eqn:Eo; [ | discriminate ].
  intros H. injection H as <- <- <-.
  destruct m as [ m0 | r | | p ]; simpl in Hk, Efit; try discriminate.
  pose proof (get_forecast_statsmodels B self1 t r N Hk Ht Hm) as Hf.
  destruct (Engine.sm_forecast_error B r N) as [e | ]; [ congruence | ].
  rewrite Hf in Ef. injection Ef as <-.
  eexists. split; [ exact Hf | exact Eo ].
Qed.

Example prophet_export_fails :
  fst (App.generate_forecast Demo.backends Demo.modeling_df "Prophet" 3
                             (Engine.init Demo.backends))
  = Raise (AttributeError "object has no attribute 'fittedvalues'").
Proof. reflexivity. Qed.

Example arima_export :
  exists scores self,
    App.generate_forecast Demo.backends Demo.modeling_df "ARIMA" 3
                          (Engine.init Demo.backends)
    = (Ok (scores, demo_export), self).
Proof. eexists. eexists. vm_compute. reflexivity. Qed.

(* ================================================================== *)
(** * Further properties *)

(** ** Regression metrics: ranges, perfect fits, validation *)

Lemma fold_Qplus_nonneg (l : list Q) (acc : Q) :
  Forall (fun x => 0 <= x)%Q l -> (acc <= fold_left Qplus l acc)%Q.
Proof.
  revert acc. induction l as [ | x l IH ]; intros acc H; simpl.
  - apply Qle_refl.
  - inversion H as [ | ? ? Hx Hl ]; subst.
    apply Qle_trans with (acc + x)%Q; [ | now apply IH ].
    rewrite <- (Qplus_0_r acc) at 1. now apply Qplus_le_r.
Qed.

Lemma Qsum_nonneg (l : list Q) : Forall (fun x => 0 <= x)%Q l -> (0 <= Qsum l)%Q.
Proof. apply fold_Qplus_nonneg. Qed.

Lemma fold_Qplus_zero_inv (l : list Q) (acc : Q) :
  Forall (fun x => 0 <= x)%Q l -> (0 <= acc)%Q ->
  fold_left Qplus l acc == 0 -> acc == 0 /\ Forall (fun x => x == 0) l.
Proof.
  revert acc. induction l as [ | x l IH ]; intros acc H Hacc Hz; simpl in Hz.
  - split; [ exact Hz | constructor ].
  - inversion H as [ | ? ? Hx Hl ]; subst.
    assert (Hax : (0 <= acc + x)%Q).
    { rewrite <- (Qplus_0_r 0). now apply Qplus_le_compat. }
    destruct (IH (acc + x)%Q Hl Hax Hz) as [Hsum Hrest].
    assert (Ha : acc == 0).
    { apply Qle_antisym; [ | exact Hacc ].
      rewrite <- Hsum. rewrite <- (Qplus_0_r acc) at 1. now apply Qplus_le_r. }
    split; [ exact Ha | ]. constructor; [ | exact Hrest ].
    rewrite Ha in Hsum. rewrite Qplus_0_l in Hsum. exact Hsum.
Qed.

Lemma Qsum_zero_iff (l : list Q) :
  Forall (fun x => 0 <= x)%Q l ->
  (Qsum l == 0 <-> Forall (fun x => x == 0) l).
Proof.
  intros H. split.
  - intros Hz. now apply (fold_Qplus_zero_inv l 0 H (Qle_refl 0)).
  - apply Qsum_zeros.
Qed.

Lemma Qlen_pos {A} (l : list A) : l <> [] -> (0 < Qlen l)%Q.
Proof.
  intros H. destruct l as [ | a l ]; [ congruence | ].
  unfold Qlen, Qlt. simpl. lia.
Qed.

Lemma Qmean_nonneg (l : list Q) :
  l <> [] -> Forall (fun x => 0 <= x)%Q l -> (0 <= Qmean l)%Q.
Proof.
  intros Hne H. unfold Qmean.
  apply Qle_shift_div_l; [ now apply Qlen_pos | ].
  rewrite Qmult_0_l. now apply Qsum_nonneg.
Qed.

Lemma Qmean_zero_iff (l : list Q) :
  l <> [] -> Forall (fun x => 0 <= x)%Q l ->
  (Qmean l == 0 <-> Forall (fun x => x == 0) l).
Proof.
  intros Hne H. rewrite <- (Qsum_zero_iff l H). unfold Qmean.
  pose proof (Qlen_nonzero l Hne) as Hn. split; intros Hz.
  - assert (E : Qsum l == (Qsum l / Qlen l) * Qlen l) by (field; exact Hn).
    rewrite E, Hz. ring.
  - rewrite Hz. unfold Qdiv. ring.
Qed.

Lemma Qsquare_nonneg (x : Q) : (0 <= Qsquare x)%Q.
Proof.
  unfold Qsquare. destruct (Qlt_le_dec x 0) as [H | H].
  - setoid_replace (x * x)%Q with ((- x) * (- x))%Q by ring.
    apply Qmult_le_0_compat; apply (Qopp_le_compat x 0); now apply Qlt_le_weak.
  - now apply Qmult_le_0_compat.
Qed.

Lemma Qsquare_zero_inv (x : Q) : Qsquare x == 0 -> x == 0.
Proof.
  unfold Qsquare. intros H. destruct (Qmult_integral _ _ H); assumption.
Qed.

Lemma Qabs_zero_inv (x : Q) : Qabs x == 0 -> x == 0.
Proof.
  intros H. apply Qle_antisym.
  - rewrite <- H. apply Qle_Qabs.
  - assert (Hn : (- x <= 0)%Q).
    { rewrite <- H. rewrite <- Qabs_opp. apply Qle_Qabs. }
    apply Qopp_le_compat in Hn. rewrite Qopp_involutive in Hn. exact Hn.
Qed.

Lemma Forall_map_nonneg (f : Q -> Q) (l : list Q) :
  (forall x, 0 <= f x)%Q -> Forall (fun x => 0 <= x)%Q (map f l).
Proof. intros H. apply Forall_forall. intros y Hy. apply in_map_iff in Hy.
  destruct Hy as [x [<- _]]. apply H. Qed.

Lemma Forall_zero_map_inv (f : Q -> Q) (l : list Q) :
  (forall x, f x == 0 -> x == 0) ->
  Forall (fun x => x == 0) (map f l) -> Forall (fun x => x == 0) l.
Proof.
  intros Hf. induction l as [ | x l IH ]; simpl; intros H; constructor;
    inversion H; subst; auto.
Qed.

(** The residuals are all zero exactly when the two arrays agree. *)
Lemma residuals_zero_iff (a b : list Q) :
  length a = length b ->
  (Forall (fun x => x == 0) (Metrics.residuals a b) <-> Forall2 Qeq a b).
Proof.
  unfold Metrics.residuals. revert b.
  induction a as [ | x a IH ]; intros [ | y b ] Hlen; try discriminate.
  - simpl. split; constructor.
  - simpl in Hlen. injection Hlen as Hlen. simpl. split; intros H.
    + inversion H as [ | ? ? Hx Hrest ]; subst. constructor.
      * setoid_replace x with ((x - y) + y)%Q by ring. rewrite Hx. ring.
      * now apply IH.
    + inversion H as [ | ? ? ? ? Hxy Hrest ]; subst. constructor.
      * rewrite Hxy. ring.
      * now apply IH.
Qed.

Lemma Forall2_Qeq_sym (a b : list Q) : Forall2 Qeq a b -> Forall2 Qeq b a.
Proof. induction 1; constructor; [ now symmetry | assumption ]. Qed.

Lemma calculate_metrics_inv (actual predicted : list Q) (m : Metrics.metrics) :
  Metrics.calculate_metrics actual predicted = Ok m ->
  length actual = length predicted /\ actual <> []
  /\ Metrics.RMSE m
     = fsqrt (Fin (Qmean (map Qsquare (Metrics.residuals actual predicted))))
  /\ Metrics.MAE m = Fin (Qmean (map Qabs (Metrics.residuals predicted actual)))
  /\ Metrics.MAPE m
     = fmul (np_mean (map fabs (Metrics.relative_errors actual predicted))) (Fin 100)
  /\ Metrics.r2_score actual predicted = Ok (Metrics.R2 m).
Proof.
  intros H.
  destruct (check_reg_targets_cases actual predicted) as [Hc | [e Hc]].
  - destruct (calculate_metrics_ok _ _ Hc) as [m' [Hm' Hrest]].
    rewrite Hm' in H. injection H as <-.
    apply check_reg_targets_inv in Hc. destruct Hc as [Hlen Hne].
    split; [ exact Hlen | split; [ exact Hne | exact Hrest ] ].
  - rewrite (calculate_metrics_raise _ _ _ Hc) in H. discriminate.
Qed.

Lemma residuals_length (a b : list Q) :
  length a = length b -> length (Metrics.residuals a b) = length a.
Proof.
  intros H. unfold Metrics.residuals. rewrite length_map, length_combine. lia.
Qed.

Lemma map_nonempty {A C} (f : A -> C) (l : list A) : l <> [] -> map f l <> [].
Proof. destruct l; [ congruence | discriminate ]. Qed.

Lemma residuals_nonempty (a b : list Q) :
  length a = length b -> a <> [] -> Metrics.residuals a b <> [].
Proof.
  intros Hlen Hne Hnil. apply (f_equal (@length Q)) in Hnil.
  rewrite residuals_length in Hnil by exact Hlen.
  destruct a; [ congruence | discriminate ].
Qed.

Lemma Qsqrt_nonneg (q : Q) : (0 <= Qsqrt q)%Q.
Proof.
  unfold Qsqrt, Qle. simpl. rewrite Z.mul_1_r.
  apply Z.sqrt_nonneg.
Qed.

(** The mean of floats that are not negative is not negative. *)
Lemma fold_fadd_not_negative (l : list fval) (acc : fval) :
  not_negative acc -> Forall not_negative l ->
  not_negative (fold_left fadd l acc).
Proof.
  revert acc. induction l as [ | x l IH ]; intros acc Ha H; simpl.
  - exact Ha.
  - inversion H as [ | ? ? Hx Hl ]; subst. apply IH; [ | exact Hl ].
    destruct acc, x; simpl in *; try exact I; try contradiction.
    rewrite <- (Qplus_0_r 0). now apply Qplus_le_compat.
Qed.

Lemma np_mean_not_negative (l : list fval) :
  Forall not_negative l -> not_negative (np_mean l).
Proof.
  intros H. unfold np_mean, fsum.
  pose proof (fold_fadd_not_negative l (Fin 0) (Qle_refl 0) H) as Hs.
  assert (Hcases : l = [] \/ l <> []) by (destruct l; [ now left | now right ]).
  destruct Hcases as [-> | Hne]; [ simpl; exact I | ].
  pose proof (Qlen_pos l Hne) as Hpos.
  destruct (fold_left fadd l (Fin 0)) as [s | | | ]; simpl in *;
    try exact I; try contradiction.
  - rewrite (Qzerob_false _ (Qlen_nonzero l Hne)).
    apply Qle_shift_div_l; [ exact Hpos | ]. now rewrite Qmult_0_l.
  - assert (E : Qposb (Qlen l) = true).
    { unfold Qposb. destruct (Qle_bool (Qlen l) 0) eqn:Eb; [ | reflexivity ].
      apply Qle_bool_iff in Eb. exfalso. apply (Qlt_not_le _ _ Hpos Eb). }
    rewrite E. exact I.
Qed.

Lemma fabs_not_negative (x : fval) : not_negative (fabs x).
Proof. destruct x; simpl; try exact I. apply Qabs_nonneg. Qed.

Lemma fmul_100_not_negative (x : fval) :
  not_negative x -> not_negative (fmul x (Fin 100)).
Proof.
  destruct x as [q | | | ]; simpl; intros H; try exact I; try contradiction.
  apply Qmult_le_0_compat; [ exact H | discriminate ].
Qed.

Lemma r2_score_at_most_one (a b : list Q) (r : fval) :
  Metrics.r2_score a b = Ok r -> at_most_one r.
Proof.
  unfold Metrics.r2_score. intros H. bind_inv H u Hu.
  destruct (Nat.ltb (length a) 2); [ injection H as <-; exact I | ].
  set (num := Qsum (map Qsquare (Metrics.residuals a b))) in *.
  set (den := Qsum (map (fun y => Qsquare (y - Qmean a)) a)) in *.
  assert (Hnum : (0 <= num)%Q)
    by (apply Qsum_nonneg, Forall_map_nonneg, Qsquare_nonneg).
  assert (Hden : (0 <= den)%Q).
  { apply Qsum_nonneg. apply Forall_forall. intros y Hy.
    apply in_map_iff in Hy. destruct Hy as [x [<- _]]. apply Qsquare_nonneg. }
  destruct (Qzerob den) eqn:Ed; simpl in H.
  - destruct (negb (Qzerob num)); injection H as <-; simpl; discriminate.
  - injection H as <-. simpl.
    assert (Hpos : (0 < den)%Q).
    { apply Qle_lteq in Hden. destruct Hden as [Hlt | Heq]; [ exact Hlt | ].
      symmetry in Heq. apply Qzerob_iff in Heq. congruence. }
    assert (Hq : (0 <= num / den)%Q).
    { apply Qle_shift_div_l; [ exact Hpos | ]. now rewrite Qmult_0_l. }
    rewrite <- (Qplus_0_r 1) at 2. unfold Qminus.
    apply Qplus_le_r. apply (Qopp_le_compat 0). exact Hq.
Qed.

Lemma series_mean_not_negative (l : list fval) :
  Forall not_negative l -> not_negative (series_mean l).
Proof.
  intros H. unfold series_mean. apply np_mean_not_negative.
  apply Forall_forall. intros x Hx. apply filter_In in Hx.
  rewrite Forall_forall in H. now apply H.
Qed.

(** X1.  Whatever the arguments, two arrays or an array and a Series,
    the metrics that are returned are never on the wrong side: RMSE,
    MAE and MAPE are never negative (each is a number from 0 up, [+inf]
    or not a number) and R2 is never above 1. *)
Theorem metrics_ranges (k : Metrics.operands) (actual predicted : list Q)
        (m : Metrics.metrics) :
  Metrics.calculate_metrics_of k actual predicted = Ok m ->
  not_negative (Metrics.RMSE m)
  /\ not_negative (Metrics.MAE m)
  /\ not_negative (Metrics.MAPE m)
  /\ at_most_one (Metrics.R2 m).
Proof.
  intros H.
  destruct (check_reg_targets_cases actual predicted) as [Hc | [e Hc]].
  2:{ rewrite (calculate_metrics_of_raise k _ _ _ Hc) in H. discriminate. }
  destruct (calculate_metrics_of_ok k _ _ Hc) as [m' [Hm' Hrest]].
  rewrite Hm' in H. injection H as <-.
  apply check_reg_targets_inv in Hc. destruct Hc as [Hlen Hne].
  destruct Hrest as [Hrmse [Hmae [Hmape Hr2]]].
  split; [ | split; [ | split ] ].
  - rewrite Hrmse. simpl.
    assert (Hmse : (0 <= Qmean (map Qsquare (Metrics.residuals actual predicted)))%Q).
    { apply Qmean_nonneg.
      - apply map_nonempty. now apply residuals_nonempty.
      - apply Forall_map_nonneg, Qsquare_nonneg. }
    apply Qle_bool_iff in Hmse. rewrite Hmse. apply Qsqrt_nonneg.
  - rewrite Hmae. simpl.
    apply Qmean_nonneg.
    + apply map_nonempty. apply residuals_nonempty; [ now symmetry | ].
      intros ->. destruct actual; [ congruence | discriminate ].
    + apply Forall_map_nonneg, Qabs_nonneg.
  - rewrite Hmape. apply fmul_100_not_negative.
    assert (Hall : Forall not_negative
                     (map fabs (Metrics.relative_errors actual predicted))).
    { apply Forall_forall. intros x Hx. apply in_map_iff in Hx.
      destruct Hx as [y [<- _]]. apply fabs_not_negative. }
    destruct k; cbn [Metrics.mean_of].
    + now apply np_mean_not_negative.
    + now apply series_mean_not_negative.
  - now apply (r2_score_at_most_one actual predicted).
Qed.

Lemma metrics_ranges_witness :
  exists m,
    Metrics.calculate_metrics_of Metrics.WithSeries
      [1 # 1; 0 # 1; 3 # 1]%Q [1 # 1; 2 # 1; 5 # 1]%Q = Ok m
    /\ Metrics.MAPE m = PInf
    /\ not_negative (Metrics.RMSE m)
    /\ not_negative (Metrics.MAE m)
    /\ not_negative (Metrics.MAPE m)
    /\ at_most_one (Metrics.R2 m).
Proof.
  eexists. split; [ vm_compute; reflexivity | ]. split; [ reflexivity | ].
  refine (metrics_ranges Metrics.WithSeries
            [1 # 1; 0 # 1; 3 # 1]%Q [1 # 1; 2 # 1; 5 # 1]%Q _ _).
  vm_compute. reflexivity.
Defined.

(** ** The forecast engine: what training leaves behind *)

Lemma trained_as_supported (B : Engine.Backends) (t : string) (m : Engine.model_obj B) :
  trained_as B t m -> supported t.
Proof.
  unfold supported. destruct m; simpl; intros H; try contradiction.
  - destruct H as [-> | ->]; simpl; auto.
  - subst t. simpl. auto.
Qed.

(** X5.  When [train_model] returns, the type it was asked for is one
    of the three, the object returned is the fit of the model this type
    names (ARIMA for "ARIMA", SARIMAX for "SARIMA", Prophet for
    "Prophet") on the audience count of the frame, and the engine holds
    exactly this object and this type, whatever it held before: a new
    fit discards the previous handle. *)
Theorem train_model_replaces_handle (B : Engine.Backends) (df : DataFrame)
        (t : string) (self self' : Engine.TimeSeriesModels B)
        (m : Engine.model_obj B) :
  Engine.train_model B df t self = (Ok m, self') ->
  supported t /\ fit_of B df t m
  /\ self' = Engine.mk_engine B (Some m) (Some t).
Proof.
  intros H.
  assert (Hs : Engine.model self' = Some m /\ Engine.model_type self' = Some t).
  { apply train_model_ok in H. tauto. }
  assert (Hk : supported t).
  { apply train_model_ok in H. destruct H as [_ [_ Hk]].
    exact (trained_as_supported B t m Hk). }
  split; [ exact Hk | split ].
  2:{ destruct self' as [m' t']. destruct Hs as [Hm Ht]. simpl in Hm, Ht. now subst. }
  clear Hs Hk. unfold fit_of.
  unfold Engine.train_model, Engine._train_arima, Engine._train_sarima,
    Engine._train_prophet, mbind, lift, assign, mret, mraise in H.
  destruct (String.eqb t "ARIMA") eqn:Ea.
  { apply String.eqb_eq in Ea.
    destruct (getitem df "audience_count") as [endog | e]; [ | discriminate ].
    destruct (Engine.ARIMA B endog) as [m0 | e] eqn:Eb; [ | discriminate ].
    destruct (Engine.sm_fit B m0) as [r | e] eqn:Ef; [ | discriminate ].
    injection H as <- _. exists endog. split; [ reflexivity | ].
    left. split; [ exact Ea | ]. exists m0, r. auto. }
  destruct (String.eqb t "SARIMA") eqn:Es.
  { apply String.eqb_eq in Es.
    destruct (getitem df "audience_count") as [endog | e]; [ | discriminate ].
    destruct (Engine.SARIMAX B endog) as [m0 | e] eqn:Eb; [ | discriminate ].
    destruct (Engine.sm_fit B m0) as [r | e] eqn:Ef; [ | discriminate ].
    injection H as <- _. exists endog. split; [ reflexivity | ].
    right. left. split; [ exact Es | ]. exists m0, r. auto. }
  destruct (String.eqb t "Prophet") eqn:Ep; [ | discriminate ].
  apply String.eqb_eq in Ep.
  destruct (getitem df "audience_count") as [endog | e]; [ | discriminate ].
  destruct (Engine.prophet_fit B (index df) endog) as [p | e] eqn:Ef;
    [ | discriminate ].
  injection H as <- _. exists endog. split; [ reflexivity | ].
  right. right. split; [ exact Ep | ]. exists p. auto.
Qed.

Lemma train_model_replaces_handle_witness :
  Engine.train_model Demo.backends Demo.modeling_df "SARIMA" retrained
  = (Ok (@Engine.SMResults Demo.backends [120 # 1; 95 # 1; 130 # 1]%Q),
     Engine.mk_engine Demo.backends
       (Some (@Engine.SMResults Demo.backends [120 # 1; 95 # 1; 130 # 1]%Q))
       (Some "SARIMA"))
  /\ supported "SARIMA"
  /\ fit_of Demo.backends Demo.modeling_df "SARIMA"
       (@Engine.SMResults Demo.backends [120 # 1; 95 # 1; 130 # 1]%Q)
  /\ Engine.mk_engine Demo.backends
       (Some (@Engine.SMResults Demo.backends [120 # 1; 95 # 1; 130 # 1]%Q))
       (Some "SARIMA")
     = Engine.mk_engine Demo.backends
         (Some (@Engine.SMResults Demo.backends [120 # 1; 95 # 1; 130 # 1]%Q))
         (Some "SARIMA").
Proof.
  split; [ reflexivity | ].
  exact (train_model_replaces_handle Demo.backends Demo.modeling_df "SARIMA"
           retrained _ _ eq_refl).
Defined.

Lemma train_model_records_type (B : Engine.Backends) (df : DataFrame) (t : string)
      (self : Engine.TimeSeriesModels B) :
  Engine.model_type (snd (Engine.train_model B df t self)) = Some t.
Proof.
  unfold Engine.train_model, Engine._train_arima, Engine._train_sarima,
    Engine._train_prophet, mbind, lift, assign, mret, mraise.
  destruct (getitem df "audience_count") as [endog | e0].
  - destruct (String.eqb t "ARIMA").
    { destruct (Engine.ARIMA B endog) as [m | e1];
        [ destruct (Engine.sm_fit B m) as [r | e2] | ]; reflexivity. }
    destruct (String.eqb t "SARIMA").
    { destruct (Engine.SARIMAX B endog) as [m | e1];
        [ destruct (Engine.sm_fit B m) as [r | e2] | ]; reflexivity. }
    destruct (String.eqb t "Prophet"); [ | reflexivity ].
    destruct (Engine.prophet_fit B (index df) endog) as [p | e1]; reflexivity.
  - destruct (String.eqb t "ARIMA"); [ reflexivity | ].
    destruct (String.eqb t "SARIMA"); [ reflexivity | ].
    destruct (String.eqb t "Prophet"); reflexivity.
Qed.

(** X6.  When [train_model] raises, the engine has still recorded the
    type asked for, and its model is either the one it held before or the
    unfitted object of the fit that raised: never a fitted object other
    than the previous one. *)
Theorem train_model_failure_state (B : Engine.Backends) (df : DataFrame)
        (t : string) (self self' : Engine.TimeSeriesModels B) (e : exn) :
  Engine.train_model B df t self = (Raise e, self') ->
  Engine.model_type self' = Some t
  /\ (Engine.model self' = Engine.model self
      \/ (exists m, Engine.model self' = Some (Engine.SMModel m))
      \/ Engine.model self' = Some Engine.ProphetNew).
Proof.
  intros H. split.
  - pose proof (train_model_records_type B df t self) as Ht.
    rewrite H in Ht. exact Ht.
  - exact (failed_train_model_state B df t self self' e H).
Qed.

Lemma train_model_failure_state_witness :
  Engine.train_model Demo.backends Demo.one_day_df "ARIMA" retrained
  = (Raise (ValueError "too few observations"),
     Engine.mk_engine Demo.backends
       (Some (@Engine.SMModel Demo.backends [120 # 1]%Q)) (Some "ARIMA"))
  /\ Engine.model_type
       (Engine.mk_engine Demo.backends
          (Some (@Engine.SMModel Demo.backends [120 # 1]%Q)) (Some "ARIMA"))
     = Some "ARIMA"
  /\ (Engine.model
        (Engine.mk_engine Demo.backends
           (Some (@Engine.SMModel Demo.backends [120 # 1]%Q)) (Some "ARIMA"))
      = Engine.model retrained
      \/ (exists m,
             Engine.model
               (Engine.mk_engine Demo.backends
                  (Some (@Engine.SMModel Demo.backends [120 # 1]%Q)) (Some "ARIMA"))
             = Some (Engine.SMModel m))
      \/ Engine.model
           (Engine.mk_engine Demo.backends
              (Some (@Engine.SMModel Demo.backends [120 # 1]%Q)) (Some "ARIMA"))
         = Some Engine.ProphetNew).
Proof.
  split; [ reflexivity | ].
  exact (train_model_failure_state Demo.backends Demo.one_day_df "ARIMA"
           retrained _ _ eq_refl).
Defined.

(** X7.  [get_forecast] returns [None] exactly when the engine holds a
    model and the type it has recorded is none of the three; with a
    supported type it returns a series or raises. *)
Theorem get_forecast_none_iff (B : Engine.Backends)
        (self : Engine.TimeSeriesModels B) (periods : nat) :
  Engine.get_forecast B self periods = Ok None
  <-> (exists m, Engine.model self = Some m)
      /\ ~ (exists t, Engine.model_type self = Some t /\ supported t).
Proof.
  unfold Engine.get_forecast.
  destruct (Engine.model self) as [m | ]; [ | split; [ discriminate | ] ].
  2:{ intros [[m Hm] _]. discriminate. }
  destruct (Engine.model_type self) as [t | ].
  2:{ split; [ intros _ | reflexivity ].
      split; [ now exists m | ]. intros [t [Ht _]]. discriminate. }
  destruct (String.eqb t "ARIMA") eqn:Ea.
  { apply String.eqb_eq in Ea. subst t. simpl. split.
    - destruct (Engine.call_forecast B m periods); discriminate.
    - intros [_ Hn]. exfalso. apply Hn. exists "ARIMA".
      split; [ reflexivity | unfold supported; simpl; auto ]. }
  destruct (String.eqb t "SARIMA") eqn:Es.
  { apply String.eqb_eq in Es. subst t. simpl. split.
    - destruct (Engine.call_forecast B m periods); discriminate.
    - intros [_ Hn]. exfalso. apply Hn. exists "SARIMA".
      split; [ reflexivity | unfold supported; simpl; auto ]. }
  destruct (String.eqb t "Prophet") eqn:Ep.
  { apply String.eqb_eq in Ep. subst t. simpl. split.
    - destruct (Engine.fitted_prophet B m) as [p | e]; [ | discriminate ].
      simpl. destruct (Engine.make_future_dataframe B p periods); discriminate.
    - intros [_ Hn]. exfalso. apply Hn. exists "Prophet".
      split; [ reflexivity | unfold supported; simpl; auto ]. }
  simpl. split; [ intros _ | reflexivity ].
  split; [ now exists m | ].
  intros [t' [Ht' Hs]]. injection Ht' as <-.
  unfold supported in Hs. simpl in Hs.
  destruct Hs as [<- | [<- | [<- | []]]]; discriminate.
Qed.

(** ** The Prophet forecast: which dates it predicts *)

Lemma fold_max_spec (ds : list Z) (d : Z) :
  let m := fold_left Z.max ds d in
  In m (d :: ds) /\ Forall (fun x => x <= m) (d :: ds).
Proof.
  revert d. induction ds as [ | x ds IH ]; intros d; simpl.
  - split; [ now left | repeat constructor; lia ].
  - destruct (IH (Z.max d x)) as [Hin Hall]. simpl in Hin.
    inversion Hall as [ | ? ? Hmax Hrest ]; subst.
    split.
    + destruct Hin as [Hin | Hin].
      * destruct (Z.max_spec d x) as [[_ E] | [_ E]].
        -- right. left. transitivity (Z.max d x); [ now symmetry | exact Hin ].
        -- left. transitivity (Z.max d x); [ now symmetry | exact Hin ].
      * right. right. exact Hin.
    + constructor; [ lia | constructor; [ lia | exact Hrest ] ].
Qed.

Lemma max_date_spec (ds : list Z) :
  ds <> [] ->
  exists last, Engine.max_date ds = Some last
               /\ In last ds /\ Forall (fun d => d <= last) ds.
Proof.
  intros H. destruct ds as [ | d rest ]; [ congruence | ].
  exists (fold_left Z.max rest d). split; [ reflexivity | ].
  apply fold_max_spec.
Qed.

Lemma date_range_shift (start : Z) (n : nat) :
  map (fun i => start + Z.of_nat i * ns_per_day) (seq 1 n)
  = date_range (start + ns_per_day) n.
Proof.
  unfold date_range. rewrite <- seq_shift, map_map.
  apply map_ext. intros i. rewrite Nat2Z.inj_succ. lia.
Qed.

(** For a fitted Prophet, [make_future_dataframe(periods)] is the
    dates of the fit followed by exactly [periods] consecutive days, the
    first being the day after the latest date of the fit. *)
Theorem make_future_dataframe_dates (B : Engine.Backends)
        (p : Engine.prophet_state B) (periods : nat) :
  Engine.history_dates B p <> [] ->
  exists last,
    In last (Engine.history_dates B p)
    /\ Forall (fun d => d <= last) (Engine.history_dates B p)
    /\ Engine.make_future_dataframe B p periods
       = Ok (Engine.history_dates B p ++ date_range (last + ns_per_day) periods).
Proof.
  intros Hne. destruct (max_date_spec _ Hne) as [last [Hmax [Hin Hall]]].
  exists last. split; [ exact Hin | split; [ exact Hall | ] ].
  unfold Engine.make_future_dataframe. rewrite Hmax. cbv zeta.
  rewrite days_after, date_range_shift.
  rewrite firstn_all2; [ reflexivity | ].
  unfold date_range. now rewrite length_map, length_seq.
Qed.

Lemma make_future_dataframe_dates_witness :
  Engine.history_dates Demo.backends
    ([Demo.day 19723; Demo.day 19725; Demo.day 19724], [1 # 1; 2 # 1; 3 # 1]%Q) <> []
  /\ exists last,
    In last [Demo.day 19723; Demo.day 19725; Demo.day 19724]
    /\ Forall (fun d => d <= last) [Demo.day 19723; Demo.day 19725; Demo.day 19724]
    /\ Engine.make_future_dataframe Demo.backends
         ([Demo.day 19723; Demo.day 19725; Demo.day 19724], [1 # 1; 2 # 1; 3 # 1]%Q) 2
       = Ok ([Demo.day 19723; Demo.day 19725; Demo.day 19724]
             ++ date_range (last + ns_per_day) 2).
Proof.
  assert (H : Engine.history_dates Demo.backends
                ([Demo.day 19723; Demo.day 19725; Demo.day 19724],
                 [1 # 1; 2 # 1; 3 # 1]%Q) <> []) by discriminate.
  split; [ exact H | ].
  exact (make_future_dataframe_dates Demo.backends _ 2 H).
Defined.

Lemma lastn_app_length {A} (l1 l2 : list A) : lastn (length l2) (l1 ++ l2) = l2.
Proof.
  unfold lastn. rewrite length_app.
  replace (length l1 + length l2 - length l2)%nat with (length l1 + 0)%nat by lia.
  rewrite skipn_app, Nat.add_0_r, skipn_all.
  replace (length l1 - length l1)%nat with 0%nat by lia. reflexivity.
Qed.

(** X8.  With a predictor that gives each date its own value, the
    Prophet forecast is the prediction for the [periods] days after the
    latest date of the fit, in order: the predictions for the dates of
    the fit are dropped. *)
Theorem prophet_forecast_is_future_only (B : Engine.Backends)
        (self : Engine.TimeSeriesModels B) (p : Engine.prophet_state B)
        (f : Z -> cell) (periods : nat) :
  Engine.model self = Some (Engine.ProphetFitted p) ->
  Engine.model_type self = Some "Prophet" ->
  Engine.history_dates B p <> [] ->
  (forall dates, Engine.prophet_yhat B p dates = map f dates) ->
  exists last,
    In last (Engine.history_dates B p)
    /\ Forall (fun d => d <= last) (Engine.history_dates B p)
    /\ Engine.get_forecast B self periods
       = Ok (Some (map f (date_range (last + ns_per_day) periods))).
Proof.
  intros Hm Ht Hne Hf.
  destruct (max_date_spec _ Hne) as [last [Hmax [Hin Hall]]].
  exists last. split; [ exact Hin | split; [ exact Hall | ] ].
  unfold Engine.get_forecast. rewrite Hm, Ht. simpl.
  unfold Engine.make_future_dataframe. rewrite Hmax. cbv zeta.
  rewrite days_after, date_range_shift.
  rewrite firstn_all2 by (unfold date_range; now rewrite length_map, length_seq).
  cbn [bind]. rewrite Hf, map_app.
  replace periods with (length (map f (date_range (last + ns_per_day) periods))) at 1
    by (unfold date_range; now rewrite !length_map, length_seq).
  now rewrite lastn_app_length.
Qed.

Lemma prophet_forecast_is_future_only_witness :
  let self := snd (Engine.train_model Demo.backends Demo.modeling_df "Prophet"
                                      (Engine.init Demo.backends)) in
  let p := (Demo.times (index Demo.modeling_df), [120 # 1; 95 # 1; 130 # 1]%Q) in
  exists last,
    In last (Engine.history_dates Demo.backends p)
    /\ Forall (fun d => d <= last) (Engine.history_dates Demo.backends p)
    /\ Engine.get_forecast Demo.backends self 2
       = Ok (Some (map (fun _ => CNum (130 # 1)) (date_range (last + ns_per_day) 2))).
Proof.
  apply (prophet_forecast_is_future_only Demo.backends _
           (Demo.times (index Demo.modeling_df), [120 # 1; 95 # 1; 130 # 1]%Q)
           (fun _ => CNum (130 # 1)) 2).
  - reflexivity.
  - reflexivity.
  - discriminate.
  - intros dates. reflexivity.
Defined.

(** ** The button of the dashboard *)

(** X9.  With the model type Prophet the handler never gets to the
    metrics or the export: whatever the frame, the horizon, the
    libraries and the engine, it raises (a fitted Prophet has no
    [fittedvalues]). *)
Theorem prophet_handler_raises (B : Engine.Backends) (modeling_df : DataFrame)
        (N : nat) (self : Engine.TimeSeriesModels B) :
  raises (fst (App.generate_forecast B modeling_df "Prophet" N self)).
Proof.
  unfold App.generate_forecast. unfold mbind at 1.
  destruct (Engine.train_model B modeling_df "Prophet" self) as [[m | e] self1] eqn:Et;
    [ | exact I ].
  apply train_model_ok in Et. destruct Et as [_ [_ Hk]].
  destruct m as [ m0 | r | | p ]; simpl in Hk; try contradiction.
  - destruct Hk as [Hk | Hk]; discriminate Hk.
  - unfold mbind at 1.
    destruct (Engine.get_forecast B self1 N) as [fc | e]; [ | exact I ].
    unfold mbind, lift.
    destruct (getitem modeling_df "audience_count") as [actual | e]; exact I.
Qed.

(** X10.  When the handler succeeds, the model type is ARIMA or SARIMA,
    the engine is left holding the fit results, the metrics compare the
    audience column of the modeling frame, as an array, with the Series
    of the fitted values of these results (the fit on the training
    window, not the forecast), and the export is built from the
    forecast of these results. *)
Theorem generate_forecast_success (B : Engine.Backends) (modeling_df : DataFrame)
        (t : string) (N : nat) (self self' : Engine.TimeSeriesModels B)
        (scores : Metrics.metrics) (out : DataFrame) :
  App.generate_forecast B modeling_df t N self = (Ok (scores, out), self') ->
  (t = "ARIMA" \/ t = "SARIMA")
  /\ exists r column actual,
       self' = Engine.mk_engine B (Some (Engine.SMResults r)) (Some t)
       /\ getitem modeling_df "audience_count" = Ok column
       /\ as_finite column = Ok actual
       /\ Metrics.calculate_metrics_of Metrics.WithSeries
            actual (Engine.sm_fittedvalues B r) = Ok scores
       /\ App.forecast_df modeling_df N (Some (Engine.sm_forecast B r N)) = Ok out.
Proof.
  unfold App.generate_forecast. unfold mbind at 1.
  destruct (Engine.train_model B modeling_df t self) as [[m | e] self1] eqn:Et;
    [ | discriminate ].
  apply train_model_ok in Et. destruct Et as [Hm [Ht Hk]].
  unfold mbind at 1.
  destruct (Engine.get_forecast B self1 N) as [fc | e] eqn:Ef; [ | discriminate ].
  unfold mbind, lift, mret.
  destruct (getitem modeling_df "audience_count") as [col | e]; [ | discriminate ].
  destruct (Engine.fittedvalues B m) as [fitted | e] eqn:Efit; [ | discriminate ].
  destruct (as_finite col) as [a | e] eqn:Ea; [ | discriminate ].
  destruct (Metrics.calculate_metrics_of Metrics.WithSeries a fitted)
    as [sc | e] eqn:Em; [ | discriminate ].
  destruct (App.forecast_df modeling_df N fc) as [o | e] eqn:Eo; [ | discriminate ].
  intros H. injection H as <- <- <-.
  destruct m as [ m0 | r | | p ]; simpl in Hk, Efit; try discriminate.
  injection Efit as <-.
  split; [ exact Hk | ].
  pose proof (get_forecast_statsmodels B self1 t r N Hk Ht Hm) as Hf.
  destruct (Engine.sm_forecast_error B r N) as [e | ]; [ congruence | ].
  rewrite Hf in Ef. injection Ef as <-.
  exists r, col, a. repeat split; try assumption; try reflexivity.
  destruct self1 as [m1 t1]. simpl in Hm, Ht. now subst.
Qed.

Lemma generate_forecast_success_witness :
  exists scores self',
    App.generate_forecast Demo.backends Demo.modeling_df "ARIMA" 3
                          (Engine.init Demo.backends)
    = (Ok (scores, demo_export), self')
    /\ ("ARIMA" = "ARIMA" \/ "ARIMA" = "SARIMA")
    /\ exists r column actual,
         self' = Engine.mk_engine Demo.backends (Some (Engine.SMResults r)) (Some "ARIMA")
         /\ getitem Demo.modeling_df "audience_count" = Ok column
         /\ as_finite column = Ok actual
         /\ Metrics.calculate_metrics_of Metrics.WithSeries
              actual (Engine.sm_fittedvalues Demo.backends r) = Ok scores
         /\ App.forecast_df Demo.modeling_df 3
              (Some (Engine.sm_forecast Demo.backends r 3)) = Ok demo_export.
Proof.
  eexists. eexists.
  assert (H : forall x, x = App.generate_forecast Demo.backends Demo.modeling_df "ARIMA" 3
                              (Engine.init Demo.backends) ->
                        App.generate_forecast Demo.backends Demo.modeling_df "ARIMA" 3
                              (Engine.init Demo.backends) = x)
    by (intros x ->; reflexivity).
  split; [ apply H; vm_compute; reflexivity | ].
  refine (generate_forecast_success Demo.backends Demo.modeling_df "ARIMA" 3
            (Engine.init Demo.backends) _ _ demo_export _).
  vm_compute. reflexivity.
Defined.

(** ** Preprocessing: rows, calendar flags, missing columns *)

Lemma named_setitems_other (df out : DataFrame) (keys : list string)
      (arr : list column) (name : string) :
  ~ In name keys ->
  setitems df keys arr = Ok out ->
  named name (columns out) = named name (columns df).
Proof.
  intros Hnot H. unfold setitems in H.
  bind_inv H ps Hps.
  destruct (negb (Nat.eqb (length arr) (length ps))); [ discriminate | ].
  destruct (negb (forallb (fun c => Nat.eqb (length c) (nrows df)) arr));
    [ discriminate | ].
  injection H as <-. simpl. apply named_set_columns.
  apply positions_labels in Hps.
  apply Forall_forall. intros [p c] Hin. simpl.
  apply in_combine_l in Hin.
  rewrite Forall_forall in Hps. destruct (Hps p Hin) as [k [Hk Hn]].
  unfold labels in Hn. rewrite Hn. intros Heq. injection Heq as ->.
  contradiction.
Qed.

Lemma index_setitem (df : DataFrame) (k : string) (c : column) :
  index (setitem df k c) = index df.
Proof. unfold setitem. now destruct (has_column df k). Qed.

(** What is read back under a label just assigned is what was assigned. *)
Lemma getitem_setitem_inv (df : DataFrame) (k : string) (c x : column) :
  getitem (setitem df k c) k = Ok x -> x = c.
Proof.
  intros H. apply getitem_ok_named in H. unfold setitem in H.
  destruct (has_column df k) eqn:Eh; simpl in H.
  - rewrite named_replace, String.eqb_refl in H.
    destruct (named k (columns df)) as [ | c0 l ]; [ discriminate | ].
    simpl in H. now injection H as <-.
  - rewrite named_app in H. unfold named at 2 in H. simpl in H.
    rewrite String.eqb_refl in H. simpl in H.
    destruct (named k (columns df)); simpl in H; [ now injection H as <- | ].
    destruct l; discriminate.
Qed.

Lemma Qle_bool_inject_Z (a b : Z) : Qle_bool (inject_Z a) (inject_Z b) = (a <=? b).
Proof. unfold Qle_bool. simpl. now rewrite !Z.mul_1_r. Qed.

Lemma Qeq_bool_inject_Z (a b : Z) : Qeq_bool (inject_Z a) (inject_Z b) = (a =? b).
Proof. unfold Qeq_bool. simpl. now rewrite !Z.mul_1_r. Qed.

Lemma between_hours (ts : column) :
  between_int (19 # 1) (22 # 1) (dt_field hour_of ts) = map prime_time_flag ts.
Proof.
  unfold between_int, dt_field. rewrite map_map. apply map_ext.
  intros [ s | q | | t | ]; try reflexivity. simpl.
  change (19 # 1) with (inject_Z 19). change (22 # 1) with (inject_Z 22).
  now rewrite !Qle_bool_inject_Z.
Qed.

Lemma isin_weekend (ts : column) :
  isin_int [5 # 1; 6 # 1]%Q (dt_field dayofweek_of ts) = map weekend_flag ts.
Proof.
  unfold isin_int, dt_field. rewrite map_map. apply map_ext.
  intros [ s | q | | t | ]; try reflexivity. cbn [existsb weekend_flag].
  change (5 # 1) with (inject_Z 5). change (6 # 1) with (inject_Z 6).
  rewrite !Qeq_bool_inject_Z, orb_false_r. reflexivity.
Qed.

Lemma map_nth_seq {A} (l : list A) (d : A) :
  map (fun i => nth i l d) (seq 0 (length l)) = l.
Proof.
  induction l as [ | x l IH ]; [ reflexivity | ].
  simpl. f_equal. rewrite <- seq_shift, map_map. exact IH.
Qed.

(** Reordering by [argsort] keeps every row of a column as long as the
    keys. *)
Lemma take_argsort_perm (keys c : column) :
  length c = length keys -> Permutation (take (argsort keys) c) c.
Proof.
  intros Hlen. unfold take.
  rewrite (Permutation_map _ (argsort_perm keys)).
  rewrite <- Hlen. now rewrite map_nth_seq.
Qed.

(** The whole of [preprocess_data], column by column. *)
Lemma preprocess_steps (env : DataProcessor.Env) (df out : DataFrame) :
  DataProcessor.preprocess_data env df = Ok out ->
  exists raw ts,
    getitem df "timestamp" = Ok raw
    /\ DataProcessor.to_datetime env raw = Ok ts
    /\ index out = take (argsort ts) (index df)
    /\ getitem out "timestamp" = Ok (take (argsort ts) ts)
    /\ getitem out "hour" = Ok (dt_field hour_of (take (argsort ts) ts))
    /\ getitem out "day_of_week" = Ok (dt_field dayofweek_of (take (argsort ts) ts))
    /\ (forall name, ~ In name preprocessed_labels ->
          named name (columns out)
          = map (take (argsort ts)) (named name (columns df)))
    /\ (forall name, In name ["month"; "is_weekend"; "is_prime_time"] ->
          length (named name (columns df)) <= 1 ->
          getitem out name
          = Ok ((if String.eqb name "month" then dt_field month_of
                 else if String.eqb name "is_weekend" then map weekend_flag
                 else map prime_time_flag) (take (argsort ts) ts)))%nat.
Proof.
  intros H. unfold DataProcessor.preprocess_data in H.
  bind_inv H raw Hraw. bind_inv H ts Hts. cbv zeta in H.
  bind_inv H sorted Hsorted.
  unfold sort_values in Hsorted. bind_inv Hsorted keys Hkeys.
  injection Hsorted as <-.
  assert (Hone : getitem (setitem df "timestamp" ts) "timestamp" = Ok ts).
  { apply getitem_setitem_same. apply getitem_ok_named in Hraw.
    rewrite Hraw. simpl. lia. }
  rewrite Hone in Hkeys. injection Hkeys as <-.
  set (rows := argsort ts) in *.
  set (df1 := take_rows rows (setitem df "timestamp" ts)) in *.
  pose proof (getitem_take_rows rows _ _ _ Hone) as Hts1. fold df1 in Hts1.
  bind_inv H block Hblock. bind_inv H arr Harr. bind_inv H df2 Himp.
  assert (Hnum : forall name, ~ In name DataProcessor.numeric_columns ->
                   named name (columns df2) = named name (columns df1)).
  { intros name Hn. exact (named_setitems_other _ _ _ _ name Hn Himp). }
  assert (Hnt : ~ In "timestamp" DataProcessor.numeric_columns).
  { simpl. intros [E | [E | [E | [E | []]]]]; discriminate E. }
  destruct (getitem_setitems_other _ _ _ _ "timestamp" Hnt Himp) as [Hts2 Hidx].
  rewrite Hts1 in Hts2.
  bind_inv H t1 Ht1. rewrite Hts2 in Ht1. injection Ht1 as <-.
  bind_inv H t2 Ht2. rewrite getitem_setitem_other in Ht2 by discriminate.
  rewrite Hts2 in Ht2. injection Ht2 as <-.
  bind_inv H t3 Ht3. rewrite !getitem_setitem_other in Ht3 by discriminate.
  rewrite Hts2 in Ht3. injection Ht3 as <-.
  bind_inv H dow Hdow. rewrite getitem_setitem_other in Hdow by discriminate.
  pose proof (getitem_setitem_inv _ _ _ _ Hdow) as Edow.
  bind_inv H hour Hhour. rewrite !getitem_setitem_other in Hhour by discriminate.
  pose proof (getitem_setitem_inv _ _ _ _ Hhour) as Ehour.
  injection H as <-. subst dow hour.
  exists raw, ts.
  split; [ exact Hraw | split; [ exact Hts | ] ].
  split; [ rewrite !index_setitem, Hidx; unfold df1; simpl;
           now rewrite index_setitem | ].
  split; [ rewrite !getitem_setitem_other by discriminate; exact Hts2 | ].
  split; [ rewrite !getitem_setitem_other by discriminate; exact Hhour | ].
  split; [ rewrite !getitem_setitem_other by discriminate; exact Hdow | ].
  assert (Hbase : forall name, name <> "timestamp" ->
            ~ In name DataProcessor.numeric_columns ->
            named name (columns df2) = map (take rows) (named name (columns df))).
  { intros name Hn1 Hn2. rewrite (Hnum name Hn2). unfold df1.
    rewrite named_take_rows, named_setitem_other by congruence. reflexivity. }
  split.
  - intros name Hn. unfold preprocessed_labels in Hn. simpl in Hn.
    rewrite !named_setitem_other by (intros <-; apply Hn; tauto).
    apply Hbase; [ intros ->; apply Hn; tauto | ].
    unfold DataProcessor.numeric_columns. simpl. intros Hin. apply Hn. tauto.
  - intros name Hin Hlen.
    assert (Hlen2 : forall X, named name (columns X) = named name (columns df2) ->
                      (length (named name (columns X)) <= 1)%nat).
    { intros X ->. rewrite Hbase.
      - now rewrite length_map.
      - simpl in Hin. intros ->. destruct Hin as [E | [E | [E | []]]]; discriminate E.
      - unfold DataProcessor.numeric_columns. simpl in *.
        intros [E | [E | [E | [E | []]]]]; subst name;
          destruct Hin as [E | [E | [E | []]]]; discriminate E. }
    simpl in Hin. destruct Hin as [<- | [<- | [<- | []]]]; cbn [String.eqb Ascii.eqb Bool.eqb].
    + rewrite !getitem_setitem_other by discriminate.
      apply getitem_setitem_same. apply Hlen2.
      now rewrite !named_setitem_other by discriminate.
    + rewrite !getitem_setitem_other by discriminate.
      rewrite isin_weekend. apply getitem_setitem_same. apply Hlen2.
      now rewrite !named_setitem_other by discriminate.
    + rewrite between_hours. apply getitem_setitem_same. apply Hlen2.
      now rewrite !named_setitem_other by discriminate.
Qed.

(** X11.  In the table [preprocess_data] returns, row by row: the hour
    and the day of the week are those of the row's timestamp,
    [is_weekend] is 1 exactly for Saturday and Sunday (days 5 and 6) and
    [is_prime_time] is 1 exactly for the hours 19 to 22; a row without a
    date gets 0 for both flags. *)
Theorem preprocess_calendar_flags (env : DataProcessor.Env) (df out : DataFrame) :
  NoDup (labels df) ->
  DataProcessor.preprocess_data env df = Ok out ->
  exists ts,
    getitem out "timestamp" = Ok ts
    /\ getitem out "hour" = Ok (dt_field hour_of ts)
    /\ getitem out "day_of_week" = Ok (dt_field dayofweek_of ts)
    /\ getitem out "is_weekend" = Ok (map weekend_flag ts)
    /\ getitem out "is_prime_time" = Ok (map prime_time_flag ts).
Proof.
  intros Hnd H. apply preprocess_steps in H.
  destruct H as [raw [ts [_ [_ [_ [Hts [Hh [Hd [_ Hflags]]]]]]]]].
  exists (take (argsort ts) ts).
  split; [ exact Hts | split; [ exact Hh | split; [ exact Hd | split ] ] ].
  - apply (Hflags "is_weekend"); [ simpl; auto | now apply NoDup_named ].
  - apply (Hflags "is_prime_time"); [ simpl; auto | now apply NoDup_named ].
Qed.

Lemma demo_loaded_unique : NoDup (labels (rename DataProcessor.column_mapping Demo.upload)).
Proof.
  repeat constructor; simpl; intros H;
    repeat (destruct H as [H | H]; [ discriminate H | ]); exact H.
Qed.

Lemma demo_preprocessed :
  DataProcessor.preprocess_data Demo.env (rename DataProcessor.column_mapping Demo.upload)
  = Ok demo_cleaned.
Proof. vm_compute. reflexivity. Qed.

Lemma preprocess_calendar_flags_witness :
  NoDup (labels (rename DataProcessor.column_mapping Demo.upload))
  /\ DataProcessor.preprocess_data Demo.env
       (rename DataProcessor.column_mapping Demo.upload) = Ok demo_cleaned
  /\ exists ts,
      getitem demo_cleaned "timestamp" = Ok ts
      /\ getitem demo_cleaned "hour" = Ok (dt_field hour_of ts)
      /\ getitem demo_cleaned "day_of_week" = Ok (dt_field dayofweek_of ts)
      /\ getitem demo_cleaned "is_weekend" = Ok (map weekend_flag ts)
      /\ getitem demo_cleaned "is_prime_time" = Ok (map prime_time_flag ts).
Proof.
  split; [ exact demo_loaded_unique | split; [ exact demo_preprocessed | ] ].
  exact (preprocess_calendar_flags Demo.env _ _ demo_loaded_unique demo_preprocessed).
Defined.

(** X12.  [preprocess_data] moves whole rows: one reordering of the row
    positions, which lists each position once, gives the row labels, the
    timestamps and every column it does not assign (the platform among
    them); no row is lost or repeated. *)
Theorem preprocess_moves_whole_rows (env : DataProcessor.Env) (df out : DataFrame) :
  DataProcessor.preprocess_data env df = Ok out ->
  exists rows raw ts,
    getitem df "timestamp" = Ok raw
    /\ DataProcessor.to_datetime env raw = Ok ts
    /\ Permutation rows (seq 0 (length ts))
    /\ index out = take rows (index df)
    /\ getitem out "timestamp" = Ok (take rows ts)
    /\ (forall name c, ~ In name preprocessed_labels ->
          getitem df name = Ok c -> getitem out name = Ok (take rows c))
    /\ (length (index df) = length ts -> Permutation (index out) (index df)).
Proof.
  intros H. apply preprocess_steps in H.
  destruct H as [raw [ts [Hraw [Hts [Hidx [Hsorted [_ [_ [Hother _]]]]]]]]].
  exists (argsort ts), raw, ts.
  split; [ exact Hraw | split; [ exact Hts | split; [ apply argsort_perm | ] ] ].
  split; [ exact Hidx | split; [ exact Hsorted | split ] ].
  - intros name c Hn Hc. apply getitem_ok_named.
    rewrite (Hother name Hn). apply getitem_ok_named in Hc. now rewrite Hc.
  - intros Hlen. rewrite Hidx. now apply take_argsort_perm.
Qed.

Lemma preprocess_moves_whole_rows_witness :
  DataProcessor.preprocess_data Demo.env
    (rename DataProcessor.column_mapping Demo.upload) = Ok demo_cleaned
  /\ exists rows raw ts,
    getitem (rename DataProcessor.column_mapping Demo.upload) "timestamp" = Ok raw
    /\ DataProcessor.to_datetime Demo.env raw = Ok ts
    /\ Permutation rows (seq 0 (length ts))
    /\ index demo_cleaned
       = take rows (index (rename DataProcessor.column_mapping Demo.upload))
    /\ getitem demo_cleaned "timestamp" = Ok (take rows ts)
    /\ (forall name c, ~ In name preprocessed_labels ->
          getitem (rename DataProcessor.column_mapping Demo.upload) name = Ok c ->
          getitem demo_cleaned name = Ok (take rows c))
    /\ (length (index (rename DataProcessor.column_mapping Demo.upload)) = length ts ->
        Permutation (index demo_cleaned)
                    (index (rename DataProcessor.column_mapping Demo.upload))).
Proof.
  split; [ exact demo_preprocessed | ].
  exact (preprocess_moves_whole_rows Demo.env _ _ demo_preprocessed).
Defined.

Lemma labels_setitem_present (df : DataFrame) (k : string) (c : column) :
  has_column df k = true -> labels (setitem df k c) = labels df.
Proof.
  intros H. unfold setitem, labels. rewrite H. simpl. rewrite map_map.
  apply map_ext. intros lc. now destruct (String.eqb (fst lc) k).
Qed.

Lemma labels_take_rows (rows : list nat) (df : DataFrame) :
  labels (take_rows rows df) = labels df.
Proof. unfold take_rows, labels. simpl. now rewrite map_map. Qed.

Lemma positions_of_absent (k : string) (ls : list string) (i : nat) :
  ~ In k ls -> positions_of k ls i = [].
Proof.
  revert i. induction ls as [ | l ls IH ]; intros i H; simpl; [ reflexivity | ].
  destruct (String.eqb l k) eqn:E.
  - apply String.eqb_eq in E. exfalso. apply H. now left.
  - apply IH. intros Hin. apply H. now right.
Qed.

Lemma positions_of_present (k : string) (ls : list string) (i : nat) :
  In k ls -> positions_of k ls i <> [].
Proof.
  revert i. induction ls as [ | l ls IH ]; intros i H; simpl; [ contradiction | ].
  destruct (String.eqb l k) eqn:E; [ discriminate | ].
  apply IH. destruct H as [-> | H]; [ | exact H ].
  rewrite String.eqb_refl in E. discriminate.
Qed.

Lemma locate_none (df : DataFrame) (keys : list string) :
  (exists k, In k keys /\ ~ In k (labels df)) -> locate df keys = None.
Proof.
  induction keys as [ | k0 keys IH ]; intros [k [Hin Hnot]]; [ contradiction | ].
  simpl. destruct (in_dec string_dec k0 (labels df)) as [Hp | Ha].
  - destruct Hin as [-> | Hin]; [ contradiction | ].
    rewrite (IH (ex_intro _ k (conj Hin Hnot))).
    now destruct (positions_of k0 (labels df) 0).
  - now rewrite positions_of_absent.
Qed.

Lemma unique_NoDup (ls : list string) : NoDup ls -> unique ls = ls.
Proof.
  induction ls as [ | l ls IH ]; intros H; [ reflexivity | ].
  inversion H as [ | ? ? Hnot Hrest ]; subst. simpl. rewrite (IH Hrest).
  f_equal. clear IH H Hrest.
  induction ls as [ | x ls IH ]; [ reflexivity | ]. simpl.
  destruct (String.eqb x l) eqn:E.
  - apply String.eqb_eq in E. exfalso. apply Hnot. now left.
  - simpl. f_equal. apply IH. intros Hin. apply Hnot. now right.
Qed.

Lemma NoDup_filter {A} (f : A -> bool) (l : list A) : NoDup l -> NoDup (filter f l).
Proof.
  induction l as [ | x l IH ]; intros H; simpl; [ constructor | ].
  inversion H as [ | ? ? Hnot Hrest ]; subst.
  destruct (f x); [ | now apply IH ].
  constructor; [ | now apply IH ].
  intros Hin. apply filter_In in Hin. now apply Hnot.
Qed.

(** Selecting distinct labels of which some, not all, are absent raises
    the [KeyError] whose key lists the absent ones in the order they
    were asked for. *)
Lemma positions_missing (df : DataFrame) (keys : list string) :
  NoDup keys ->
  (exists k, In k keys /\ ~ In k (labels df)) ->
  (exists k, In k keys /\ In k (labels df)) ->
  positions df keys
  = Raise (KeyError (list_repr (filter (fun k => negb (has_column df k)) keys)
                     ++ " not in index")).
Proof.
  intros Hnd Hmiss [k [Hin Hk]]. unfold positions.
  rewrite (locate_none df keys Hmiss).
  assert (E : forallb (fun k => negb (has_column df k)) keys = false).
  { apply not_true_is_false. intros H. rewrite forallb_forall in H.
    specialize (H k Hin). apply has_column_In in Hk. rewrite Hk in H.
    discriminate. }
  rewrite E. unfold not_found. rewrite unique_NoDup; [ reflexivity | ].
  now apply NoDup_filter.
Qed.

Lemma numeric_columns_unique : NoDup DataProcessor.numeric_columns.
Proof.
  unfold DataProcessor.numeric_columns.
  repeat (constructor;
          [ intros H; repeat (destruct H as [H | H]; [ discriminate | ]); exact H | ]).
  constructor.
Qed.

Lemma has_column_same_labels (df df' : DataFrame) (keys : list string) :
  labels df' = labels df ->
  filter (fun k => negb (has_column df' k)) keys
  = filter (fun k => negb (has_column df k)) keys.
Proof. intros H. unfold has_column. now rewrite H. Qed.

(** X13.  A table whose dates parse and which has the audience count, as
    after [load_data], but lacks one of EngagementRate, ConversionRate
    and ForecastError makes [preprocess_data] raise a [KeyError]: its
    key is the message that lists the absent columns, in the order of
    the code, followed by "not in index".  [load_data] asks for three
    columns only, and the others are first missed here. *)
Theorem preprocess_missing_numeric_column (env : DataProcessor.Env)
        (df : DataFrame) (raw ts : column) :
  getitem df "timestamp" = Ok raw ->
  DataProcessor.to_datetime env raw = Ok ts ->
  In "audience_count" (labels df) ->
  (exists k, In k DataProcessor.numeric_columns /\ ~ In k (labels df)) ->
  DataProcessor.preprocess_data env df
  = Raise (KeyError
             (list_repr (filter (fun k => negb (existsb (String.eqb k) (labels df)))
                                DataProcessor.numeric_columns)
              ++ " not in index")).
Proof.
  intros Hraw Hts Hcount Hmiss. unfold DataProcessor.preprocess_data.
  rewrite Hraw. cbn [bind]. rewrite Hts. cbn [bind].
  assert (Hone : getitem (setitem df "timestamp" ts) "timestamp" = Ok ts).
  { apply getitem_setitem_same. apply getitem_ok_named in Hraw.
    rewrite Hraw. simpl. lia. }
  unfold sort_values. rewrite Hone. cbn [bind].
  set (sorted := take_rows (argsort ts) (setitem df "timestamp" ts)).
  assert (Hl : labels sorted = labels df).
  { unfold sorted. rewrite labels_take_rows. apply labels_setitem_present.
    apply has_column_In. apply getitem_ok_named in Hraw.
    destruct (in_dec string_dec "timestamp" (labels df)) as [Hin | Hnot];
      [ exact Hin | ].
    apply named_nil in Hnot. rewrite Hraw in Hnot. discriminate. }
  unfold getitems.
  rewrite (positions_missing sorted DataProcessor.numeric_columns
             numeric_columns_unique).
  - rewrite (has_column_same_labels df sorted _ Hl). reflexivity.
  - now rewrite Hl.
  - exists "audience_count". split; [ now left | now rewrite Hl ].
Qed.

Lemma preprocess_missing_numeric_column_witness :
  let df := rename DataProcessor.column_mapping
              (mk_df (Demo.range_index 1)
                 [("Date", [CStr "2024-01-01"]); ("AudienceCount", [CNum (120 # 1)]);
                  ("Platform", [CStr "Web"]); ("ConversionRate", [CNum (2 # 1)])]) in
  DataProcessor.load_data Demo.env
    (Some (mk_df (Demo.range_index 1)
             [("Date", [CStr "2024-01-01"]); ("AudienceCount", [CNum (120 # 1)]);
              ("Platform", [CStr "Web"]); ("ConversionRate", [CNum (2 # 1)])])) = Ok df
  /\ DataProcessor.preprocess_data Demo.env df
     = Raise (KeyError "['EngagementRate', 'ForecastError'] not in index").
Proof.
  split; [ reflexivity | ].
  rewrite (preprocess_missing_numeric_column Demo.env _
             [CStr "2024-01-01"] [CTime (Demo.day 19723)]).
  - reflexivity.
  - reflexivity.
  - reflexivity.
  - simpl. auto.
  - exists "EngagementRate". split; [ simpl; auto | ].
    simpl. intros [H | [H | [H | [H | []]]]]; discriminate H.
Defined.

(** ** Feature engineering: what is added, what is kept *)

(** The result of [engineer_features], assignment by assignment. *)
Lemma engineer_features_steps (df out : DataFrame) :
  DataProcessor.engineer_features df = Ok out ->
  exists keys raw vals er cr score,
    getitem df "platform" = Ok keys
    /\ getitem df "audience_count" = Ok raw
    /\ DataProcessor.as_numbers raw = Ok vals
    /\ getitem df "EngagementRate" = Ok er
    /\ getitem df "ConversionRate" = Ok cr
    /\ DataProcessor.mul_columns er cr = Ok score
    /\ out = setitem
               (setitem
                  (setitem
                     (setitem df "audience_7day_mean"
                        (DataProcessor.group_rolling DataProcessor.rolling_mean keys vals))
                     "audience_7day_std"
                     (DataProcessor.group_rolling DataProcessor.rolling_std keys vals))
                  "engagement_score" score)
               "platform_encoded" (DataProcessor.categorical_codes keys).
Proof.
  intros H. unfold DataProcessor.engineer_features in H.
  bind_inv H keys Hkeys. bind_inv H raw Hraw. bind_inv H vals Hvals. cbv zeta in H.
  rewrite !getitem_setitem_other in H by discriminate.
  rewrite Hkeys, Hraw in H. cbn [bind] in H. rewrite Hvals in H. cbn [bind] in H.
  bind_inv H er Her. bind_inv H cr Hcr. bind_inv H score Hscore.
  rewrite !getitem_setitem_other in Her by discriminate.
  rewrite !getitem_setitem_other in Hcr by discriminate.
  rewrite !getitem_setitem_other in H by discriminate.
  rewrite Hkeys in H. cbn [bind] in H. injection H as <-.
  exists keys, raw, vals, er, cr, score. repeat split; assumption.
Qed.

Lemma mul_columns_product (a b score : column) :
  Forall number_or_missing a -> Forall number_or_missing b ->
  DataProcessor.mul_columns a b = Ok score ->
  score = map (fun xy => product (fst xy) (snd xy)) (combine a b).
Proof.
  unfold DataProcessor.mul_columns.
  generalize (DataProcessor.int_column a || DataProcessor.int_column b) as ints.
  intros ints Ha. revert b score.
  induction Ha as [ | x a Hx Ha IH ]; intros b score Hb H.
  - simpl in H. now injection H as <-.
  - destruct b as [ | y b ]; [ simpl in H; now injection H as <- | ].
    inversion Hb as [ | ? ? Hy Hb' ]; subst.
    simpl in H. bind_inv H z Hz. bind_inv H zs Hzs. injection H as <-.
    simpl. rewrite <- (IH b zs Hb' Hzs). f_equal.
    destruct x, y; simpl in Hx, Hy, Hz; try contradiction; try discriminate;
      now injection Hz as <-.
Qed.

(** Numeric columns always have a product. *)
Lemma mul_columns_numbers (a b : column) :
  Forall number_or_missing a -> Forall number_or_missing b ->
  exists score, DataProcessor.mul_columns a b = Ok score.
Proof.
  unfold DataProcessor.mul_columns.
  generalize (DataProcessor.int_column a || DataProcessor.int_column b) as ints.
  intros ints Ha. revert b.
  induction Ha as [ | x a Hx Ha IH ]; intros b Hb.
  - eexists. reflexivity.
  - destruct b as [ | y b ]; [ eexists; reflexivity | ].
    inversion Hb as [ | ? ? Hy Hb' ]; subst.
    destruct (IH b Hb') as [zs Hzs]. simpl. rewrite Hzs.
    destruct x, y; simpl in Hx, Hy; try contradiction; eexists; reflexivity.
Qed.

(** Text is repeated by the integers of an [int64] column and refused
    by floats. *)
Example mul_columns_text :
  DataProcessor.mul_columns [CStr "a"; CStr "b"] [CNum (2 # 1); CNum (3 # 1)]
  = Ok [CStr "aa"; CStr "bbb"]
  /\ DataProcessor.mul_columns [CStr "a"; CStr "b"] [CNum (5 # 2); CNum (3 # 1)]
     = Raise (TypeError "can't multiply sequence by non-int of type 'float'").
Proof. split; reflexivity. Qed.

(** X14.  For a table whose EngagementRate and ConversionRate hold
    numbers or missing values, [engagement_score] in the table
    [engineer_features] returns is, row by row, the product of the two
    rates of the input, and missing where one of them is. *)
Theorem engagement_score_is_product (df out : DataFrame) (er cr : column) :
  NoDup (labels df) ->
  getitem df "EngagementRate" = Ok er ->
  getitem df "ConversionRate" = Ok cr ->
  Forall number_or_missing er -> Forall number_or_missing cr ->
  DataProcessor.engineer_features df = Ok out ->
  getitem out "engagement_score"
  = Ok (map (fun xy => product (fst xy) (snd xy)) (combine er cr)).
Proof.
  intros Hnd Her0 Hcr0 Hner Hncr H. apply engineer_features_steps in H.
  destruct H as [keys [raw [vals [er' [cr' [score [_ [_ [_ [Her [Hcr [Hs ->]]]]]]]]]]]].
  rewrite Her0 in Her. injection Her as <-.
  rewrite Hcr0 in Hcr. injection Hcr as <-.
  rewrite <- (mul_columns_product _ _ _ Hner Hncr Hs).
  rewrite getitem_setitem_other by discriminate.
  apply getitem_setitem_same.
  rewrite !named_setitem_other by discriminate. now apply NoDup_named.
Qed.

Lemma two_platforms_unique : NoDup (labels Demo.two_platforms).
Proof.
  repeat constructor; simpl; intros H;
    repeat (destruct H as [H | H]; [ discriminate H | ]); exact H.
Qed.

Lemma engagement_score_is_product_witness :
  NoDup (labels Demo.two_platforms)
  /\ Forall number_or_missing [CNum (5 # 1); CNaN; CNum (6 # 1); CNum (1 # 2)]
  /\ Forall number_or_missing [CNum (2 # 1); CNum (1 # 1); CNum (3 # 1); CNum (4 # 1)]
  /\ exists out,
      DataProcessor.engineer_features Demo.two_platforms = Ok out
      /\ getitem out "engagement_score"
         = Ok [CNum (10 # 1); CNaN; CNum (18 # 1); CNum (4 # 2)].
Proof.
  assert (H1 : Forall number_or_missing
                 [CNum (5 # 1); CNaN; CNum (6 # 1); CNum (1 # 2)])
    by (repeat constructor).
  assert (H2 : Forall number_or_missing
                 [CNum (2 # 1); CNum (1 # 1); CNum (3 # 1); CNum (4 # 1)])
    by (repeat constructor).
  split; [ exact two_platforms_unique | split; [ exact H1 | split; [ exact H2 | ] ] ].
  eexists. split; [ vm_compute; reflexivity | ].
  rewrite (engagement_score_is_product Demo.two_platforms _ _ _
             two_platforms_unique eq_refl eq_refl H1 H2).
  - reflexivity.
  - vm_compute. reflexivity.
Defined.

(** X15.  [engineer_features] only adds: the row labels and every
    column other than the four it assigns are read from its result as
    from its input. *)
Theorem engineer_features_keeps_columns (df out : DataFrame) :
  DataProcessor.engineer_features df = Ok out ->
  index out = index df
  /\ forall name, ~ In name feature_labels -> getitem out name = getitem df name.
Proof.
  intros H. apply engineer_features_steps in H.
  destruct H as [keys [raw [vals [er [cr [score [_ [_ [_ [_ [_ [_ ->]]]]]]]]]]]].
  split; [ now rewrite !index_setitem | ].
  intros name Hn. unfold feature_labels in Hn. simpl in Hn.
  rewrite !getitem_setitem_other by (intros <-; apply Hn; tauto).
  reflexivity.
Qed.

Lemma engineer_features_keeps_columns_witness :
  exists out,
    DataProcessor.engineer_features Demo.two_platforms = Ok out
    /\ index out = index Demo.two_platforms
    /\ forall name, ~ In name feature_labels ->
                    getitem out name = getitem Demo.two_platforms name.
Proof.
  eexists. split; [ vm_compute; reflexivity | ].
  refine (engineer_features_keeps_columns Demo.two_platforms _ _).
  vm_compute. reflexivity.
Defined.

(** ** Rolling windows, in general *)

Lemma same_label_refl (c : cell) :
  DataProcessor.is_missing c = false -> DataProcessor.same_label c c = true.
Proof.
  destruct c; simpl; intros H; try discriminate.
  - apply String.eqb_refl.
  - apply Qeq_bool_iff. reflexivity.
  - apply Z.eqb_refl.
Qed.

Lemma firstn_S_nth {A} (l : list A) (i : nat) (d : A) :
  (i < length l)%nat -> firstn (S i) l = firstn i l ++ [nth i l d].
Proof.
  revert i. induction l as [ | x l IH ]; intros i H; simpl in H; [ lia | ].
  destruct i as [ | i ]; [ reflexivity | ].
  change (firstn (S (S i)) (x :: l)) with (x :: firstn (S i) l).
  change (firstn (S i) (x :: l)) with (x :: firstn i l).
  change (nth (S i) (x :: l) d) with (nth i l d).
  rewrite (IH i) by lia. reflexivity.
Qed.

Lemma nth_combine {A C} (a : list A) (b : list C) (i : nat) (da : A) (db : C) :
  (i < length a)%nat -> (i < length b)%nat ->
  nth i (combine a b) (da, db) = (nth i a da, nth i b db).
Proof.
  revert b i. induction a as [ | x a IH ]; intros b i Ha Hb; simpl in Ha; [ lia | ].
  destruct b as [ | y b ]; simpl in Hb; [ lia | ].
  destruct i as [ | i ]; [ reflexivity | ]. simpl. apply IH; lia.
Qed.

Lemma lastn_snoc {A} (k : nat) (l : list A) (x : A) :
  lastn (S k) (l ++ [x]) = lastn k l ++ [x].
Proof.
  unfold lastn. rewrite length_app. simpl.
  replace (length l + 1 - S k)%nat with (length l - k)%nat by lia.
  rewrite skipn_app.
  replace (length l - k - length l)%nat with 0%nat by lia. reflexivity.
Qed.

(** The group of a row with a label ends with the row itself. *)
Lemma group_upto_last (keys : column) (vals : list (option Q)) (i : nat) :
  (i < length keys)%nat -> (i < length vals)%nat ->
  DataProcessor.is_missing (nth i keys CNaN) = false ->
  exists earlier,
    DataProcessor.group_upto keys vals i = earlier ++ [nth i vals None].
Proof.
  intros Hk Hv Hm. unfold DataProcessor.group_upto.
  rewrite (firstn_S_nth _ i (CNaN, None))
    by (rewrite length_combine; lia).
  rewrite nth_combine by assumption.
  rewrite filter_app, map_app. cbn [filter fst].
  rewrite (same_label_refl _ Hm). eexists. reflexivity.
Qed.

Lemma observations_app (a b : list (option Q)) :
  DataProcessor.observations (a ++ b)
  = DataProcessor.observations a ++ DataProcessor.observations b.
Proof. unfold DataProcessor.observations. apply flat_map_app. Qed.

Lemma group_rolling_nth (stat : list (option Q) -> cell) (keys : column)
      (vals : list (option Q)) (i : nat) :
  (i < length vals)%nat ->
  nth i (DataProcessor.group_rolling stat keys vals) CNaN
  = match nth i keys CNaN with
    | CNaN | CNaT => CNaN
    | _ => stat (lastn DataProcessor.window (DataProcessor.group_upto keys vals i))
    end.
Proof.
  intros H. unfold DataProcessor.group_rolling. now rewrite nth_map_seq.
Qed.

Lemma group_rolling_mean_number (keys : column) (vals : list (option Q))
      (i : nat) (q : Q) :
  (i < length keys)%nat ->
  DataProcessor.is_missing (nth i keys CNaN) = false ->
  nth_error vals i = Some (Some q) ->
  exists v, nth i (DataProcessor.group_rolling DataProcessor.rolling_mean keys vals) CNaN
            = CNum v.
Proof.
  intros Hk Hm Hq.
  assert (Hv : (i < length vals)%nat) by (apply nth_error_Some; congruence).
  rewrite group_rolling_nth by exact Hv.
  destruct (group_upto_last keys vals i Hk Hv Hm) as [earlier He].
  rewrite (nth_error_nth _ _ None Hq) in He. rewrite He.
  change DataProcessor.window with (S 6). rewrite lastn_snoc.
  assert (Hstat : exists v,
             DataProcessor.rolling_mean (lastn 6 earlier ++ [Some q]) = CNum v).
  { unfold DataProcessor.rolling_mean. rewrite observations_app, length_app.
    change (length (DataProcessor.observations [Some q])) with 1%nat.
    rewrite Nat.add_1_r. eexists. reflexivity. }
  destruct (nth i keys CNaN); simpl in Hm; try discriminate; exact Hstat.
Qed.

Lemma as_numbers_nth (raw : column) (vals : list (option Q)) :
  DataProcessor.as_numbers raw = Ok vals ->
  length vals = length raw
  /\ forall i q, nth_error raw i = Some (CNum q) -> nth_error vals i = Some (Some q).
Proof.
  revert vals. induction raw as [ | x raw IH ]; intros vals H; simpl in H.
  - injection H as <-. split; [ reflexivity | ]. intros [ | i ] q Hq; discriminate.
  - bind_inv H v Hv. bind_inv H vs Hvs. injection H as <-.
    destruct (IH vs Hvs) as [Hlen Hnth]. split; [ simpl; now rewrite Hlen | ].
    intros [ | i ] q Hq; simpl in *.
    + injection Hq as ->. now injection Hv as <-.
    + now apply Hnth.
Qed.

(** X16.  The rolling mean is never missing where there is something to
    average: every row that has a platform and a numeric audience count
    gets a number for [audience_7day_mean], however few rows of its
    platform came before. *)
Theorem rolling_mean_never_missing (df out : DataFrame) (keys raw : column) :
  NoDup (labels df) ->
  getitem df "platform" = Ok keys ->
  getitem df "audience_count" = Ok raw ->
  DataProcessor.engineer_features df = Ok out ->
  exists m,
    getitem out "audience_7day_mean" = Ok m
    /\ length m = length raw
    /\ forall i q, (i < length keys)%nat ->
         DataProcessor.is_missing (nth i keys CNaN) = false ->
         nth_error raw i = Some (CNum q) ->
         exists v, nth i m CNaN = CNum v.
Proof.
  intros Hnd Hkeys Hraw H.
  destruct (engineer_features_rolling df out keys raw Hnd Hkeys Hraw H)
    as [vals [Hvals [Hm _]]].
  destruct (as_numbers_nth raw vals Hvals) as [Hlen Hnth].
  eexists. split; [ exact Hm | ].
  split; [ now rewrite group_rolling_length | ].
  intros i q Hi Hmiss Hq.
  exact (group_rolling_mean_number keys vals i q Hi Hmiss (Hnth i q Hq)).
Qed.

Lemma rolling_mean_never_missing_witness :
  NoDup (labels Demo.two_platforms)
  /\ exists out m,
    DataProcessor.engineer_features Demo.two_platforms = Ok out
    /\ getitem out "audience_7day_mean" = Ok m
    /\ length m = 4%nat
    /\ forall i q, (i < 4)%nat ->
         DataProcessor.is_missing
           (nth i [CStr "Web"; CStr "App"; CStr "Web"; CStr "Web"] CNaN) = false ->
         nth_error [CNum (0 # 1); CNum (7 # 1); CNum (3 # 1); CNum (6 # 1)] i
         = Some (CNum q) ->
         exists v, nth i m CNaN = CNum v.
Proof.
  split; [ exact two_platforms_unique | ].
  eexists.
  assert (H : forall x, x = DataProcessor.engineer_features Demo.two_platforms ->
                        DataProcessor.engineer_features Demo.two_platforms = x)
    by (intros x ->; reflexivity).
  assert (Hout : DataProcessor.engineer_features Demo.two_platforms
                 = Ok (match DataProcessor.engineer_features Demo.two_platforms with
                       | Ok d => d | Raise _ => mk_df [] [] end))
    by (vm_compute; reflexivity).
  destruct (rolling_mean_never_missing Demo.two_platforms _ _ _
              two_platforms_unique eq_refl eq_refl Hout) as [m [Hm [Hlen Hrows]]].
  exists m. split; [ exact Hout | split; [ exact Hm | split; [ exact Hlen | exact Hrows ] ] ].
Defined.

Lemma filter_none {A} (f : A -> bool) (l : list A) :
  (forall x, In x l -> f x = false) -> filter f l = [].
Proof.
  induction l as [ | x l IH ]; intros H; simpl; [ reflexivity | ].
  rewrite (H x (or_introl eq_refl)). apply IH. intros y Hy. apply H. now right.
Qed.

Lemma In_firstn_combine (keys : column) (vals : list (option Q)) (i : nat)
      (kv : cell * option Q) :
  In kv (firstn i (combine keys vals)) ->
  exists j, (j < i)%nat /\ fst kv = nth j keys CNaN.
Proof.
  revert keys vals. induction i as [ | i IH ]; intros keys vals H.
  - simpl in H. contradiction.
  - destruct keys as [ | k keys ]; [ simpl in H; contradiction | ].
    destruct vals as [ | v vals ]; [ simpl in H; contradiction | ].
    simpl in H. destruct H as [<- | H].
    + exists 0%nat. split; [ lia | reflexivity ].
    + destruct (IH keys vals H) as [j [Hj Hk]].
      exists (S j). split; [ lia | exact Hk ].
Qed.

Lemma rolling_std_one (o : option Q) : DataProcessor.rolling_std [o] = CNaN.
Proof. destruct o; reflexivity. Qed.

(** The first row of a group has no rolling standard deviation. *)
Lemma group_rolling_std_first (keys : column) (vals : list (option Q)) (i : nat) :
  (forall j, (j < i)%nat ->
             DataProcessor.same_label (nth j keys CNaN) (nth i keys CNaN) = false) ->
  nth i (DataProcessor.group_rolling DataProcessor.rolling_std keys vals) CNaN = CNaN.
Proof.
  intros Hfirst.
  destruct (Nat.lt_ge_cases i (length vals)) as [Hv | Hv].
  2:{ apply nth_overflow. now rewrite group_rolling_length. }
  rewrite group_rolling_nth by exact Hv.
  destruct (Nat.lt_ge_cases i (length keys)) as [Hk | Hk].
  2:{ now rewrite nth_overflow. }
  destruct (DataProcessor.is_missing (nth i keys CNaN)) eqn:Hm.
  { destruct (nth i keys CNaN); simpl in Hm; try discriminate; reflexivity. }
  assert (Hg : DataProcessor.group_upto keys vals i = [nth i vals None]).
  { unfold DataProcessor.group_upto.
    rewrite (firstn_S_nth _ i (CNaN, None)) by (rewrite length_combine; lia).
    rewrite nth_combine by assumption.
    rewrite filter_app, map_app. cbn [filter fst].
    rewrite (same_label_refl _ Hm).
    rewrite filter_none; [ reflexivity | ].
    intros kv Hin. destruct (In_firstn_combine _ _ _ _ Hin) as [j [Hj ->]].
    now apply Hfirst. }
  rewrite Hg. change (lastn DataProcessor.window [nth i vals None])
    with [nth i vals None].
  rewrite rolling_std_one. now destruct (nth i keys CNaN).
Qed.

(** X17.  The first row of every platform has no rolling standard
    deviation: a row that no earlier row shares its platform with gets a
    missing [audience_7day_std], whatever its audience count. *)
Theorem rolling_std_first_row_missing (df out : DataFrame) (keys raw : column) :
  NoDup (labels df) ->
  getitem df "platform" = Ok keys ->
  getitem df "audience_count" = Ok raw ->
  DataProcessor.engineer_features df = Ok out ->
  exists s,
    getitem out "audience_7day_std" = Ok s
    /\ length s = length raw
    /\ forall i,
         (forall j, (j < i)%nat ->
            DataProcessor.same_label (nth j keys CNaN) (nth i keys CNaN) = false) ->
         nth i s CNaN = CNaN.
Proof.
  intros Hnd Hkeys Hraw H.
  destruct (engineer_features_rolling df out keys raw Hnd Hkeys Hraw H)
    as [vals [Hvals [_ Hs]]].
  destruct (as_numbers_nth raw vals Hvals) as [Hlen _].
  eexists. split; [ exact Hs | ].
  split; [ now rewrite group_rolling_length | ].
  intros i Hfirst. now apply group_rolling_std_first.
Qed.

Lemma rolling_std_first_row_missing_witness :
  NoDup (labels Demo.two_platforms)
  /\ exists out s,
    DataProcessor.engineer_features Demo.two_platforms = Ok out
    /\ getitem out "audience_7day_std" = Ok s
    /\ length s = 4%nat
    /\ forall i,
         (forall j, (j < i)%nat ->
            DataProcessor.same_label
              (nth j [CStr "Web"; CStr "App"; CStr "Web"; CStr "Web"] CNaN)
              (nth i [CStr "Web"; CStr "App"; CStr "Web"; CStr "Web"] CNaN) = false) ->
         nth i s CNaN = CNaN.
Proof.
  split; [ exact two_platforms_unique | ].
  eexists.
  assert (Hout : DataProcessor.engineer_features Demo.two_platforms
                 = Ok (match DataProcessor.engineer_features Demo.two_platforms with
                       | Ok d => d | Raise _ => mk_df [] [] end))
    by (vm_compute; reflexivity).
  destruct (rolling_std_first_row_missing Demo.two_platforms _ _ _
              two_platforms_unique eq_refl eq_refl Hout) as [s [Hs [Hlen Hrows]]].
  exists s. split; [ exact Hout | split; [ exact Hs | split; [ exact Hlen | exact Hrows ] ] ].
Defined.

(** In a table of one platform the group of a row is the rows up to it. *)
Lemma group_upto_one_platform (p : string) (l : list (option Q)) (m : nat) :
  map snd (filter (fun kv => DataProcessor.same_label (fst kv) (CStr p))
                  (firstn m (combine (repeat (CStr p) (length l)) l)))
  = firstn m l.
Proof.
  revert m. induction l as [ | x l IH ]; intros m.
  - simpl. now rewrite !firstn_nil.
  - destruct m as [ | m ]; [ reflexivity | ].
    cbn [length repeat combine]. rewrite !firstn_cons.
    cbn [filter fst]. cbn [DataProcessor.same_label]. rewrite String.eqb_refl.
    cbn [map snd]. now rewrite IH.
Qed.

Lemma as_numbers_numbers (qs : list Q) :
  DataProcessor.as_numbers (map CNum qs) = Ok (map Some qs).
Proof. induction qs as [ | q qs IH ]; simpl; [ reflexivity | now rewrite IH ]. Qed.

Lemma observations_numbers (qs : list Q) :
  DataProcessor.observations (map Some qs) = qs.
Proof. induction qs as [ | q qs IH ]; simpl; [ reflexivity | now rewrite IH ]. Qed.

Lemma lastn_map {A C} (f : A -> C) (n : nat) (l : list A) :
  lastn n (map f l) = map f (lastn n l).
Proof. unfold lastn. now rewrite length_map, skipn_map. Qed.

(** The window of row [i] in a table of one platform: the audience
    counts of the rows [i - 6] to [i], or of the rows from the first to
    [i] when there are fewer. *)
Lemma window_one_platform (p : string) (qs : list Q) (i : nat) :
  (i < length qs)%nat ->
  lastn DataProcessor.window
        (DataProcessor.group_upto (repeat (CStr p) (length qs)) (map Some qs) i)
  = map Some (lastn 7 (firstn (S i) qs)).
Proof.
  intros H. unfold DataProcessor.group_upto.
  rewrite nth_repeat_lt by exact H.
  rewrite <- (length_map Some qs) at 1.
  rewrite group_upto_one_platform, firstn_map. apply lastn_map.
Qed.

(** X18.  In a table of one platform with a number in every row of the
    audience count, [audience_7day_mean] of row [i] is the arithmetic
    mean of the counts of the last seven rows up to and including [i]
    (of all rows up to [i] when there are fewer than seven), and from
    the second row on [audience_7day_std] is a number, not a missing
    value. *)
Theorem rolling_window_one_platform (df out : DataFrame) (p : string)
        (qs : list Q) :
  NoDup (labels df) ->
  getitem df "platform" = Ok (repeat (CStr p) (length qs)) ->
  getitem df "audience_count" = Ok (map CNum qs) ->
  DataProcessor.engineer_features df = Ok out ->
  exists m s,
    getitem out "audience_7day_mean" = Ok m
    /\ getitem out "audience_7day_std" = Ok s
    /\ (forall i, (i < length qs)%nat ->
          nth i m CNaN = CNum (Qmean (lastn 7 (firstn (S i) qs))))
    /\ (forall i, (1 <= i < length qs)%nat ->
          exists v, nth i s CNaN = CNum v).
Proof.
  intros Hnd Hkeys Hraw H.
  destruct (engineer_features_rolling df out _ _ Hnd Hkeys Hraw H)
    as [vals [Hvals [Hm Hs]]].
  rewrite as_numbers_numbers in Hvals. injection Hvals as <-.
  eexists. eexists. split; [ exact Hm | split; [ exact Hs | ] ].
  assert (Hwin : forall i, (i < length qs)%nat ->
            (Nat.min 7 (S i) <= length (lastn 7 (firstn (S i) qs)))%nat).
  { intros i Hi. unfold lastn. rewrite length_skipn, length_firstn.
    destruct (Nat.min_spec 7 (S i)) as [[Hlt ->] | [Hle ->]];
      destruct (Nat.min_spec (S i) (length qs)) as [[Hlt' ->] | [Hle' ->]]; lia. }
  split.
  - intros i Hi. rewrite group_rolling_nth by now rewrite length_map.
    rewrite nth_repeat_lt by exact Hi.
    rewrite window_one_platform by exact Hi.
    unfold DataProcessor.rolling_mean. rewrite observations_numbers.
    specialize (Hwin i Hi).
    assert (E : Nat.leb DataProcessor.min_periods
                        (length (lastn 7 (firstn (S i) qs))) = true).
    { apply Nat.leb_le. unfold DataProcessor.min_periods.
      destruct (Nat.min_spec 7 (S i)) as [[Hlt Hmin] | [Hle Hmin]];
        rewrite Hmin in Hwin; lia. }
    now rewrite E.
  - intros i Hi. rewrite group_rolling_nth by (rewrite length_map; lia).
    rewrite nth_repeat_lt by lia.
    rewrite window_one_platform by lia.
    unfold DataProcessor.rolling_std. rewrite observations_numbers.
    specialize (Hwin i ltac:(lia)).
    assert (Hlen : (2 <= length (lastn 7 (firstn (S i) qs)))%nat).
    { destruct (Nat.min_spec 7 (S i)) as [[Hlt Hmin] | [Hle Hmin]];
        rewrite Hmin in Hwin; lia. }
    assert (E1 : Nat.leb DataProcessor.min_periods
                         (length (lastn 7 (firstn (S i) qs))) = true)
      by (apply Nat.leb_le; unfold DataProcessor.min_periods; lia).
    assert (E2 : Nat.ltb DataProcessor.ddof
                         (length (lastn 7 (firstn (S i) qs))) = true)
      by (apply Nat.ltb_lt; unfold DataProcessor.ddof; lia).
    rewrite E1, E2. eexists. reflexivity.
Qed.

Lemma varying_table_unique : NoDup (labels varying_table).
Proof.
  repeat constructor; simpl; intros H;
    repeat (destruct H as [H | H]; [ discriminate H | ]); exact H.
Qed.

Lemma rolling_window_one_platform_witness :
  NoDup (labels varying_table)
  /\ exists out m s,
    DataProcessor.engineer_features varying_table = Ok out
    /\ getitem out "audience_7day_mean" = Ok m
    /\ getitem out "audience_7day_std" = Ok s
    /\ (forall i, (i < 3)%nat ->
          nth i m CNaN = CNum (Qmean (lastn 7 (firstn (S i) [0 # 1; 3 # 1; 6 # 1]%Q))))
    /\ (forall i, (1 <= i < 3)%nat -> exists v, nth i s CNaN = CNum v).
Proof.
  split; [ exact varying_table_unique | ].
  eexists.
  assert (Hout : DataProcessor.engineer_features varying_table
                 = Ok (match DataProcessor.engineer_features varying_table with
                       | Ok d => d | Raise _ => mk_df [] [] end))
    by (vm_compute; reflexivity).
  destruct (rolling_window_one_platform varying_table _ "Web" [0 # 1; 3 # 1; 6 # 1]%Q
              varying_table_unique eq_refl eq_refl Hout) as [m [s [Hm [Hs [Hmean Hstd]]]]].
  exists m, s.
  split; [ exact Hout | split; [ exact Hm | split; [ exact Hs | split ] ] ];
    assumption.
Defined.

(** ** Platform codes *)

Lemma same_label_sym (a b : cell) :
  DataProcessor.same_label a b = DataProcessor.same_label b a.
Proof.
  destruct a, b; simpl; try reflexivity.
  - apply String.eqb_sym.
  - destruct (Qeq_bool q q0) eqn:E1, (Qeq_bool q0 q) eqn:E2; try reflexivity.
    + apply Qeq_bool_iff in E1. symmetry in E1. apply Qeq_bool_iff in E1. congruence.
    + apply Qeq_bool_iff in E2. symmetry in E2. apply Qeq_bool_iff in E2. congruence.
  - apply Z.eqb_sym.
Qed.

Lemma same_label_trans (a b c : cell) :
  DataProcessor.same_label a b = true -> DataProcessor.same_label b c = true ->
  DataProcessor.same_label a c = true.
Proof.
  destruct a, b, c; simpl; intros H1 H2; try discriminate.
  - apply String.eqb_eq in H1, H2. subst. apply String.eqb_refl.
  - apply Qeq_bool_iff in H1, H2. apply Qeq_bool_iff. now rewrite H1.
  - apply Z.eqb_eq in H1, H2. subst. apply Z.eqb_refl.
Qed.

Lemma same_label_congr (x y d : cell) :
  DataProcessor.same_label x y = true ->
  DataProcessor.same_label x d = DataProcessor.same_label y d.
Proof.
  intros H.
  destruct (DataProcessor.same_label x d) eqn:E1,
           (DataProcessor.same_label y d) eqn:E2; try reflexivity.
  - rewrite same_label_sym in H.
    rewrite (same_label_trans y x d H E1) in E2. discriminate.
  - rewrite (same_label_trans x y d H E2) in E1. discriminate.
Qed.

Lemma code_in_same (cats : list cell) (x y : cell) (i : Z) :
  DataProcessor.same_label x y = true ->
  DataProcessor.code_in cats x i = DataProcessor.code_in cats y i.
Proof.
  intros H. revert i. induction cats as [ | d cats IH ]; intros i; simpl.
  - reflexivity.
  - rewrite (same_label_congr x y d H). now rewrite IH.
Qed.

Lemma code_in_spec (cats : list cell) (x : cell) (i : Z) :
  0 <= i ->
  (DataProcessor.code_in cats x i = -1
   /\ forall d, In d cats -> DataProcessor.same_label x d = false)
  \/ (exists d, In d cats /\ DataProcessor.same_label x d = true
                /\ i <= DataProcessor.code_in cats x i
                /\ nth_error cats (Z.to_nat (DataProcessor.code_in cats x i - i))
                   = Some d).
Proof.
  revert i. induction cats as [ | c cats IH ]; intros i Hi; simpl.
  - left. split; [ reflexivity | intros d [] ].
  - destruct (DataProcessor.same_label x c) eqn:E.
    + right. exists c. split; [ now left | split; [ exact E | split; [ lia | ] ] ].
      now rewrite Z.sub_diag.
    + destruct (IH (i + 1) ltac:(lia)) as [[Hc Hnone] | [d [Hin [Hd [Hle Hn]]]]].
      * left. split; [ exact Hc | ]. intros d [<- | Hd]; [ exact E | now apply Hnone ].
      * right. exists d. split; [ now right | split; [ exact Hd | split; [ lia | ] ] ].
        replace (Z.to_nat (DataProcessor.code_in cats x (i + 1) - i))
          with (S (Z.to_nat (DataProcessor.code_in cats x (i + 1) - (i + 1))))
          by lia.
        exact Hn.
Qed.

Lemma insert_category_keeps (c d : cell) (cats : list cell) :
  In d cats -> In d (DataProcessor.insert_category c cats).
Proof.
  induction cats as [ | e cats IH ]; intros H; simpl; [ contradiction | ].
  destruct (DataProcessor.same_label c e); [ exact H | ].
  destruct (cell_leb c e); [ now right | ].
  destruct H as [<- | H]; [ now left | right; now apply IH ].
Qed.

Lemma insert_category_has (c : cell) (cats : list cell) :
  DataProcessor.is_missing c = false ->
  exists d, In d (DataProcessor.insert_category c cats)
            /\ DataProcessor.same_label c d = true.
Proof.
  intros Hm. induction cats as [ | e cats IH ]; simpl.
  - exists c. split; [ now left | now apply same_label_refl ].
  - destruct (DataProcessor.same_label c e) eqn:E.
    + exists e. split; [ now left | exact E ].
    + destruct (cell_leb c e).
      * exists c. split; [ now left | now apply same_label_refl ].
      * destruct IH as [d [Hin Hd]]. exists d. split; [ now right | exact Hd ].
Qed.

(** Every value of the column that is not missing has its category. *)
Lemma categories_cover (col : column) (x : cell) :
  In x col -> DataProcessor.is_missing x = false ->
  exists d, In d (DataProcessor.categories col)
            /\ DataProcessor.same_label x d = true.
Proof.
  unfold DataProcessor.categories.
  assert (Hgen : forall l acc,
            (In x l \/ exists d, In d acc /\ DataProcessor.same_label x d = true) ->
            DataProcessor.is_missing x = false ->
            exists d,
              In d (fold_left
                      (fun cats y => if DataProcessor.is_missing y then cats
                                     else DataProcessor.insert_category y cats) l acc)
              /\ DataProcessor.same_label x d = true).
  { induction l as [ | y l IH ]; intros acc H Hm; simpl.
    - destruct H as [[] | H]; exact H.
    - apply IH; [ | exact Hm ].
      destruct H as [[<- | Hin] | [d [Hin Hd]]].
      + right. rewrite Hm. now apply insert_category_has.
      + now left.
      + right. exists d. split; [ | exact Hd ].
        destruct (DataProcessor.is_missing y); [ exact Hin | ].
        now apply insert_category_keeps. }
  intros Hin Hm. apply Hgen; [ now left | exact Hm ].
Qed.

Lemma categorical_codes_nth (col : column) (i : nat) :
  (i < length col)%nat ->
  nth i (DataProcessor.categorical_codes col) CNaN
  = CNum (inject_Z (DataProcessor.code_in (DataProcessor.categories col)
                                          (nth i col CNaN) 0)).
Proof.
  intros H. unfold DataProcessor.categorical_codes.
  rewrite (nth_indep _ CNaN
             (CNum (inject_Z (DataProcessor.code_in (DataProcessor.categories col) CNaN 0))))
    by now rewrite length_map.
  now rewrite (map_nth (fun x => CNum (inject_Z
                 (DataProcessor.code_in (DataProcessor.categories col) x 0)))).
Qed.

(** X19.  [platform_encoded] tells the platforms apart and nothing
    else: two rows that have a platform get the same code exactly when
    they have the same platform; a platform gets a code from 0 up, and a
    row without platform the code -1. *)
Theorem platform_codes_separate (df out : DataFrame) (keys : column) :
  NoDup (labels df) ->
  getitem df "platform" = Ok keys ->
  DataProcessor.engineer_features df = Ok out ->
  exists codes,
    getitem out "platform_encoded" = Ok codes
    /\ length codes = length keys
    /\ (forall i j, (i < length keys)%nat -> (j < length keys)%nat ->
          DataProcessor.is_missing (nth i keys CNaN) = false ->
          DataProcessor.is_missing (nth j keys CNaN) = false ->
          (nth i codes CNaN = nth j codes CNaN
           <-> DataProcessor.same_label (nth i keys CNaN) (nth j keys CNaN) = true))
    /\ (forall i, (i < length keys)%nat ->
          if DataProcessor.is_missing (nth i keys CNaN)
          then nth i codes CNaN = CNum (inject_Z (-1))
          else exists z, 0 <= z /\ nth i codes CNaN = CNum (inject_Z z)).
Proof.
  intros Hnd Hkeys H. apply engineer_features_steps in H.
  destruct H as [keys' [raw [vals [er [cr [score [Hk' [_ [_ [_ [_ [_ ->]]]]]]]]]]]].
  rewrite Hkeys in Hk'. injection Hk' as <-.
  exists (DataProcessor.categorical_codes keys).
  split.
  { apply getitem_setitem_same.
    rewrite !named_setitem_other by discriminate. now apply NoDup_named. }
  split; [ unfold DataProcessor.categorical_codes; now rewrite length_map | ].
  assert (Hfound : forall i, (i < length keys)%nat ->
            DataProcessor.is_missing (nth i keys CNaN) = false ->
            exists d, In d (DataProcessor.categories keys)
              /\ DataProcessor.same_label (nth i keys CNaN) d = true
              /\ 0 <= DataProcessor.code_in (DataProcessor.categories keys)
                                            (nth i keys CNaN) 0
              /\ nth_error (DataProcessor.categories keys)
                   (Z.to_nat (DataProcessor.code_in (DataProcessor.categories keys)
                                                    (nth i keys CNaN) 0 - 0))
                 = Some d).
  { intros i Hi Hm.
    destruct (categories_cover keys (nth i keys CNaN) (nth_In _ _ Hi) Hm)
      as [d0 [Hin0 Hd0]].
    destruct (code_in_spec (DataProcessor.categories keys) (nth i keys CNaN) 0
                (Z.le_refl 0)) as [[_ Hnone] | Hsome].
    - rewrite (Hnone d0 Hin0) in Hd0. discriminate.
    - exact Hsome. }
  split.
  - intros i j Hi Hj Hmi Hmj. rewrite !categorical_codes_nth by assumption. split.
    + intros Heq. injection Heq as Heq.
      destruct (Hfound i Hi Hmi) as [d [_ [Hd [_ Hn]]]].
      destruct (Hfound j Hj Hmj) as [d' [_ [Hd' [_ Hn']]]].
      rewrite <- Heq in Hn'. rewrite Hn in Hn'. injection Hn' as <-.
      apply (same_label_trans _ d _ Hd). now rewrite same_label_sym.
    + intros Hs. now rewrite (code_in_same _ _ _ 0 Hs).
  - intros i Hi. rewrite categorical_codes_nth by exact Hi.
    destruct (DataProcessor.is_missing (nth i keys CNaN)) eqn:Hm.
    + destruct (code_in_spec (DataProcessor.categories keys) (nth i keys CNaN) 0
                  (Z.le_refl 0)) as [[Hc _] | [d [_ [Hd _]]]].
      * now rewrite Hc.
      * destruct (nth i keys CNaN); simpl in Hm, Hd; discriminate.
    + destruct (Hfound i Hi Hm) as [d [_ [_ [Hz _]]]].
      eexists. split; [ exact Hz | reflexivity ].
Qed.

Lemma platform_codes_separate_witness :
  NoDup (labels Demo.two_platforms)
  /\ exists out codes,
    DataProcessor.engineer_features Demo.two_platforms = Ok out
    /\ getitem out "platform_encoded" = Ok codes
    /\ codes = [CNum (1 # 1); CNum (0 # 1); CNum (1 # 1); CNum (1 # 1)].
Proof.
  split; [ exact two_platforms_unique | ].
  eexists.
  assert (Hout : DataProcessor.engineer_features Demo.two_platforms
                 = Ok (match DataProcessor.engineer_features Demo.two_platforms with
                       | Ok d => d | Raise _ => mk_df [] [] end))
    by (vm_compute; reflexivity).
  destruct (platform_codes_separate Demo.two_platforms _ _
              two_platforms_unique eq_refl Hout) as [codes [Hc _]].
  exists codes. split; [ exact Hout | split; [ exact Hc | ] ].
  pose proof Hc as Hc'. vm_compute in Hc'. now injection Hc' as <-.
Defined.

(** ** The modeling frame *)

Lemma positions_of_S (k : string) (ls : list string) (i : nat) :
  positions_of k ls (S i) = map S (positions_of k ls i).
Proof.
  revert i. induction ls as [ | l ls IH ]; intros i; simpl; [ reflexivity | ].
  destruct (String.eqb l k); simpl; now rewrite IH.
Qed.

(** A label of a frame with distinct labels selects its one column. *)
Lemma select_unique (df : DataFrame) (k : string) :
  NoDup (labels df) -> In k (labels df) ->
  map (column_at df) (positions_of k (labels df) 0) = [(k, column_of df k)]
  /\ named k (columns df) = [column_of df k].
Proof.
  unfold column_at, column_of, labels.
  induction (columns df) as [ | [l x] cols IH ]; simpl; intros Hnd Hin;
    [ contradiction | ].
  inversion Hnd as [ | ? ? Hnot Hrest ]; subst.
  unfold named. cbn [filter fst]. destruct (String.eqb l k) eqn:E.
  - apply String.eqb_eq in E. subst l.
    rewrite positions_of_absent by exact Hnot.
    apply named_nil in Hnot. unfold named in Hnot.
    cbn [map snd]. rewrite Hnot. now split.
  - destruct Hin as [-> | Hin]; [ rewrite String.eqb_refl in E; discriminate | ].
    destruct (IH Hrest Hin) as [Hp Hn].
    rewrite positions_of_S, map_map. cbn [nth]. split; [ exact Hp | exact Hn ].
Qed.

Lemma getitem_column_of (df : DataFrame) (k : string) :
  NoDup (labels df) -> In k (labels df) -> getitem df k = Ok (column_of df k).
Proof.
  intros Hnd Hin. apply getitem_ok_named. now apply select_unique.
Qed.

Lemma getitems_unique (df : DataFrame) (keys : list string) :
  NoDup (labels df) -> (forall k, In k keys -> In k (labels df)) ->
  getitems df keys
  = Ok (mk_df (index df) (map (fun k => (k, column_of df k)) keys)).
Proof.
  intros Hnd Hall. unfold getitems.
  assert (Hp : exists ps, locate df keys = Some ps
                 /\ map (column_at df) ps = map (fun k => (k, column_of df k)) keys).
  { induction keys as [ | k keys IH ]; simpl.
    - exists []. now split.
    - destruct IH as [qs [Hq Hm]]; [ intros k' Hk'; apply Hall; now right | ].
      destruct (select_unique df k Hnd (Hall k (or_introl eq_refl))) as [Hs _].
      destruct (positions_of k (labels df) 0) as [ | p ps ] eqn:Ep;
        [ discriminate | ].
      rewrite Hq. eexists. split; [ reflexivity | ].
      change (p :: ps ++ qs) with ((p :: ps) ++ qs).
      now rewrite map_app, Hs, Hm. }
  destruct Hp as [ps [Hps <-]]. apply positions_located in Hps.
  now rewrite Hps.
Qed.

Lemma set_index_first (idx c : column) (k : string) (cols : list (string * column)) :
  ~ In k (map fst cols) ->
  set_index (mk_df idx ((k, c) :: cols)) k = Ok (mk_df c cols).
Proof.
  intros Hnot. unfold set_index, getitem. simpl. rewrite String.eqb_refl.
  pose proof (proj2 (named_nil k cols) Hnot) as Hn. unfold named in Hn.
  apply map_eq_nil in Hn. rewrite Hn. simpl. f_equal. f_equal.
  clear Hn. induction cols as [ | [l x] cols IH ]; simpl; [ reflexivity | ].
  destruct (String.eqb l k) eqn:E.
  - apply String.eqb_eq in E. exfalso. apply Hnot. now left.
  - simpl. f_equal. apply IH. intros H. apply Hnot. now right.
Qed.

(** The selection and re-indexing [prepare_for_modeling] ends with. *)
Lemma select_modeling (df : DataFrame) :
  NoDup (labels df) ->
  (forall k, In k DataProcessor.modeling_columns -> In k (labels df)) ->
  (modeling_df <- getitems df DataProcessor.modeling_columns ;;
   set_index modeling_df "timestamp")
  = Ok (mk_df (column_of df "timestamp")
              (map (fun k => (k, column_of df k))
                   (tl DataProcessor.modeling_columns))).
Proof.
  intros Hnd Hall. rewrite getitems_unique by assumption.
  cbn [bind DataProcessor.modeling_columns map tl].
  apply set_index_first. cbn [map fst].
  intros H. repeat (destruct H as [H | H]; [ discriminate | ]). exact H.
Qed.

Lemma getitem_selected (idx : column) (f : string -> column) (keys : list string)
      (k : string) :
  NoDup keys -> In k keys ->
  getitem (mk_df idx (map (fun k => (k, f k)) keys)) k = Ok (f k).
Proof.
  intros Hnd Hin.
  assert (Hl : labels (mk_df idx (map (fun k => (k, f k)) keys)) = keys).
  { unfold labels. simpl. rewrite map_map. simpl. apply map_id. }
  rewrite getitem_column_of by (rewrite Hl; assumption).
  f_equal. unfold column_of, named. simpl. clear Hl.
  induction keys as [ | k0 keys IH ]; simpl; [ contradiction | ].
  inversion Hnd as [ | ? ? Hnot Hrest ]; subst.
  simpl. destruct (String.eqb k0 k) eqn:E.
  - apply String.eqb_eq in E. now subst.
  - destruct Hin as [-> | Hin]; [ rewrite String.eqb_refl in E; discriminate | ].
    now apply IH.
Qed.

Lemma modeling_columns_unique : NoDup DataProcessor.modeling_columns.
Proof.
  unfold DataProcessor.modeling_columns.
  repeat (constructor;
          [ intros H; repeat (destruct H as [H | H]; [ discriminate | ]); exact H | ]).
  constructor.
Qed.

Lemma column_of_take_rows (rows : list nat) (df : DataFrame) (k : string) :
  NoDup (labels df) -> In k (labels df) ->
  column_of (take_rows rows df) k = take rows (column_of df k).
Proof.
  intros Hnd Hin. unfold column_of at 1. rewrite named_take_rows.
  destruct (select_unique df k Hnd Hin) as [_ ->]. reflexivity.
Qed.

Lemma mask_rows_spec (mask : list bool) (j i : nat) :
  In i (mask_rows mask j)
  <-> (j <= i /\ i < j + length mask /\ nth (i - j) mask false = true)%nat.
Proof.
  revert j. induction mask as [ | b mask IH ]; intros j; simpl.
  - split; [ intros [] | lia ].
  - assert (Hrest : In i (mask_rows mask (S j))
                    <-> (j < i /\ i < j + S (length mask)
                         /\ nth (i - j) (b :: mask) false = true)%nat).
    { rewrite IH. split.
      - intros [H1 [H2 H3]]. split; [ lia | split; [ lia | ] ].
        replace (i - j)%nat with (S (i - S j)) by lia. exact H3.
      - intros [H1 [H2 H3]]. split; [ lia | split; [ lia | ] ].
        replace (i - j)%nat with (S (i - S j)) in H3 by lia. exact H3. }
    destruct b; simpl.
    + rewrite Hrest. split.
      * intros [<- | [H1 [H2 H3]]].
        -- split; [ lia | split; [ lia | ] ]. now rewrite Nat.sub_diag.
        -- split; [ lia | split; [ lia | exact H3 ] ].
      * intros [H1 [H2 H3]].
        destruct (Nat.eq_dec j i) as [-> | Hne]; [ now left | right ].
        split; [ lia | split; [ lia | exact H3 ] ].
    + rewrite Hrest. split.
      * intros [H1 [H2 H3]]. split; [ lia | split; [ lia | exact H3 ] ].
      * intros [H1 [H2 H3]].
        destruct (Nat.eq_dec j i) as [-> | Hne].
        -- rewrite Nat.sub_diag in H3. discriminate.
        -- split; [ lia | split; [ lia | exact H3 ] ].
Qed.

Lemma mask_rows_increasing (mask : list bool) (j : nat) :
  StronglySorted lt (mask_rows mask j).
Proof.
  revert j. induction mask as [ | b mask IH ]; intros j; simpl.
  - constructor.
  - destruct b; [ | apply IH ].
    constructor; [ apply IH | ].
    apply Forall_forall. intros i Hi. apply mask_rows_spec in Hi. lia.
Qed.

Lemma platform_rows (p : string) (plat : column) (i : nat) :
  In i (mask_rows (map (fun c => DataProcessor.same_label c (CStr p)) plat) 0)
  <-> on_platform p plat i.
Proof.
  rewrite mask_rows_spec, length_map, Nat.sub_0_r. unfold on_platform.
  split.
  - intros [_ [Hlt Hn]]. split; [ lia | ].
    rewrite (nth_indep _ false (DataProcessor.same_label CNaN (CStr p))) in Hn
      by (rewrite length_map; lia).
    rewrite (map_nth (fun c => DataProcessor.same_label c (CStr p))) in Hn.
    destruct (nth i plat CNaN); simpl in Hn; try discriminate.
    apply String.eqb_eq in Hn. now subst.
  - intros [Hlt Hn]. split; [ lia | split; [ lia | ] ].
    rewrite (nth_indep _ false (DataProcessor.same_label CNaN (CStr p)))
      by (rewrite length_map; lia).
    rewrite (map_nth (fun c => DataProcessor.same_label c (CStr p))), Hn.
    simpl. apply String.eqb_refl.
Qed.

Lemma featured_table_unique : NoDup (labels featured_table).
Proof.
  unfold featured_table, labels. cbn [columns map fst].
  repeat (constructor;
          [ intros H; repeat (destruct H as [H | H]; [ discriminate | ]); exact H | ]).
  constructor.
Qed.

Lemma featured_table_complete (k : string) :
  In k DataProcessor.modeling_columns -> In k (labels featured_table).
Proof.
  unfold DataProcessor.modeling_columns, featured_table, labels.
  cbn [columns map fst].
  intros H. repeat (destruct H as [<- | H]; [ simpl; tauto | ]). contradiction.
Qed.

(** X20.  Without a platform (none given, or an empty name)
    [prepare_for_modeling] of a frame with distinct labels that has the
    seven columns returns a frame whose row labels are the timestamps,
    whose columns are the six other ones in the order of the code, and
    whose values are those of the frame given; the row labels the frame
    had are dropped. *)
Theorem modeling_frame_without_platform (df : DataFrame) (target : option string) :
  NoDup (labels df) ->
  (forall k, In k DataProcessor.modeling_columns -> In k (labels df)) ->
  target = None \/ target = Some EmptyString ->
  exists out,
    DataProcessor.prepare_for_modeling df target = Ok out
    /\ getitem df "timestamp" = Ok (index out)
    /\ labels out = ["audience_count"; "is_weekend"; "is_prime_time";
                     "audience_7day_mean"; "audience_7day_std"; "engagement_score"]
    /\ forall k, In k (labels out) -> getitem out k = getitem df k.
Proof.
  intros Hnd Hall Ht.
  assert (Hrun : DataProcessor.prepare_for_modeling df target
                 = (modeling_df <- getitems df DataProcessor.modeling_columns ;;
                    set_index modeling_df "timestamp"))
    by (destruct Ht as [-> | ->]; reflexivity).
  rewrite Hrun, select_modeling by assumption.
  eexists. split; [ reflexivity | ]. cbn [index].
  split; [ apply getitem_column_of; [ exact Hnd | apply Hall; now left ] | ].
  split; [ reflexivity | ].
  intros k Hk.
  assert (Hin : In k (tl DataProcessor.modeling_columns)) by exact Hk.
  rewrite (getitem_selected _ (column_of df)).
  - symmetry. apply getitem_column_of; [ exact Hnd | apply Hall; now right ].
  - pose proof modeling_columns_unique as Hu. now inversion Hu.
  - exact Hin.
Qed.

Lemma modeling_frame_without_platform_witness :
  NoDup (labels featured_table)
  /\ (forall k, In k DataProcessor.modeling_columns -> In k (labels featured_table))
  /\ exists out,
       DataProcessor.prepare_for_modeling featured_table None = Ok out
       /\ index out = [CTime (Demo.day 19723); CTime (Demo.day 19724);
                       CTime (Demo.day 19725)]
       /\ getitem out "audience_count" = Ok [CNum (120 # 1); CNum (95 # 1); CNum (130 # 1)].
Proof.
  split; [ exact featured_table_unique | split; [ exact featured_table_complete | ] ].
  destruct (modeling_frame_without_platform featured_table None
              featured_table_unique featured_table_complete (or_introl eq_refl))
    as [out [Hout [Hts [Hl Hcols]]]].
  exists out. split; [ exact Hout | ]. split.
  - assert (E : getitem featured_table "timestamp"
                = Ok [CTime (Demo.day 19723); CTime (Demo.day 19724);
                      CTime (Demo.day 19725)]) by reflexivity.
    rewrite E in Hts. now injection Hts as <-.
  - rewrite Hcols by (rewrite Hl; now left). reflexivity.
Defined.

(** X21.  With a platform name, [prepare_for_modeling] keeps exactly the
    rows of the frame whose platform is that name, in the order they
    had: one increasing list of row positions gives the row labels of
    the result from the timestamps and each of its six columns from the
    column of the same label. *)
Theorem modeling_frame_of_platform (df : DataFrame) (p : string) (plat : column) :
  NoDup (labels df) ->
  (forall k, In k DataProcessor.modeling_columns -> In k (labels df)) ->
  getitem df "platform" = Ok plat ->
  p <> EmptyString ->
  exists out rows,
    DataProcessor.prepare_for_modeling df (Some p) = Ok out
    /\ StronglySorted lt rows
    /\ (forall i, In i rows <-> on_platform p plat i)
    /\ index out = take rows (column_of df "timestamp")
    /\ forall k, In k (tl DataProcessor.modeling_columns) ->
         getitem out k = Ok (take rows (column_of df k)).
Proof.
  intros Hnd Hall Hplat Hp.
  set (rows := mask_rows (map (fun c => DataProcessor.same_label c (CStr p)) plat) 0).
  assert (Hrun : DataProcessor.prepare_for_modeling df (Some p)
                 = (modeling_df <- getitems (take_rows rows df)
                                            DataProcessor.modeling_columns ;;
                    set_index modeling_df "timestamp")).
  { unfold DataProcessor.prepare_for_modeling.
    destruct p as [ | a p ]; [ congruence | ]. now rewrite Hplat. }
  rewrite Hrun, select_modeling by (rewrite labels_take_rows; assumption).
  eexists. exists rows. split; [ reflexivity | ].
  split; [ apply mask_rows_increasing | ].
  split; [ intros i; apply platform_rows | ]. cbn [index].
  split; [ apply column_of_take_rows; [ exact Hnd | apply Hall; now left ] | ].
  intros k Hk.
  rewrite (getitem_selected _ (column_of (take_rows rows df))).
  - f_equal. apply column_of_take_rows; [ exact Hnd | apply Hall; now right ].
  - pose proof modeling_columns_unique as Hu. now inversion Hu.
  - exact Hk.
Qed.

Lemma modeling_frame_of_platform_witness :
  NoDup (labels featured_table)
  /\ (forall k, In k DataProcessor.modeling_columns -> In k (labels featured_table))
  /\ getitem featured_table "platform" = Ok [CStr "Web"; CStr "App"; CStr "Web"]
  /\ "Web" <> EmptyString
  /\ exists out,
       DataProcessor.prepare_for_modeling featured_table (Some "Web") = Ok out
       /\ index out = [CTime (Demo.day 19723); CTime (Demo.day 19725)].
Proof.
  split; [ exact featured_table_unique | split; [ exact featured_table_complete | ] ].
  split; [ reflexivity | split; [ discriminate | ] ].
  destruct (modeling_frame_of_platform featured_table "Web" _
              featured_table_unique featured_table_complete eq_refl
              ltac:(discriminate))
    as [out [rows [Hout _]]].
  exists out. split; [ exact Hout | ].
  assert (E : DataProcessor.prepare_for_modeling featured_table (Some "Web")
              = Ok (mk_df [CTime (Demo.day 19723); CTime (Demo.day 19725)]
                      (map (fun k => (k, take [0; 2]%nat (column_of featured_table k)))
                           (tl DataProcessor.modeling_columns))))
    by (vm_compute; reflexivity).
  rewrite E in Hout. now injection Hout as <-.
Defined.

(** X22.  A platform name that no row carries is no error: the modeling
    frame comes back with no row, each of its six columns empty. *)
Theorem modeling_frame_of_unknown_platform (df : DataFrame) (p : string)
        (plat : column) :
  NoDup (labels df) ->
  (forall k, In k DataProcessor.modeling_columns -> In k (labels df)) ->
  getitem df "platform" = Ok plat ->
  p <> EmptyString ->
  ~ In (CStr p) plat ->
  exists out,
    DataProcessor.prepare_for_modeling df (Some p) = Ok out
    /\ nrows out = 0%nat
    /\ forall k, In k (tl DataProcessor.modeling_columns) -> getitem out k = Ok [].
Proof.
  intros Hnd Hall Hplat Hp Hnone.
  set (rows := mask_rows (map (fun c => DataProcessor.same_label c (CStr p)) plat) 0).
  assert (Hrows : rows = []).
  { destruct rows as [ | i rows' ] eqn:E; [ reflexivity | ].
    assert (Hi : In i (mask_rows (map (fun c => DataProcessor.same_label c (CStr p))
                                      plat) 0))
      by (fold rows; rewrite E; now left).
    apply platform_rows in Hi. destruct Hi as [Hlt Hn].
    exfalso. apply Hnone. rewrite <- Hn. now apply nth_In. }
  assert (Hrun : DataProcessor.prepare_for_modeling df (Some p)
                 = (modeling_df <- getitems (take_rows rows df)
                                            DataProcessor.modeling_columns ;;
                    set_index modeling_df "timestamp")).
  { unfold DataProcessor.prepare_for_modeling.
    destruct p as [ | a p ]; [ congruence | ]. now rewrite Hplat. }
  rewrite Hrun, select_modeling by (rewrite labels_take_rows; assumption).
  eexists. split; [ reflexivity | ].
  split.
  - unfold nrows. cbn [index].
    rewrite column_of_take_rows by (try exact Hnd; apply Hall; now left).
    now rewrite Hrows.
  - intros k Hk.
    rewrite (getitem_selected _ (column_of (take_rows rows df))).
    + f_equal.
      rewrite column_of_take_rows by (try exact Hnd; apply Hall; now right).
      now rewrite Hrows.
    + pose proof modeling_columns_unique as Hu. now inversion Hu.
    + exact Hk.
Qed.

Lemma modeling_frame_of_unknown_platform_witness :
  NoDup (labels featured_table)
  /\ (forall k, In k DataProcessor.modeling_columns -> In k (labels featured_table))
  /\ getitem featured_table "platform" = Ok [CStr "Web"; CStr "App"; CStr "Web"]
  /\ "TV" <> EmptyString
  /\ ~ In (CStr "TV") [CStr "Web"; CStr "App"; CStr "Web"]
  /\ exists out,
       DataProcessor.prepare_for_modeling featured_table (Some "TV") = Ok out
       /\ nrows out = 0%nat.
Proof.
  assert (Hno : ~ In (CStr "TV") [CStr "Web"; CStr "App"; CStr "Web"])
    by (intros H; repeat (destruct H as [H | H]; [ discriminate | ]); exact H).
  split; [ exact featured_table_unique | split; [ exact featured_table_complete | ] ].
  split; [ reflexivity | split; [ discriminate | split; [ exact Hno | ] ] ].
  destruct (modeling_frame_of_unknown_platform featured_table "TV" _
              featured_table_unique featured_table_complete eq_refl
              ltac:(discriminate) Hno)
    as [out [Hout [Hn _]]].
  exists out. split; [ exact Hout | exact Hn ].
Defined.

(** X23.  A frame with distinct labels that has some of the seven
    columns and lacks others makes [prepare_for_modeling] raise a
    [KeyError] whose key is the message listing the absent columns, in
    the order of the code, followed by "not in index"; when a platform
    is asked for and the platform column is absent, the [KeyError] is
    that of the platform column and comes first. *)
Theorem modeling_frame_missing_column (df : DataFrame) (target : option string)
        (k k' : string) :
  NoDup (labels df) ->
  In k DataProcessor.modeling_columns -> ~ In k (labels df) ->
  In k' DataProcessor.modeling_columns -> In k' (labels df) ->
  DataProcessor.prepare_for_modeling df target
  = Raise (KeyError
             (let absent := filter (fun l => negb (has_column df l))
                                   DataProcessor.modeling_columns in
              match target with
              | Some (String _ _) =>
                  if has_column df "platform"
                  then list_repr absent ++ " not in index"
                  else "platform"
              | Some EmptyString | None => list_repr absent ++ " not in index"
              end)).
Proof.
  intros Hnd Hk Hnot Hk' Hin'. cbv zeta.
  assert (Hsel : forall df', labels df' = labels df ->
            (modeling_df <- getitems df' DataProcessor.modeling_columns ;;
             set_index modeling_df "timestamp")
            = Raise (KeyError
                       (list_repr (filter (fun l => negb (has_column df l))
                                          DataProcessor.modeling_columns)
                        ++ " not in index"))).
  { intros df' Hl. unfold getitems.
    rewrite (positions_missing df' DataProcessor.modeling_columns
               modeling_columns_unique).
    - rewrite (has_column_same_labels df df' _ Hl). reflexivity.
    - exists k. split; [ exact Hk | now rewrite Hl ].
    - exists k'. split; [ exact Hk' | now rewrite Hl ]. }
  destruct target as [ [ | a p ] | ].
  - exact (Hsel df eq_refl).
  - unfold DataProcessor.prepare_for_modeling.
    destruct (has_column df "platform") eqn:Ep.
    + apply has_column_In in Ep.
      rewrite (getitem_column_of df "platform" Hnd Ep). cbn [bind].
      apply Hsel. apply labels_take_rows.
    + assert (Ha : ~ In "platform" (labels df)).
      { intros H. apply has_column_In in H. congruence. }
      rewrite getitem_named. apply named_nil in Ha. now rewrite Ha.
  - exact (Hsel df eq_refl).
Qed.

Lemma modeling_frame_missing_column_witness :
  NoDup (labels Demo.constant_table)
  /\ In "is_weekend" DataProcessor.modeling_columns
  /\ ~ In "is_weekend" (labels Demo.constant_table)
  /\ In "timestamp" DataProcessor.modeling_columns
  /\ In "timestamp" (labels Demo.constant_table)
  /\ DataProcessor.prepare_for_modeling Demo.constant_table (Some "Web")
     = Raise (KeyError
                "['is_weekend', 'is_prime_time', 'audience_7day_mean', 'audience_7day_std', 'engagement_score'] not in index").
Proof.
  assert (Hnd : NoDup (labels Demo.constant_table)).
  { unfold Demo.constant_table, labels. cbn [columns map fst].
    repeat (constructor;
            [ intros H; repeat (destruct H as [H | H]; [ discriminate | ]); exact H | ]).
    constructor. }
  assert (Hin : In "is_weekend" DataProcessor.modeling_columns)
    by (unfold DataProcessor.modeling_columns; simpl; tauto).
  assert (Hno : ~ In "is_weekend" (labels Demo.constant_table))
    by (intros H; repeat (destruct H as [H | H]; [ discriminate | ]); exact H).
  assert (Hts : In "timestamp" DataProcessor.modeling_columns)
    by (unfold DataProcessor.modeling_columns; simpl; tauto).
  assert (Hts' : In "timestamp" (labels Demo.constant_table))
    by (simpl; tauto).
  split; [ exact Hnd | split; [ exact Hin | split; [ exact Hno | ] ] ].
  split; [ exact Hts | split; [ exact Hts' | ] ].
  rewrite (modeling_frame_missing_column Demo.constant_table (Some "Web")
             "is_weekend" "timestamp" Hnd Hin Hno Hts Hts').
  reflexivity.
Defined.

Lemma ts_le_trans (a b c : cell) : ts_le a b -> ts_le b c -> ts_le a c.
Proof. destruct a, b, c; simpl; try tauto; lia. Qed.

Lemma StronglySorted_nth {A} (R : A -> A -> Prop) (l : list A) (d : A) (i j : nat) :
  StronglySorted R l -> (i < j)%nat -> (j < length l)%nat ->
  R (nth i l d) (nth j l d).
Proof.
  intros Hs. revert i j. induction Hs as [ | x l Hs IH Hall ]; intros i j Hij Hj.
  - simpl in Hj. lia.
  - destruct j as [ | j ]; [ lia | ]. simpl in Hj.
    destruct i as [ | i ]; simpl.
    + rewrite Forall_forall in Hall. apply Hall. apply nth_In. lia.
    + apply IH; lia.
Qed.

(** Rows taken at increasing positions of an ordered column are
    ordered. *)
Lemma take_increasing_sorted (R : cell -> cell -> Prop) (rows : list nat) (c : column) :
  StronglySorted R c -> StronglySorted lt rows ->
  Forall (fun i => (i < length c)%nat) rows ->
  StronglySorted R (take rows c).
Proof.
  intros Hc Hrows Hin. unfold take.
  induction Hrows as [ | i rows Hrows IH Hall ]; simpl; [ constructor | ].
  inversion Hin as [ | ? ? Hi Hrest ]; subst.
  constructor; [ now apply IH | ].
  rewrite Forall_forall in *. intros x Hx.
  apply in_map_iff in Hx. destruct Hx as [j [<- Hj]].
  apply StronglySorted_nth; [ exact Hc | now apply Hall | now apply Hrest ].
Qed.

(** X24.  Time order goes through [prepare_for_modeling]: for a frame
    with distinct labels that has the seven columns and the platform
    column, each row with its platform, and whose timestamps ascend
    (rows without a date last), the row labels of the modeling frame
    ascend in the same way, for one platform as for all. *)
Theorem modeling_index_in_time_order (df : DataFrame) (target : option string)
        (plat ts : column) :
  NoDup (labels df) ->
  (forall k, In k DataProcessor.modeling_columns -> In k (labels df)) ->
  getitem df "platform" = Ok plat ->
  getitem df "timestamp" = Ok ts ->
  length plat = length ts ->
  Sorted ts_le ts ->
  exists out,
    DataProcessor.prepare_for_modeling df target = Ok out
    /\ Sorted ts_le (index out).
Proof.
  intros Hnd Hall Hplat Hts Hlen Hsorted.
  assert (Hcol : column_of df "timestamp" = ts).
  { rewrite (getitem_column_of df "timestamp" Hnd) in Hts
      by (apply Hall; now left).
    now injection Hts. }
  assert (Hplain : (modeling_df <- getitems df DataProcessor.modeling_columns ;;
                    set_index modeling_df "timestamp")
                   = Ok (mk_df ts (map (fun k => (k, column_of df k))
                                       (tl DataProcessor.modeling_columns))))
    by (rewrite select_modeling by assumption; now rewrite Hcol).
  destruct target as [ [ | a p ] | ].
  - eexists. split; [ exact Hplain | exact Hsorted ].
  - set (rows := mask_rows (map (fun c => DataProcessor.same_label c
                                            (CStr (String a p))) plat) 0).
    assert (Hrun : DataProcessor.prepare_for_modeling df (Some (String a p))
                   = (modeling_df <- getitems (take_rows rows df)
                                              DataProcessor.modeling_columns ;;
                      set_index modeling_df "timestamp")).
    { unfold DataProcessor.prepare_for_modeling. now rewrite Hplat. }
    rewrite Hrun, select_modeling by (rewrite labels_take_rows; assumption).
    eexists. split; [ reflexivity | ]. cbn [index].
    rewrite column_of_take_rows by (try exact Hnd; apply Hall; now left).
    rewrite Hcol. apply StronglySorted_Sorted.
    apply take_increasing_sorted.
    + apply Sorted_StronglySorted; [ | exact Hsorted ].
      intros x y z. apply ts_le_trans.
    + apply mask_rows_increasing.
    + apply Forall_forall. intros i Hi. apply platform_rows in Hi.
      destruct Hi as [Hi _]. now rewrite <- Hlen.
  - eexists. split; [ exact Hplain | exact Hsorted ].
Qed.

Lemma modeling_index_in_time_order_witness :
  NoDup (labels featured_table)
  /\ (forall k, In k DataProcessor.modeling_columns -> In k (labels featured_table))
  /\ Sorted ts_le [CTime (Demo.day 19723); CTime (Demo.day 19724);
                   CTime (Demo.day 19725)]
  /\ exists out,
       DataProcessor.prepare_for_modeling featured_table (Some "Web") = Ok out
       /\ Sorted ts_le (index out).
Proof.
  assert (Hs : Sorted ts_le [CTime (Demo.day 19723); CTime (Demo.day 19724);
                             CTime (Demo.day 19725)]).
  { repeat constructor; vm_compute; discriminate. }
  split; [ exact featured_table_unique | split; [ exact featured_table_complete | ] ].
  split; [ exact Hs | ].
  exact (modeling_index_in_time_order featured_table (Some "Web")
           [CStr "Web"; CStr "App"; CStr "Web"] _
           featured_table_unique featured_table_complete eq_refl eq_refl eq_refl Hs).
Defined.
